(** * The undo / revert core of the CSV uploader

    A shallow embedding of [databricks_csv_uploader.py]: the Dash callbacks
    that edit the uploaded table, the bounded undo stack, the header
    derivation of [create_preview_table] and the schema inference of
    [create_delta_table_sql]; then the paths and names of the upload and of
    the statement, the lazy Databricks client and the checks of [config.py].

    Python objects live in a store, so that the shallow [dict.copy()] the
    callbacks push on the undo stack shares its lists and row dicts with the
    table that is edited afterwards. *)

From Stdlib Require Import ZArith String Ascii List Bool Lia.
From Stdlib Require Import Floats.SpecFloat.
From stdpp Require Import base option list strings pretty.

Local Open Scope nat_scope.

(** ** Python scalars *)

(** The scalars a JSON document decodes to.  [nan] is the float
    [S754_nan]. *)
Inductive pyval :=
  | PNone
  | PBool (b : bool)
  | PInt (z : Z)
  | PFloat (f : spec_float)
  | PStr (s : string).

Definition fnan : spec_float := S754_nan.

(** [float(z)]: the binary64 nearest to [z]. *)
Definition float_of_int (z : Z) : spec_float :=
  binary_normalize 53 1024 z 0%Z false.

Definition is_nan (v : pyval) : bool :=
  match v with
  | PFloat S754_nan => true
  | _ => false
  end.

(** [pd.notna]: everything but [None] and [nan]. *)
Definition pd_notna (v : pyval) : bool :=
  match v with
  | PNone => false
  | _ => negb (is_nan v)
  end.

(** ** The object store *)

Abbreviation loc := nat.

Inductive value :=
  | VScalar (c : pyval)
  | VRef (l : loc).

(** A [dict] keeps its keys in insertion order. *)
Inductive object :=
  | OList (items : list value)
  | ODict (entries : list (string * value)).

Abbreviation heap := (list object).

(** Store passing with failure: [None] is a raised exception. *)
Definition py (A : Type) : Type := heap -> option (A * heap).

#[global] Instance py_ret : MRet py := fun A a h => Some (a, h).
#[global] Instance py_bind : MBind py := fun A B f m h =>
  match m h with
  | Some (a, h') => f a h'
  | None => None
  end.

Definition raise {A} : py A := fun _ => None.

Definition alloc (o : object) : py value :=
  fun h => Some (VRef (length h), h ++ [o]).

Definition deref (v : value) : py object :=
  fun h =>
    match v with
    | VRef l => match h !! l with Some o => Some (o, h) | None => None end
    | VScalar _ => None
    end.

Definition assign (v : value) (o : object) : py unit :=
  fun h =>
    match v with
    | VRef l => if decide (l < length h) then Some (tt, <[l := o]> h) else None
    | VScalar _ => None
    end.

(** *** Dict entries *)

Section Entries.
Context {V : Type}.

Fixpoint entries_get (k : string) (es : list (string * V)) : option V :=
  match es with
  | [] => None
  | (k', v) :: es' => if String.eqb k' k then Some v else entries_get k es'
  end.

(** [d[k] = v]: an existing key keeps its place. *)
Fixpoint entries_set (k : string) (v : V) (es : list (string * V))
  : list (string * V) :=
  match es with
  | [] => [(k, v)]
  | (k', v') :: es' =>
      if String.eqb k' k then (k', v) :: es'
      else (k', v') :: entries_set k v es'
  end.

Fixpoint entries_del (k : string) (es : list (string * V))
  : list (string * V) :=
  match es with
  | [] => []
  | (k', v') :: es' =>
      if String.eqb k' k then es' else (k', v') :: entries_del k es'
  end.

Definition entries_has (k : string) (es : list (string * V)) : bool :=
  match entries_get k es with Some _ => true | None => false end.
End Entries.

(** *** Operations on objects *)

Definition as_list (v : value) : py (list value) :=
  o ← deref v;
  match o with OList items => mret items | ODict _ => raise end.

Definition as_dict (v : value) : py (list (string * value)) :=
  o ← deref v;
  match o with ODict es => mret es | OList _ => raise end.

(** [d[k]] *)
Definition getitem (d : value) (k : string) : py value :=
  es ← as_dict d;
  match entries_get k es with Some v => mret v | None => raise end.

(** [d[k] = v] *)
Definition setitem (d : value) (k : string) (v : value) : py unit :=
  es ← as_dict d;
  assign d (ODict (entries_set k v es)).

(** [del d[k]] *)
Definition delitem (d : value) (k : string) : py unit :=
  es ← as_dict d;
  if entries_has k es then assign d (ODict (entries_del k es)) else raise.

(** [k in d] *)
Definition contains_key (d : value) (k : string) : py bool :=
  es ← as_dict d;
  mret (entries_has k es).

(** [d.copy()]: a new dict holding the same values. *)
Definition dict_copy (d : value) : py value :=
  es ← as_dict d;
  alloc (ODict es).

(** [l.append(v)] *)
Definition list_append (l v : value) : py unit :=
  items ← as_list l;
  assign l (OList (items ++ [v])).

(** [len(l)] *)
Definition len (l : value) : py nat :=
  items ← as_list l;
  mret (length items).

(** Truth value of a store entry: [None] and empty containers are false. *)
Definition truthy (v : value) : py bool :=
  match v with
  | VScalar PNone => mret false
  | VScalar (PBool b) => mret b
  | VScalar (PInt z) => mret (negb (Z.eqb z 0%Z))
  | VScalar (PFloat f) =>
      mret (match f with S754_zero _ => false | _ => true end)
  | VScalar (PStr s) => mret (negb (String.eqb s ""))
  | VRef _ =>
      o ← deref v;
      match o with
      | OList items => mret (negb (Nat.eqb (length items) 0))
      | ODict es => mret (negb (Nat.eqb (length es) 0))
      end
  end.

(** ** The undo stack *)

Definition UNDO_LIMIT : nat := 10.

(** [l[-n:]] for [n > 0] *)
Definition last_n {A} (n : nat) (l : list A) : list A :=
  drop (length l - n) l.

Definition push_to_undo_stack (undo_stack new_state : value) : py value :=
  nonempty ← truthy undo_stack;
  undo_stack ← (if negb nonempty then alloc (OList []) else mret undo_stack);
  list_append undo_stack new_state;;
  n ← len undo_stack;
  if UNDO_LIMIT <? n
  then items ← as_list undo_stack; alloc (OList (last_n UNDO_LIMIT items))
  else mret undo_stack.

(** [l.pop()] *)
Definition list_pop (l : value) : py value :=
  items ← as_list l;
  match last items with
  | Some v => assign l (OList (removelast items));; mret v
  | None => raise
  end.

Definition pop_from_undo_stack (undo_stack : value)
  : py (option value * value) :=
  nonempty ← truthy undo_stack;
  if negb nonempty
  then empty ← alloc (OList []); mret (None, empty)
  else previous_state ← list_pop undo_stack;
       mret (Some previous_state, undo_stack).

Definition get_undo_count (undo_stack : value) : py nat :=
  nonempty ← truthy undo_stack;
  if negb nonempty then mret 0 else len undo_stack.

(** ** Documents held in the browser stores *)

(** A row of the table: the key/value pairs of one record, in key order.
    The keys of a decoded record are distinct. *)
Definition row := list (string * pyval).

(** The value of [csv-data-store] and [original-data-store]:
    [{'data': records, 'columns': names}]. *)
Record snapshot := Snapshot { data : list row; columns : list string }.

(** The value of [file-data-store]; only its ['filename'] is read. *)
Inductive file_store :=
  | file_none
  | file_dict (filename : option string).

(** [for x in xs: body(x)] *)
Fixpoint for_each {A} (body : A -> py unit) (xs : list A) : py unit :=
  match xs with
  | [] => mret tt
  | x :: xs' => body x;; for_each body xs'
  end.

Definition row_obj (r : row) : object :=
  ODict (map (fun kc => (kc.1, VScalar kc.2)) r).

Definition names_obj (cs : list string) : object :=
  OList (map (fun c => VScalar (PStr c)) cs).

Definition load_row (r : row) : py value := alloc (row_obj r).

Definition load_records (rs : list row) : py value :=
  refs ← mapM load_row rs;
  alloc (OList refs).

Definition load_names (cs : list string) : py value := alloc (names_obj cs).

Definition load_snapshot (s : snapshot) : py value :=
  d ← load_records (data s);
  c ← load_names (columns s);
  alloc (ODict [("data", d); ("columns", c)]).

(** An empty store holds [None]. *)
Definition load_store (s : option snapshot) : py value :=
  match s with
  | Some s => load_snapshot s
  | None => mret (VScalar PNone)
  end.

Definition load_stack (st : option (list snapshot)) : py value :=
  match st with
  | Some entries => refs ← mapM load_snapshot entries; alloc (OList refs)
  | None => mret (VScalar PNone)
  end.

Definition as_scalar (v : value) : py pyval :=
  match v with VScalar c => mret c | VRef _ => raise end.

Definition as_str (v : value) : py string :=
  match v with VScalar (PStr s) => mret s | _ => raise end.

Definition dump_row (v : value) : py row :=
  es ← as_dict v;
  mapM (fun kv => c ← as_scalar kv.2; mret (kv.1, c)) es.

Definition dump_records (v : value) : py (list row) :=
  items ← as_list v;
  mapM dump_row items.

Definition dump_names (v : value) : py (list string) :=
  items ← as_list v;
  mapM as_str items.

Definition dump_snapshot (v : value) : py snapshot :=
  d ← getitem v "data";
  c ← getitem v "columns";
  rows ← dump_records d;
  names ← dump_names c;
  mret (Snapshot rows names).

Definition dump_stack (v : value) : py (list snapshot) :=
  items ← as_list v;
  mapM dump_snapshot items.

(** A stack output that may be [None]: [revert_to_original] hands back the
    stack it was given when there is no current table. *)
Definition dump_stack_or_none (v : value) : py (option (list snapshot)) :=
  match v with
  | VScalar PNone => mret None
  | _ => st ← dump_stack v; mret (Some st)
  end.

(** ** The part of pandas the callbacks use *)

Inductive dtype := dt_object | dt_bool | dt_int64 | dt_uint64 | dt_float64.

#[global] Instance dtype_eq_dec : EqDecision dtype.
Proof. solve_decision. Defined.

Definition INT64_MIN : Z := (- 2 ^ 63)%Z.
Definition INT64_MAX : Z := (2 ^ 63 - 1)%Z.
Definition UINT64_MAX : Z := (2 ^ 64 - 1)%Z.

(** What the scan of a column has met so far
    ([pandas._libs.lib.maybe_convert_objects]). *)
Record Seen := mkSeen {
  null_ : bool; nan_ : bool; bool_ : bool; int_ : bool;
  uint_ : bool; sint_ : bool; float_ : bool; object_ : bool }.

Definition seen_nothing : Seen :=
  mkSeen false false false false false false false false.

(** One pass over the column; an object (a string, an integer out of
    range) ends it. *)
Fixpoint scan_objects (vals : list pyval) (seen : Seen) : Seen :=
  match vals with
  | [] => seen
  | PNone :: vals' =>
      scan_objects vals'
        (mkSeen true (nan_ seen) (bool_ seen) (int_ seen)
                (uint_ seen) (sint_ seen) (float_ seen) (object_ seen))
  | PFloat S754_nan :: vals' =>
      scan_objects vals'
        (mkSeen (null_ seen) true (bool_ seen) (int_ seen)
                (uint_ seen) (sint_ seen) (float_ seen) (object_ seen))
  | PBool _ :: vals' =>
      scan_objects vals'
        (mkSeen (null_ seen) (nan_ seen) true (int_ seen)
                (uint_ seen) (sint_ seen) (float_ seen) (object_ seen))
  | PInt z :: vals' =>
      if null_ seen
      then scan_objects vals'
             (mkSeen (null_ seen) (nan_ seen) (bool_ seen) true
                     (uint_ seen) (sint_ seen) (float_ seen) (object_ seen))
      else
        let uint' := uint_ seen || ((INT64_MAX <? z)%Z && (z <=? UINT64_MAX)%Z) in
        let sint' := sint_ seen || ((INT64_MIN <=? z)%Z && (z <? 0)%Z) in
        if (uint' && sint') || (UINT64_MAX <? z)%Z || (z <? INT64_MIN)%Z
        then mkSeen (null_ seen) (nan_ seen) (bool_ seen) true
                    uint' sint' (float_ seen) true
        else scan_objects vals'
               (mkSeen (null_ seen) (nan_ seen) (bool_ seen) true
                       uint' sint' (float_ seen) (object_ seen))
  | PFloat _ :: vals' =>
      scan_objects vals'
        (mkSeen (null_ seen) (nan_ seen) (bool_ seen) (int_ seen)
                (uint_ seen) (sint_ seen) true (object_ seen))
  | PStr _ :: _ =>
      mkSeen (null_ seen) (nan_ seen) (bool_ seen) (int_ seen)
             (uint_ seen) (sint_ seen) (float_ seen) true
  end.

Definition maybe_convert_objects (vals : list pyval) : dtype :=
  let seen := scan_objects vals seen_nothing in
  if bool_ seen then
    if negb (int_ seen || float_ seen || object_ seen
             || nan_ seen || null_ seen)
    then dt_bool else dt_object
  else if object_ seen then dt_object
  else if null_ seen || nan_ seen then
    if float_ seen then dt_float64
    else if int_ seen || uint_ seen then dt_float64
    else if nan_ seen then dt_float64
    else dt_object
  else
    if float_ seen then dt_float64
    else if int_ seen then (if uint_ seen then dt_uint64 else dt_int64)
    else dt_object.

(** A cell as the column of dtype [dt] stores it: a float column holds
    its integers as floats and its [None] as [nan]. *)
Definition cast (dt : dtype) (v : pyval) : pyval :=
  match dt, v with
  | dt_float64, PInt z => PFloat (float_of_int z)
  | dt_float64, PNone => PFloat fnan
  | _, _ => v
  end.

Record DataFrame := mkDataFrame {
  df_columns : list string;
  df_dtypes : list dtype;
  df_rows : list (list pyval) }.

Definition add_keys (cols : list string) (r : row) : list string :=
  fold_left (fun acc kc => if bool_decide (kc.1 ∈ acc) then acc else acc ++ [kc.1])
            r cols.

(** The column labels of [pd.DataFrame(records)]: the keys of the records
    in order of first appearance. *)
Definition union_keys (records : list row) : list string :=
  fold_left add_keys records [].

(** The cell of a record under a label: a missing key reads as [nan]. *)
Definition cell_of (r : row) (col : string) : pyval :=
  match entries_get col r with Some c => c | None => PFloat fnan end.

(** [pd.DataFrame(records)] for a list of dicts. *)
Definition pd_DataFrame (records : list row) : DataFrame :=
  let cols := union_keys records in
  let dts := map (fun col => maybe_convert_objects (map (fun r => cell_of r col) records)) cols in
  mkDataFrame cols dts
    (map (fun r => zip_with (fun col dt => cast dt (cell_of r col)) cols dts) records).

(** [len(df)] *)
Definition df_len (df : DataFrame) : nat := length (df_rows df).

(** [df.head(n)] *)
Definition df_head (n : nat) (df : DataFrame) : DataFrame :=
  mkDataFrame (df_columns df) (df_dtypes df) (take n (df_rows df)).

(** [dict(zip(labels, cells))]: a repeated label keeps its first place and
    its last cell. *)
Definition dict_zip (labels : list string) (cells : list pyval) : row :=
  fold_left (fun acc kc => entries_set kc.1 kc.2 acc) (zip labels cells) [].

(** [df.to_dict('records')] *)
Definition to_dict_records (df : DataFrame) : list row :=
  map (dict_zip (df_columns df)) (df_rows df).

(** [df.copy()] with [.columns = names] assigned. *)
Definition set_columns (names : list string) (df : DataFrame) : DataFrame :=
  mkDataFrame names (df_dtypes df) (df_rows df).

Definition is_numeric (dt : dtype) : bool :=
  match dt with
  | dt_int64 | dt_uint64 | dt_float64 => true
  | _ => false
  end.

(** The dtype of a row taken across the columns. *)
Definition common_dtype (dts : list dtype) : dtype :=
  match dts with
  | [] => dt_object
  | dt :: rest =>
      if forallb (fun d => bool_decide (d = dt)) rest then dt
      else if forallb is_numeric dts then dt_float64
      else dt_object
  end.

(** [df.iloc[0]]: the first row as a series indexed by the column labels;
    the frame has a first row. *)
Definition iloc0 (df : DataFrame) : row :=
  match df_rows df with
  | r :: _ => zip (df_columns df) (map (cast (common_dtype (df_dtypes df))) r)
  | [] => []
  end.

(** ** Outputs of the callbacks *)

(** [html.Div(children, className=...)] *)
Record Div := mkDiv { children : string; className : string }.

(** The [DataTable] of the preview: its column descriptors
    [{"name": ..., "id": ...}], its rows, and whether its first row is
    highlighted as the header source; and the file name of the title. *)
Record preview := mkPreview {
  table_columns : list (string * string);
  table_data : list row;
  highlight_first_row : bool;
  title_filename : option string }.

(** A callback either raises [PreventUpdate] or returns its outputs. *)
Inductive outcome (A : Type) :=
  | PreventUpdate
  | Return (outputs : A).
Arguments PreventUpdate {A}.
Arguments Return {A} outputs.

(** One output of a callback: [dash.no_update] or a new value. *)
Inductive output (A : Type) :=
  | no_update
  | update (a : A).
Arguments no_update {A}.
Arguments update {A} a.

(** [try: body except Exception: handler] *)
Definition try_except {A} (body handler : py A) : py A :=
  fun h => match body h with Some r => Some r | None => handler h end.

(** [file_data.get('filename')]; [None] has no [get]. *)
Definition file_get_filename (file_data : file_store) : py (option string) :=
  match file_data with
  | file_dict name => mret name
  | file_none => raise
  end.

(** [file_data.get('filename') if file_data else None] *)
Definition file_filename_or_none (file_data : file_store) : option string :=
  match file_data with
  | file_dict name => name
  | file_none => None
  end.

(** ['header' in (has_header or [])] *)
Definition header_checked (has_header : option (list string)) : bool :=
  match has_header with
  | Some values => bool_decide ("header" ∈ values)
  | None => false
  end.

(** ** Characters of a string

    A string of the model holds the UTF-8 bytes of the Python string.
    Python counts and slices characters (code points): a character is a
    byte that is no continuation byte ([10xxxxxx]), with the continuation
    bytes that follow it. *)

Definition is_continuation (b : ascii) : bool :=
  (128 <=? nat_of_ascii b) && (nat_of_ascii b <? 192).

(** [len(s)] *)
Fixpoint py_len (s : string) : nat :=
  match s with
  | EmptyString => 0
  | String b s' => if is_continuation b then py_len s' else S (py_len s')
  end.

(** [s[:n]] *)
Fixpoint py_take (n : nat) (s : string) : string :=
  match s with
  | EmptyString => EmptyString
  | String b s' =>
      if is_continuation b then String b (py_take n s')
      else match n with
           | 0 => EmptyString
           | S k => String b (py_take k s')
           end
  end.

Section Callbacks.

(** [str] of a float, the shortest decimal that reads back as the same
    float, is a parameter of the development. *)
Variable float_repr : spec_float -> string.

(** [str(v)] *)
Definition py_str (v : pyval) : string :=
  match v with
  | PNone => "None"
  | PBool true => "True"
  | PBool false => "False"
  | PInt z => pretty z
  | PFloat f => float_repr f
  | PStr s => s
  end.

(** The name a column takes from the first row:
    [str(first_row[col]) if pd.notna(first_row[col]) else f"Column_{i+1}"] *)
Definition header_value (first_row : row) (i : nat) (col : string) : string :=
  let v := cell_of first_row col in
  if pd_notna v then py_str v else "Column_" +:+ pretty (i + 1).

(** [if len(h) > 50: h = h[:47] + "..."], on characters. *)
Definition truncate_header (h : string) : string :=
  if 50 <? py_len h then py_take 47 h +:+ "..." else h.

Definition create_preview_table (df : DataFrame) (filename : option string)
    (use_first_row_as_header : bool) : preview :=
  let display_df := df_head 20 df in
  let columns :=
    if use_first_row_as_header && (0 <? df_len df)
    then
      let first_row := iloc0 df in
      let header_names :=
        imap (fun i col => truncate_header (header_value first_row i col))
             (df_columns df) in
      zip header_names (df_columns df)
    else map (fun col => (col, col)) (df_columns df) in
  mkPreview columns (to_dict_records display_df)
            use_first_row_as_header filename.

(** [updated_stack = push_to_undo_stack(undo_stack, csv_data.copy())],
    the first statement of every editing callback. *)
Definition push_copy (undo_stack csv_data : value) : py value :=
  saved ← dict_copy csv_data;
  push_to_undo_stack undo_stack saved.

(** [create_preview_table(pd.DataFrame(csv_data['data']), ...)] *)
Definition preview_of (csv_data : value) (filename : option string) : py preview :=
  d ← getitem csv_data "data";
  records ← dump_records d;
  mret (create_preview_table (pd_DataFrame records) filename true).

(** [{col: '' for col in names}] *)
Definition empty_row (names : list string) : row :=
  fold_left (fun acc col => entries_set col (PStr "") acc) names [].

Definition add_row (n_clicks : nat) (csv_data undo_stack : value)
    (file_data : file_store) : py (outcome (value * value * preview)) :=
  active ← truthy csv_data;
  if (n_clicks =? 0) || negb active then mret PreventUpdate else
  updated_stack ← push_copy undo_stack csv_data;
  cols ← getitem csv_data "columns";
  names ← dump_names cols;
  new_row ← alloc (row_obj (empty_row names));
  d ← getitem csv_data "data";
  list_append d new_row;;
  filename ← file_get_filename file_data;
  preview ← preview_of csv_data filename;
  mret (Return (csv_data, updated_stack, preview)).

Definition add_column (n_clicks : nat) (csv_data undo_stack : value)
    (file_data : file_store) : py (outcome (value * value * preview)) :=
  active ← truthy csv_data;
  if (n_clicks =? 0) || negb active then mret PreventUpdate else
  updated_stack ← push_copy undo_stack csv_data;
  cols ← getitem csv_data "columns";
  n ← len cols;
  let new_col_name := "New_Column_" +:+ pretty (n + 1) in
  list_append cols (VScalar (PStr new_col_name));;
  d ← getitem csv_data "data";
  rows ← as_list d;
  for_each (fun r => setitem r new_col_name (VScalar (PStr ""))) rows;;
  filename ← file_get_filename file_data;
  preview ← preview_of csv_data filename;
  mret (Return (csv_data, updated_stack, preview)).

(** [csv_data['data'] = records; csv_data['columns'] = names] *)
Definition store_table (csv_data : value) (records : list row)
    (names : list string) : py unit :=
  d ← load_records records;
  setitem csv_data "data" d;;
  c ← load_names names;
  setitem csv_data "columns" c.

(** The column names of an edited table, from its first row. *)
Definition new_column_names (df : DataFrame) : list string :=
  imap (header_value (iloc0 df)) (df_columns df).

Definition update_csv_data_with_headers (table_data : option (list row))
    (csv_data undo_stack : value) (file_data : file_store)
    (has_header : option (list string))
  : py (outcome (value * value * output preview)) :=
  active ← truthy csv_data;
  match table_data with
  | None | Some [] => mret PreventUpdate
  | Some table_data =>
    if negb active then mret PreventUpdate else
    updated_stack ← push_copy undo_stack csv_data;
    let df := pd_DataFrame table_data in
    store_table csv_data (to_dict_records df) (df_columns df);;
    if header_checked has_header && (0 <? df_len df)
    then
      let names := new_column_names df in
      let df_renamed := set_columns names df in
      store_table csv_data (to_dict_records df_renamed) names;;
      let filename :=
        match file_data with
        | file_dict (Some name) => Some name
        | _ => Some "data.csv"
        end in
      mret (Return (csv_data, updated_stack,
                    update (create_preview_table df filename true)))
    else mret (Return (csv_data, updated_stack, no_update))
  end.

(** The message of a successful undo, with the steps that remain. *)
Definition undo_status_msg (remaining_steps : nat) : Div :=
  if 0 <? remaining_steps
  then mkDiv ("↶ Changes undone successfully (" +:+ pretty remaining_steps
              +:+ " more undo steps available)") "status-success"
  else mkDiv "↶ Changes undone successfully (no more undo steps)"
             "status-success".

Definition undo_changes (n_clicks : nat) (current_data undo_stack : value)
    (file_data : file_store)
  : py (outcome (output value * output value * output preview * Div)) :=
  if n_clicks =? 0 then mret PreventUpdate else
  '(previous_state, updated_stack) ← pop_from_undo_stack undo_stack;
  match previous_state with
  | None =>
      mret (Return (no_update, no_update, no_update,
                    mkDiv "⚠️ No previous state to undo" "status-warning"))
  | Some previous_state =>
      try_except
        (preview ← preview_of previous_state (file_filename_or_none file_data);
         remaining_steps ← get_undo_count updated_stack;
         mret (Return (update previous_state, update updated_stack,
                       update preview, undo_status_msg remaining_steps)))
        (mret (Return (no_update, no_update, no_update,
                       mkDiv "❌ Undo failed" "status-error")))
  end.

(** [not original_data or not original_data.get('data')] *)
Definition nothing_to_revert (original_data : value) : py bool :=
  present ← truthy original_data;
  if negb present then mret true else
  es ← as_dict original_data;
  match entries_get "data" es with
  | Some d => nonempty ← truthy d; mret (negb nonempty)
  | None => mret true
  end.

Definition revert_to_original (n_clicks : nat)
    (current_data undo_stack original_data : value) (file_data : file_store)
  : py (outcome (output value * output value * output preview * Div)) :=
  nothing ← nothing_to_revert original_data;
  if (n_clicks =? 0) || nothing
  then mret (Return (no_update, no_update, no_update,
                     mkDiv "⚠️ No original data to revert to" "status-warning"))
  else
    try_except
      (active ← truthy current_data;
       updated_stack ← (if active : bool
                        then push_to_undo_stack undo_stack current_data
                        else mret undo_stack);
       preview ← preview_of original_data (file_filename_or_none file_data);
       mret (Return (update original_data, update updated_stack, update preview,
                     mkDiv "🔄 Reverted to original data successfully"
                           "status-success")))
      (mret (Return (no_update, no_update, no_update,
                     mkDiv "❌ Revert failed" "status-error"))).

Definition delete_column_dropdown (n_clicks : nat)
    (selected_column : option string) (csv_data undo_stack : value)
    (file_data : file_store)
  : py (outcome (output value * output value * output preview * Div
                 * output (option string))) :=
  active ← truthy csv_data;
  match selected_column with
  | None | Some "" => mret PreventUpdate
  | Some selected_column =>
    if (n_clicks =? 0) || negb active then mret PreventUpdate else
    cols ← getitem csv_data "columns";
    n ← len cols;
    if n <=? 1
    then mret (Return (no_update, no_update, no_update,
                       mkDiv "❌ Cannot remove the last remaining column!"
                             "status-error",
                       update None))
    else
    names ← dump_names cols;
    if negb (bool_decide (selected_column ∈ names))
    then mret (Return (no_update, no_update, no_update,
                       mkDiv ("❌ Column '" +:+ selected_column +:+ "' not found!")
                             "status-error",
                       update None))
    else
      try_except
        (updated_stack ← push_copy undo_stack csv_data;
         kept ← load_names (filter (fun col => col ≠ selected_column) names);
         setitem csv_data "columns" kept;;
         d ← getitem csv_data "data";
         rows ← as_list d;
         for_each (fun r =>
                     present ← contains_key r selected_column;
                     if present : bool then delitem r selected_column else mret tt)
                  rows;;
         preview ← preview_of csv_data (file_filename_or_none file_data);
         mret (Return (update csv_data, update updated_stack, update preview,
                       mkDiv ("✅ Successfully removed column '" +:+ selected_column
                              +:+ "' (undo available)") "status-success",
                       update None)))
        (mret (Return (no_update, no_update, no_update,
                       mkDiv "❌ Column deletion failed" "status-error",
                       no_update)))
  end.

(** *** The callbacks as Dash calls them

    Dash decodes the arguments of a callback from the browser stores into
    fresh objects, runs the callback, and reads the returned objects when
    it encodes them for the browser. *)

Definition run {A} (m : py A) : option A :=
  match m [] with Some (a, _) => Some a | None => None end.

Definition dump_output {A} (dump : value -> py A) (o : output value)
  : py (output A) :=
  match o with
  | no_update => mret no_update
  | update v => a ← dump v; mret (update a)
  end.

Definition add_row_callback (n_clicks : nat) (csv_data : option snapshot)
    (undo_stack : option (list snapshot)) (file_data : file_store)
  : option (outcome (snapshot * list snapshot * preview)) :=
  run (st ← load_stack undo_stack;
       cur ← load_store csv_data;
       r ← add_row n_clicks cur st file_data;
       match r with
       | PreventUpdate => mret PreventUpdate
       | Return (cur', st', pv) =>
           cur' ← dump_snapshot cur'; st' ← dump_stack st';
           mret (Return (cur', st', pv))
       end).

Definition add_column_callback (n_clicks : nat) (csv_data : option snapshot)
    (undo_stack : option (list snapshot)) (file_data : file_store)
  : option (outcome (snapshot * list snapshot * preview)) :=
  run (st ← load_stack undo_stack;
       cur ← load_store csv_data;
       r ← add_column n_clicks cur st file_data;
       match r with
       | PreventUpdate => mret PreventUpdate
       | Return (cur', st', pv) =>
           cur' ← dump_snapshot cur'; st' ← dump_stack st';
           mret (Return (cur', st', pv))
       end).

Definition update_csv_data_with_headers_callback
    (table_data : option (list row)) (csv_data : option snapshot)
    (undo_stack : option (list snapshot)) (file_data : file_store)
    (has_header : option (list string))
  : option (outcome (snapshot * list snapshot * output preview)) :=
  run (st ← load_stack undo_stack;
       cur ← load_store csv_data;
       r ← update_csv_data_with_headers table_data cur st file_data has_header;
       match r with
       | PreventUpdate => mret PreventUpdate
       | Return (cur', st', pv) =>
           cur' ← dump_snapshot cur'; st' ← dump_stack st';
           mret (Return (cur', st', pv))
       end).

Definition undo_changes_callback (n_clicks : nat)
    (current_data : option snapshot) (undo_stack : option (list snapshot))
    (file_data : file_store)
  : option (outcome (output snapshot * output (list snapshot)
                     * output preview * Div)) :=
  run (st ← load_stack undo_stack;
       cur ← load_store current_data;
       r ← undo_changes n_clicks cur st file_data;
       match r with
       | PreventUpdate => mret PreventUpdate
       | Return (cur', st', pv, msg) =>
           cur' ← dump_output dump_snapshot cur';
           st' ← dump_output dump_stack st';
           mret (Return (cur', st', pv, msg))
       end).

Definition revert_to_original_callback (n_clicks : nat)
    (current_data : option snapshot) (undo_stack : option (list snapshot))
    (original_data : option snapshot) (file_data : file_store)
  : option (outcome (output snapshot * output (option (list snapshot))
                     * output preview * Div)) :=
  run (st ← load_stack undo_stack;
       cur ← load_store current_data;
       orig ← load_store original_data;
       r ← revert_to_original n_clicks cur st orig file_data;
       match r with
       | PreventUpdate => mret PreventUpdate
       | Return (cur', st', pv, msg) =>
           cur' ← dump_output dump_snapshot cur';
           st' ← dump_output dump_stack_or_none st';
           mret (Return (cur', st', pv, msg))
       end).

Definition delete_column_dropdown_callback (n_clicks : nat)
    (selected_column : option string) (csv_data : option snapshot)
    (undo_stack : option (list snapshot)) (file_data : file_store)
  : option (outcome (output snapshot * output (list snapshot)
                     * output preview * Div * output (option string))) :=
  run (st ← load_stack undo_stack;
       cur ← load_store csv_data;
       r ← delete_column_dropdown n_clicks selected_column cur st file_data;
       match r with
       | PreventUpdate => mret PreventUpdate
       | Return (cur', st', pv, msg, sel) =>
           cur' ← dump_output dump_snapshot cur';
           st' ← dump_output dump_stack st';
           mret (Return (cur', st', pv, msg, sel))
       end).

End Callbacks.

(** ** Predicates and derived definitions used in the statements *)

(** The items of the list [push_to_undo_stack] returns. *)
Definition push_items {A} (items : list A) (x : A) : list A :=
  if UNDO_LIMIT <? length (items ++ [x])
  then last_n UNDO_LIMIT (items ++ [x])
  else items ++ [x].

(** The argument [undo_stack]: [None], or a list in the store. *)
Definition stack_val (h : heap) (undo_stack : value) (items : list value) : Prop :=
  (undo_stack = VScalar PNone /\ items = []) \/
  (exists l, undo_stack = VRef l /\ h !! l = Some (OList items)).

Definition heap_le (h h' : heap) : Prop :=
  forall l o, h !! l = Some o -> h' !! l = Some o.

Definition row_at (h : heap) (v : value) (r : row) : Prop :=
  exists l, v = VRef l /\ h !! l = Some (row_obj r).

(** [v] is a dict whose ['data'] and ['columns'] read as [s] in [h]. *)
Definition snapshot_at (h : heap) (v : value) (s : snapshot) : Prop :=
  exists l es d c items,
    v = VRef l /\ h !! l = Some (ODict es) /\
    entries_get "data" es = Some (VRef d) /\
    entries_get "columns" es = Some (VRef c) /\
    h !! d = Some (OList items) /\
    Forall2 (row_at h) items (data s) /\
    h !! c = Some (names_obj (columns s)).

(** Where [load_snapshot] puts a table: the rows from [b] on, then the
    list of rows, the list of names and the dict. *)
Definition table_dict (b n : nat) : list (string * value) :=
  [("data", VRef (b + n)); ("columns", VRef (b + n + 1))].

Definition table_objs (b : nat) (s : snapshot) : list object :=
  map row_obj (data s)
  ++ [OList (map VRef (seq b (length (data s))));
      names_obj (columns s);
      ODict (table_dict b (length (data s)))].

(** The entries of a stack, [None] being no stack at all. *)
Definition stack_list {A} (st : option (list A)) : list A :=
  match st with Some entries => entries | None => [] end.

(** The store once Dash has decoded the stack and the table [s]: the
    entries of the stack read as [st] in a part [E] of the store, the stack
    list lies between [E] and [b], and the table starts at [b]. *)
Definition loaded (st : option (list snapshot)) (s : snapshot)
    (undo_stack : value) (items : list value) (E h : heap) (b : nat) : Prop :=
  stack_val h undo_stack items /\
  heap_le E h /\
  Forall2 (snapshot_at E) items (stack_list st) /\
  (forall l, undo_stack = VRef l -> length E <= l < b) /\
  length E <= b /\
  (forall i r, data s !! i = Some r -> h !! (b + i) = Some (row_obj r)) /\
  h !! (b + length (data s)) = Some (OList (map VRef (seq b (length (data s))))) /\
  h !! (b + length (data s) + 1) = Some (names_obj (columns s)) /\
  h !! (b + length (data s) + 2) = Some (ODict (table_dict b (length (data s)))) /\
  length h = b + length (data s) + 3.

(** The table [add_row] returns. *)
Definition add_row_result (s : snapshot) : snapshot :=
  Snapshot (data s ++ [empty_row (columns s)]) (columns s).

(** The table [add_column] returns. *)
Definition add_column_result (s : snapshot) : snapshot :=
  let name := "New_Column_" +:+ pretty (length (columns s) + 1) in
  Snapshot (map (entries_set name (PStr "")) (data s)) (columns s ++ [name]).

(** ** The frame of a list of records, cell by cell *)

(** The dtype pandas gives the column [col] of [pd.DataFrame(records)]. *)
Definition column_dtype (records : list row) (col : string) : dtype :=
  maybe_convert_objects (map (fun r => cell_of r col) records).

(** The cell of the record [r] under [col], as the frame stores it. *)
Definition frame_cell (records : list row) (r : row) (col : string) : pyval :=
  cast (column_dtype records col) (cell_of r col).

(** The record [to_dict('records')] gives back for [r]. *)
Definition frame_record (records : list row) (r : row) : row :=
  map (fun col => (col, frame_cell records r col)) (union_keys records).

(** The cell under [col] of the first row [df.iloc[0]], which is cast once
    more to the dtype common to all columns. *)
Definition first_row_cell (records : list row) (r0 : row) (col : string) : pyval :=
  cast (common_dtype (map (column_dtype records) (union_keys records)))
       (frame_cell records r0 col).

(** ** Schema inference of [create_delta_table_sql] *)

(** The SQL type of a pandas dtype.  The dtypes ['int32'] and ['float32']
    the source also tests for do not arise in a frame built from records. *)
Definition sql_type (dt : dtype) : string :=
  match dt with
  | dt_object => "STRING"
  | dt_int64 => "BIGINT"
  | dt_float64 => "DOUBLE"
  | _ => "STRING"
  end.

(** [columns_sql]: one ["`name` TYPE"] per column of
    [pd.DataFrame(csv_data['data'])]. *)
Definition columns_sql (s : snapshot) : list string :=
  let df := pd_DataFrame (data s) in
  zip_with (fun col_name dt => "`" +:+ col_name +:+ "` " +:+ sql_type dt)
           (df_columns df) (df_dtypes df).


(** The cells of a column, top to bottom, as the frame is built from them. *)
Definition column_cells (records : list row) (col : string) : list pyval :=
  map (fun r => cell_of r col) records.







(** *** The rule as the specification words it

    A second definition, written from the specification and not from the
    code: a column is an integer column when every non-empty cell parses as
    an integer, else a floating-point column when every non-empty cell
    parses as a decimal number, else a string column. *)

Definition is_digit (c : ascii) : bool :=
  (48 <=? nat_of_ascii c) && (nat_of_ascii c <=? 57).










(** ** A session: the browser stores between callbacks *)

Record session := mkSession {
  csv_data_store : option snapshot;
  original_data_store : option snapshot;
  undo_stack_store : option (list snapshot);
  file_data_store : file_store;
  has_header_value : option (list string) }.

(** What a store receives: the JSON encoder writes [nan] and the
    infinities as [null]. *)
Definition json_cell (v : pyval) : pyval :=
  match v with
  | PFloat S754_nan | PFloat (S754_infinity _) => PNone
  | _ => v
  end.

Definition json_snapshot (s : snapshot) : snapshot :=
  Snapshot (map (map (fun kc => (kc.1, json_cell kc.2))) (data s)) (columns s).

Definition set_stores (cur : output snapshot) (st : output (list snapshot))
    (σ : session) : session :=
  mkSession
    (match cur with update c => Some (json_snapshot c) | no_update => csv_data_store σ end)
    (original_data_store σ)
    (match st with update l => Some (map json_snapshot l) | no_update => undo_stack_store σ end)
    (file_data_store σ) (has_header_value σ).

(** The mutating operations of the editor. *)
Inductive edit :=
  | addRow
  | addColumn
  | deleteColumn (name : string)
  | applyTableEdits (table_data : list row).

Section Session.

Variable float_repr : spec_float -> string.

(** One click or table submission.  A callback that raises, or that raises
    [PreventUpdate], leaves the stores as they are. *)
Definition apply_edit (e : edit) (σ : session) : session :=
  match e with
  | addRow =>
      match add_row_callback float_repr 1 (csv_data_store σ) (undo_stack_store σ)
              (file_data_store σ) with
      | Some (Return (cur, st, _)) => set_stores (update cur) (update st) σ
      | _ => σ
      end
  | addColumn =>
      match add_column_callback float_repr 1 (csv_data_store σ) (undo_stack_store σ)
              (file_data_store σ) with
      | Some (Return (cur, st, _)) => set_stores (update cur) (update st) σ
      | _ => σ
      end
  | deleteColumn name =>
      match delete_column_dropdown_callback float_repr 1 (Some name)
              (csv_data_store σ) (undo_stack_store σ) (file_data_store σ) with
      | Some (Return (cur, st, _, _, _)) => set_stores cur st σ
      | _ => σ
      end
  | applyTableEdits table_data =>
      match update_csv_data_with_headers_callback float_repr (Some table_data)
              (csv_data_store σ) (undo_stack_store σ) (file_data_store σ)
              (has_header_value σ) with
      | Some (Return (cur, st, _)) => set_stores (update cur) (update st) σ
      | _ => σ
      end
  end.

(** One click on Undo. *)
Definition undo (σ : session) : session :=
  match undo_changes_callback float_repr 1 (csv_data_store σ) (undo_stack_store σ)
          (file_data_store σ) with
  | Some (Return (cur, st, _, _)) => set_stores cur st σ
  | _ => σ
  end.

(** One click on Revert. *)
Definition revert (σ : session) : session :=
  match revert_to_original_callback float_repr 1 (csv_data_store σ)
          (undo_stack_store σ) (original_data_store σ) (file_data_store σ) with
  | Some (Return (cur, st, _, _)) =>
      let σ' := set_stores cur no_update σ in
      match st with
      | no_update => σ'
      | update st' =>
          mkSession (csv_data_store σ') (original_data_store σ')
                    (option_map (map json_snapshot) st')
                    (file_data_store σ') (has_header_value σ')
      end
  | _ => σ
  end.

Definition apply_edits (edits : list edit) (σ : session) : session :=
  fold_left (fun σ e => apply_edit e σ) edits σ.

End Session.

(** ** Data of the examples *)

(** The development is parametric in Python's rendering of floats.  The
    examples instantiate it with an exact rendering, sign, mantissa and
    binary exponent; none of their tables holds a float. *)
Definition float_text (f : spec_float) : string :=
  match f with
  | S754_zero false => "0.0"
  | S754_zero true => "-0.0"
  | S754_infinity false => "inf"
  | S754_infinity true => "-inf"
  | S754_nan => "nan"
  | S754_finite sign m e =>
      (if sign then "-" else "") +:+ pretty (Npos m) +:+ "*2**" +:+ pretty e
  end.

(** A table of two columns and two rows, uploaded as [people.csv]. *)
Definition people : snapshot :=
  Snapshot [[("name", PStr "Ann"); ("age", PStr "31")];
            [("name", PStr "Bo"); ("age", PStr "27")]]
           ["name"; "age"].

Definition people_session : session :=
  mkSession (Some people) (Some people) (Some [])
            (file_dict (Some "people.csv")) (Some ["header"]).

(** A table of twenty-one rows. *)
Definition long_table : snapshot :=
  Snapshot (map (fun i => [("id", PStr (pretty i))]) (seq 0 21)) ["id"].

(** ** What the callbacks return *)

(** The undo stack as it reads right after the first statement of an
    editing callback, before the table is edited. *)
Definition undo_stack_after_push (csv_data : snapshot)
    (undo_stack : option (list snapshot)) : option (list snapshot) :=
  run (st ← load_stack undo_stack;
       cur ← load_store (Some csv_data);
       st' ← push_copy st cur;
       dump_stack st').

(** The table [update_csv_data_with_headers] stores for an edited table. *)
Definition edited_table (float_repr : spec_float -> string)
    (table_data : list row) (has_header : option (list string)) : snapshot :=
  let df := pd_DataFrame table_data in
  if header_checked has_header && (0 <? df_len df)
  then let names := new_column_names float_repr df in
       Snapshot (to_dict_records (set_columns names df)) names
  else Snapshot (to_dict_records df) (df_columns df).

(** The preview it returns: none unless the header box is checked. *)
Definition edited_preview (float_repr : spec_float -> string)
    (table_data : list row) (file_data : file_store)
    (has_header : option (list string)) : output preview :=
  let df := pd_DataFrame table_data in
  if header_checked has_header && (0 <? df_len df)
  then update (create_preview_table float_repr df
                 match file_data with
                 | file_dict (Some name) => Some name
                 | _ => Some "data.csv"
                 end true)
  else no_update.

(** The table [delete_column_dropdown] returns, and what the pushed copy
    reads as once the rows have been edited. *)
Definition delete_column_result (name : string) (s : snapshot) : snapshot :=
  Snapshot (map (entries_del name) (data s))
           (filter (fun col => col ≠ name) (columns s)).

Definition delete_column_saved (name : string) (s : snapshot) : snapshot :=
  Snapshot (map (entries_del name) (data s)) (columns s).

(** ** Further definitions *)

(** Every record has the columns of the table as its keys, in their order,
    and no column is listed twice. *)
Definition well_formed (s : snapshot) : Prop :=
  NoDup (columns s) /\ Forall (fun r => r.*1 = columns s) (data s).

(** [remove_file]: the stores it writes.  It clears the three data stores
    to [{}], which every callback treats like an absent value, and the undo
    stack to [[]]; the header checkbox is not among its outputs. *)
Definition remove_file (n_clicks : nat) (σ : session) : outcome session :=
  if n_clicks =? 0 then PreventUpdate
  else Return (mkSession None None (Some []) (file_dict None)
                         (has_header_value σ)).

(** ** Text inputs, paths and names

    The tests and replacements below are against ASCII characters, whose
    bytes occur in UTF-8 text only as themselves; [lower] and [isalnum]
    are Python's on ASCII text. *)

(** [v or d] for a text input [v]: [None] and [''] are false. *)
Definition str_or (v : option string) (d : string) : string :=
  match v with
  | Some s => if String.eqb s "" then d else s
  | None => d
  end.

Definition str_truthy (v : option string) : bool :=
  match v with
  | Some s => negb (String.eqb s "")
  | None => false
  end.

(** The text an f-string shows for a true text input. *)
Definition str_text (v : option string) : string := default "" v.

(** [update_volume_path]: the volume path shown for the catalog, schema and
    volume typed so far. *)
Definition update_volume_path (catalog schema volume : option string) : string :=
  if str_truthy catalog && str_truthy schema && str_truthy volume
  then "/Volumes/" +:+ str_text catalog +:+ "/" +:+ str_text schema +:+ "/"
       +:+ str_text volume +:+ "/"
  else if str_truthy catalog && str_truthy schema
  then "/Volumes/" +:+ str_text catalog +:+ "/" +:+ str_text schema +:+ "/"
  else if str_truthy catalog
  then "/Volumes/" +:+ str_text catalog +:+ "/"
  else "/Volumes/".

(** [s.startswith(p)] *)
Definition startswith (s p : string) : bool := String.prefix p s.

(** [s.endswith(suffix)]: [suffix] is [s] or the end of the rest of [s]. *)
Fixpoint endswith (s suffix : string) : bool :=
  String.eqb s suffix ||
  match s with
  | EmptyString => false
  | String _ s' => endswith s' suffix
  end.

(** [s.rstrip(c)] for one character [c]. *)
Fixpoint rstrip (c : ascii) (s : string) : string :=
  match s with
  | EmptyString => EmptyString
  | String a s' =>
      match rstrip c s' with
      | EmptyString => if Ascii.eqb a c then EmptyString else String a EmptyString
      | t => String a t
      end
  end.

(** [s.replace(old, new)] for a non-empty [old], left to right: at an
    occurrence of [old] write [new] and skip the rest of the occurrence. *)
Fixpoint replace_from (old new : string) (skip : nat) (s : string) : string :=
  match s with
  | EmptyString => EmptyString
  | String a s' =>
      match skip with
      | S k => replace_from old new k s'
      | 0 => if String.prefix old s
             then new +:+ replace_from old new (String.length old - 1) s'
             else String a (replace_from old new 0 s')
      end
  end.

Definition str_replace (old new s : string) : string := replace_from old new 0 s.

Definition is_upper (c : ascii) : bool :=
  (65 <=? nat_of_ascii c) && (nat_of_ascii c <=? 90).

Definition is_lower (c : ascii) : bool :=
  (97 <=? nat_of_ascii c) && (nat_of_ascii c <=? 122).

Definition is_ascii (c : ascii) : bool := nat_of_ascii c <? 128.

Definition lower_char (c : ascii) : ascii :=
  if is_upper c then ascii_of_nat (nat_of_ascii c + 32) else c.

Fixpoint string_map (f : ascii -> ascii) (s : string) : string :=
  match s with
  | EmptyString => EmptyString
  | String a s' => String (f a) (string_map f s')
  end.

Fixpoint string_filter (p : ascii -> bool) (s : string) : string :=
  match s with
  | EmptyString => EmptyString
  | String a s' => if p a then String a (string_filter p s') else string_filter p s'
  end.

Fixpoint string_forall (p : ascii -> bool) (s : string) : bool :=
  match s with
  | EmptyString => true
  | String a s' => p a && string_forall p s'
  end.

(** [s.lower()] *)
Definition lower (s : string) : string := string_map lower_char s.

(** [c.isalnum()] *)
Definition isalnum (c : ascii) : bool := is_digit c || is_upper c || is_lower c.

(** [s.rfind(c)]: the index of the last [c] in [s]. *)
Fixpoint rfind (c : ascii) (s : string) : option nat :=
  match s with
  | EmptyString => None
  | String a s' =>
      match rfind c s' with
      | Some i => Some (S i)
      | None => if Ascii.eqb a c then Some 0 else None
      end
  end.

(** [os.path.splitext(p)[0]] of [posixpath]: [p] up to its last dot, when
    that dot comes after the last slash and after a character of the file
    name that is not a dot. *)
Definition splitext_root (p : string) : string :=
  match rfind "." p with
  | None => p
  | Some dotIndex =>
      let filenameIndex := match rfind "/" p with Some sepIndex => S sepIndex | None => 0 end in
      if (filenameIndex <=? dotIndex)
         && negb (string_forall (Ascii.eqb ".")
                    (substring filenameIndex (dotIndex - filenameIndex) p))
      then substring 0 dotIndex p
      else p
  end.

(** [s.split(sep)[-1]]: what follows the last [sep]. *)
Definition split_last (sep : ascii) (s : string) : string :=
  match rfind sep s with
  | Some i => substring (S i) (String.length s - S i) s
  | None => s
  end.

(** The table name [process_upload] proposes for an uploaded file. *)
Definition upload_table_name (filename : string) : string :=
  let table_name :=
    str_replace "-" "_" (str_replace " " "_" (lower (splitext_root filename))) in
  string_filter (fun c => isalnum c || Ascii.eqb c "_") table_name.

(** The name of the file in the volume, as [upload_to_volume] and
    [create_delta_table_sql] both compute it. *)
Definition csv_filename (upload_filename : option string) : string :=
  let filename := str_or upload_filename "uploaded_data" in
  if endswith filename ".csv" then filename else filename +:+ ".csv".

(** [full_path] of [upload_to_volume]: where the file is written. *)
Definition full_path (volume_path : string) (upload_filename : option string)
  : string :=
  rstrip "/" volume_path +:+ "/" +:+ csv_filename upload_filename.

(** [table_name_final] of [create_delta_table_sql]. *)
Definition table_name_final (table_name upload_filename : option string)
  : string :=
  str_or table_name
    (lower (str_replace "-" "_" (str_replace " " "_"
              (str_replace ".csv" "" (csv_filename upload_filename))))).

(** [location_path] of [create_delta_table_sql]. *)
Definition location_path (volume_path : string)
    (upload_filename : option string) : string :=
  rstrip "/" volume_path +:+ "/" +:+ csv_filename upload_filename.

Definition newline : string := String (ascii_of_nat 10) EmptyString.

(** [sql_query] of [create_delta_table_sql]. *)
Definition sql_query (s : snapshot) (table_name upload_filename : option string)
    (volume_path : string) : string :=
  let columns_def := String.concat ("," +:+ newline +:+ "  ") (columns_sql s) in
  "CREATE TABLE " +:+ table_name_final table_name upload_filename +:+ " ("
  +:+ newline +:+ "  " +:+ columns_def +:+ newline +:+ ")" +:+ newline
  +:+ "USING DELTA" +:+ newline
  +:+ "LOCATION '" +:+ location_path volume_path upload_filename +:+ "'".

(** ** The Databricks client *)

Section Client.

(** A [WorkspaceClient]. *)
Variable Client : Type.

(** The globals [w] and [_auth_attempted]. *)
Record client_state := mkClientState {
  w : option Client;
  _auth_attempted : bool }.

Definition no_client : client_state := mkClientState None false.

(** [get_databricks_client]; [WorkspaceClient] is what the constructor
    gives when it is called, [None] when it raises. *)
Definition get_databricks_client (DATABRICKS_AVAILABLE : bool)
    (WorkspaceClient : option Client) (g : client_state)
  : option Client * client_state :=
  if negb DATABRICKS_AVAILABLE then (None, g)
  else match w g with
       | Some c => (Some c, g)
       | None =>
           if _auth_attempted g then (None, g)
           else match WorkspaceClient with
                | Some c => (Some c, mkClientState (Some c) true)
                | None => (None, mkClientState None true)
                end
       end.

(** [show_auth_status]: the text of the banner. *)
Definition show_auth_status (DATABRICKS_AVAILABLE : bool) (g : client_state)
  : string :=
  if negb DATABRICKS_AVAILABLE
  then "⚠️ Databricks SDK not installed. Run: pip install databricks-sdk"
  else match w g with
       | None => "🔄 Databricks ready (will authenticate when uploading or creating tables)"
       | Some _ => "✅ Connected to Databricks successfully"
       end.

(** What [execute_statement] gives back: the name of the state and the
    message of the error, if any; or the text of the exception it raised. *)
Inductive statement_result :=
  | statement_raised (e : string)
  | statement_status (state_name : string) (error_message : option string).

Variable execute_statement : Client -> string -> string -> statement_result.

(** What [execute_sql_query] reports for the result of the statement. *)
Definition statement_outcome (result : statement_result) : Div :=
  match result with
  | statement_status state_name error =>
      if String.eqb state_name "SUCCEEDED"
      then mkDiv "✅ Delta Table Created Successfully!" "status-success"
      else mkDiv ("❌ Execution error: " +:+ default "Unknown error" error)
                 "status-error"
  | statement_raised e =>
      mkDiv ("❌ Execution failed: " +:+ e) "status-error"
  end.

(** [execute_sql_query], with the stored [app.server.sql_query] and the
    configured [DATABRICKS_HTTP_PATH]; of the error panels the heading is
    kept. *)
Definition execute_sql_query (n_clicks : nat) (DATABRICKS_AVAILABLE : bool)
    (WorkspaceClient : option Client) (http_path : string)
    (stored_query : option string) (g : client_state)
  : outcome Div * client_state :=
  if n_clicks =? 0 then (PreventUpdate, g)
  else
    let '(client, g') :=
      get_databricks_client DATABRICKS_AVAILABLE WorkspaceClient g in
    match client with
    | None =>
        (Return (mkDiv "❌ Databricks connection not available" "status-error"),
         g')
    | Some c =>
        if String.eqb http_path "" || String.eqb http_path "your-warehouse-id"
        then (Return (mkDiv "❌ Warehouse ID Configuration Required"
                        "status-error"), g')
        else if negb (str_truthy stored_query)
        then (Return (mkDiv "❌ No SQL query available. Generate SQL first."
                        "status-error"), g')
        else
          (Return (statement_outcome
                     (execute_statement c (split_last "/" http_path)
                        (str_text stored_query))), g')
    end.

End Client.

(** ** The configuration ([config.py]) *)

Record DatabaseConfig := mkDatabaseConfig {
  host : string;
  token : string;
  oauth_token : string;
  http_path : string }.

Definition is_valid (self : DatabaseConfig) : bool :=
  negb (String.eqb (host self) "")
  && (negb (String.eqb (token self) "")
      || negb (String.eqb (oauth_token self) "")).

Definition get_auth_method (self : DatabaseConfig) : string :=
  if negb (String.eqb (oauth_token self) "") then "OAuth Token"
  else if negb (String.eqb (token self) "") then "Personal Access Token"
  else "None".

(** [validate_config], for the settings read from the environment. *)
Definition validate_config (db_config : DatabaseConfig)
    (DEFAULT_VOLUME_PATH : string) : list string :=
  (if negb (is_valid db_config)
   then ["Please set DATABRICKS_HOST and either DATABRICKS_TOKEN or DATABRICKS_OAUTH_TOKEN"]
   else [])
  ++ (if String.eqb (host db_config) "https://your-workspace.cloud.databricks.com"
      then ["Please set your actual Databricks workspace URL in DATABRICKS_HOST"]
      else [])
  ++ (if negb (startswith DEFAULT_VOLUME_PATH "/Volumes/")
      then ["DEFAULT_VOLUME_PATH should start with '/Volumes/'"]
      else []).

(** ** Further kinds of cells *)

Definition is_integer (v : pyval) : bool :=
  match v with PInt _ => true | _ => false end.

Definition is_bool (v : pyval) : bool :=
  match v with PBool _ => true | _ => false end.

(** An integer that fits [uint64]. *)
Definition is_uint64 (v : pyval) : bool :=
  match v with
  | PInt z => (0 <=? z)%Z && (z <=? UINT64_MAX)%Z
  | _ => false
  end.

(** An integer above the range of [int64]. *)
Definition above_int64 (v : pyval) : bool :=
  match v with
  | PInt z => (INT64_MAX <? z)%Z
  | _ => false
  end.

(** * Proofs *)

(** ** Reasoning about the store *)


Lemma bind_some {A B} (m : py A) (f : A -> py B) h a h' :
  m h = Some (a, h') -> (m ≫= f) h = f a h'.
Proof. intros E. unfold mbind, py_bind. by rewrite E. Qed.

Lemma ret_eq {A} (a : A) (h : heap) : (mret a : py A) h = Some (a, h).
Proof. reflexivity. Qed.

Lemma alloc_eq o h : alloc o h = Some (VRef (length h), h ++ [o]).
Proof. reflexivity. Qed.

Lemma lookup_alloc_new (h : heap) o : (h ++ [o]) !! length h = Some o.
Proof. by rewrite lookup_app_r, Nat.sub_diag. Qed.

Lemma lookup_alloc_old (h : heap) o' l o :
  h !! l = Some o -> (h ++ [o']) !! l = Some o.
Proof. intros E. by apply lookup_app_l_Some. Qed.

Lemma lookup_assign_eq (h : heap) l o o' :
  h !! l = Some o -> <[l := o']> h !! l = Some o'.
Proof. intros E. apply list_lookup_insert_eq. by eapply lookup_lt_Some. Qed.

Lemma lookup_assign_ne (h : heap) l l' o o' :
  h !! l = Some o -> l ≠ l' -> <[l' := o']> h !! l = Some o.
Proof. intros E N. by rewrite list_lookup_insert_ne by congruence. Qed.

Lemma deref_at h l o : h !! l = Some o -> deref (VRef l) h = Some (o, h).
Proof. intros E. unfold deref. by rewrite E. Qed.

Lemma assign_at h l o o' :
  h !! l = Some o -> assign (VRef l) o' h = Some (tt, <[l := o']> h).
Proof.
  intros E. unfold assign. apply lookup_lt_Some in E. by rewrite decide_True.
Qed.

Lemma as_list_at h l items :
  h !! l = Some (OList items) -> as_list (VRef l) h = Some (items, h).
Proof. intros E. unfold as_list. by rewrite (bind_some _ _ _ _ _ (deref_at _ _ _ E)). Qed.

Lemma as_dict_at h l es :
  h !! l = Some (ODict es) -> as_dict (VRef l) h = Some (es, h).
Proof. intros E. unfold as_dict. by rewrite (bind_some _ _ _ _ _ (deref_at _ _ _ E)). Qed.

Lemma getitem_at h l es k v :
  h !! l = Some (ODict es) -> entries_get k es = Some v ->
  getitem (VRef l) k h = Some (v, h).
Proof.
  intros E G. unfold getitem.
  rewrite (bind_some _ _ _ _ _ (as_dict_at _ _ _ E)). by rewrite G.
Qed.

Lemma setitem_at h l es k v :
  h !! l = Some (ODict es) ->
  setitem (VRef l) k v h = Some (tt, <[l := ODict (entries_set k v es)]> h).
Proof.
  intros E. unfold setitem.
  rewrite (bind_some _ _ _ _ _ (as_dict_at _ _ _ E)). by eapply assign_at.
Qed.

Lemma list_append_at h l items v :
  h !! l = Some (OList items) ->
  list_append (VRef l) v h = Some (tt, <[l := OList (items ++ [v])]> h).
Proof.
  intros E. unfold list_append.
  rewrite (bind_some _ _ _ _ _ (as_list_at _ _ _ E)). by eapply assign_at.
Qed.

Lemma len_at h l items :
  h !! l = Some (OList items) -> len (VRef l) h = Some (length items, h).
Proof.
  intros E. unfold len. by rewrite (bind_some _ _ _ _ _ (as_list_at _ _ _ E)).
Qed.

Lemma dict_copy_at h l es :
  h !! l = Some (ODict es) ->
  dict_copy (VRef l) h = Some (VRef (length h), h ++ [ODict es]).
Proof.
  intros E. unfold dict_copy.
  by rewrite (bind_some _ _ _ _ _ (as_dict_at _ _ _ E)).
Qed.

Lemma truthy_list_at h l items :
  h !! l = Some (OList items) ->
  truthy (VRef l) h = Some (negb (length items =? 0), h).
Proof.
  intros E. unfold truthy. by rewrite (bind_some _ _ _ _ _ (deref_at _ _ _ E)).
Qed.

Lemma truthy_dict_at h l es :
  h !! l = Some (ODict es) ->
  truthy (VRef l) h = Some (negb (length es =? 0), h).
Proof.
  intros E. unfold truthy. by rewrite (bind_some _ _ _ _ _ (deref_at _ _ _ E)).
Qed.

(** *** The stack after a push *)

Lemma push_items_length {A} (items : list A) x :
  length (push_items items x) = Nat.min (length items + 1) UNDO_LIMIT.
Proof.
  unfold push_items, last_n.
  destruct (Nat.ltb_spec UNDO_LIMIT (length (items ++ [x]))) as [Hlt | Hge];
    rewrite ?length_drop, length_app in *; simpl in *; lia.
Qed.

Lemma push_items_full {A} (items : list A) x :
  length items = UNDO_LIMIT -> push_items items x = drop 1 items ++ [x].
Proof.
  intros L. unfold push_items, last_n.
  rewrite length_app, L. simpl.
  rewrite drop_app_le by (rewrite L; unfold UNDO_LIMIT; lia). done.
Qed.

Lemma push_items_last {A} (items : list A) x :
  last (push_items items x) = Some x.
Proof.
  unfold push_items, last_n.
  destruct (Nat.ltb_spec UNDO_LIMIT (length (items ++ [x]))) as [Hlt | Hge].
  - rewrite length_app in *. unfold UNDO_LIMIT in *. simpl in *.
    rewrite drop_app_le by lia. by rewrite last_snoc.
  - by rewrite last_snoc.
Qed.

Ltac py_run E := rewrite (bind_some _ _ _ _ _ E).

Lemma insert_alloc_new (h : heap) o o' :
  <[length h := o']> (h ++ [o]) = h ++ [o'].
Proof. rewrite insert_app_r_alt, Nat.sub_diag by lia. done. Qed.

(** The path of an empty or absent stack: a new list holding [x]. *)
Lemma push_fresh h x :
  (undo_stack ← alloc (OList []);
   list_append undo_stack x;;
   n ← len undo_stack;
   if UNDO_LIMIT <? n
   then items ← as_list undo_stack; alloc (OList (last_n UNDO_LIMIT items))
   else mret undo_stack) h
  = Some (VRef (length h), h ++ [OList [x]]).
Proof.
  py_run (alloc_eq (OList []) h).
  py_run (list_append_at _ _ _ x (lookup_alloc_new h (OList []))).
  rewrite insert_alloc_new.
  py_run (len_at _ _ _ (lookup_alloc_new h (OList ([] ++ [x])))).
  reflexivity.
Qed.

Lemma push_to_undo_stack_spec h undo_stack items x :
  stack_val h undo_stack items ->
  exists l' h',
    push_to_undo_stack undo_stack x h = Some (VRef l', h') /\
    h' !! l' = Some (OList (push_items items x)) /\
    length h <= length h' /\
    (forall k o, h !! k = Some o -> VRef k ≠ undo_stack -> h' !! k = Some o) /\
    (l' < length h -> VRef l' = undo_stack).
Proof.
  intros [[-> ->] | (l & -> & E)].
  - exists (length h), (h ++ [OList [x]]). unfold push_to_undo_stack.
    repeat split.
    + py_run (eq_refl : truthy (VScalar PNone) h = Some (false, h)).
      apply push_fresh.
    + apply lookup_alloc_new.
    + rewrite length_app. lia.
    + intros k o Hk _. by apply lookup_alloc_old.
    + intros; lia.
  - destruct items as [| i0 items'].
    + exists (length h), (h ++ [OList [x]]). unfold push_to_undo_stack.
      repeat split.
      * py_run (truthy_list_at _ _ _ E). apply push_fresh.
      * apply lookup_alloc_new.
      * rewrite length_app. lia.
      * intros k o Hk _. by apply lookup_alloc_old.
      * intros; lia.
    + set (items := i0 :: items') in *.
      set (h1 := <[l := OList (items ++ [x])]> h).
      assert (E1 : h1 !! l = Some (OList (items ++ [x])))
        by (by eapply lookup_assign_eq).
      assert (L1 : length h1 = length h) by apply length_insert.
      unfold push_to_undo_stack.
      py_run (truthy_list_at _ _ _ E).
      replace (negb (negb (length items =? 0))) with false by done.
      py_run (ret_eq (VRef l) h).
      py_run (list_append_at _ _ _ x E).
      fold h1.
      py_run (len_at _ _ _ E1).
      unfold push_items.
      destruct (UNDO_LIMIT <? length (items ++ [x])) eqn:Hlim.
      * exists (length h1), (h1 ++ [OList (last_n UNDO_LIMIT (items ++ [x]))]).
        py_run (as_list_at _ _ _ E1).
        repeat split.
        -- apply lookup_alloc_new.
        -- rewrite length_app. lia.
        -- intros k o Hk Hne. apply lookup_alloc_old.
           eapply lookup_assign_ne; [done | congruence].
        -- intros; lia.
      * exists l, h1. repeat split; try done.
        -- lia.
        -- intros k o Hk Hne. eapply lookup_assign_ne; [done | congruence].
Qed.

(** *** Documents in the store *)

Lemma heap_le_refl h : heap_le h h.
Proof. by intros l o. Qed.

Lemma heap_le_trans h1 h2 h3 : heap_le h1 h2 -> heap_le h2 h3 -> heap_le h1 h3.
Proof. intros H12 H23 l o E. eauto. Qed.

Lemma heap_le_app h ext : heap_le h (h ++ ext).
Proof. intros l o E. by apply lookup_app_l_Some. Qed.

Lemma row_at_mono h h' v r : heap_le h h' -> row_at h v r -> row_at h' v r.
Proof. intros Hle (l & -> & E). exists l. eauto. Qed.

Lemma snapshot_at_mono h h' v s :
  heap_le h h' -> snapshot_at h v s -> snapshot_at h' v s.
Proof.
  intros Hle (l & es & d & c & items & -> & El & Ed & Ec & Hd & Hrows & Hc).
  exists l, es, d, c, items. repeat split; eauto.
  eapply Forall2_impl; [exact Hrows |]. intros v r. by apply row_at_mono.
Qed.

Lemma mapM_readonly {A B} (f : A -> py B) (h : heap) xs ys :
  Forall2 (fun x y => f x h = Some (y, h)) xs ys ->
  mapM f xs h = Some (ys, h).
Proof.
  induction 1 as [| x y xs ys Hxy _ IH]; [done |].
  cbn [mapM]. py_run Hxy. py_run IH. done.
Qed.

Lemma dump_row_at h l r :
  h !! l = Some (row_obj r) -> dump_row (VRef l) h = Some (r, h).
Proof.
  intros E. unfold dump_row. py_run (as_dict_at _ _ _ E).
  apply mapM_readonly. clear E. induction r as [| [k c] r IH]; constructor; done.
Qed.

Lemma dump_records_at h l items rs :
  h !! l = Some (OList items) -> Forall2 (row_at h) items rs ->
  dump_records (VRef l) h = Some (rs, h).
Proof.
  intros E Hrows. unfold dump_records. py_run (as_list_at _ _ _ E).
  apply mapM_readonly. eapply Forall2_impl; [exact Hrows |].
  intros v r (l' & -> & E'). by apply dump_row_at.
Qed.

Lemma dump_names_at h l cs :
  h !! l = Some (names_obj cs) -> dump_names (VRef l) h = Some (cs, h).
Proof.
  intros E. unfold dump_names. py_run (as_list_at _ _ _ E).
  apply mapM_readonly. clear E. induction cs; constructor; done.
Qed.

Lemma dump_snapshot_at h v s :
  snapshot_at h v s -> dump_snapshot v h = Some (s, h).
Proof.
  intros (l & es & d & c & items & -> & El & Ed & Ec & Hd & Hrows & Hc).
  unfold dump_snapshot.
  py_run (getitem_at _ _ _ _ _ El Ed). py_run (getitem_at _ _ _ _ _ El Ec).
  py_run (dump_records_at _ _ _ _ Hd Hrows). py_run (dump_names_at _ _ _ Hc).
  by destruct s.
Qed.

Lemma dump_stack_at h l items st :
  h !! l = Some (OList items) -> Forall2 (snapshot_at h) items st ->
  dump_stack (VRef l) h = Some (st, h).
Proof.
  intros E Hst. unfold dump_stack. py_run (as_list_at _ _ _ E).
  apply mapM_readonly. eapply Forall2_impl; [exact Hst |].
  intros v s. apply dump_snapshot_at.
Qed.

Lemma load_rows_eq rs h :
  mapM load_row rs h
  = Some (map VRef (seq (length h) (length rs)), h ++ map row_obj rs).
Proof.
  revert h. induction rs as [| r rs IH]; intros h.
  - cbn. by rewrite app_nil_r.
  - cbn [mapM]. unfold load_row at 1. py_run (alloc_eq (row_obj r) h).
    py_run (IH (h ++ [row_obj r])).
    rewrite length_app, <- app_assoc. cbn.
    by rewrite Nat.add_1_r.
Qed.

Lemma load_records_eq rs h :
  load_records rs h
  = Some (VRef (length h + length rs),
          h ++ map row_obj rs ++ [OList (map VRef (seq (length h) (length rs)))]).
Proof.
  unfold load_records. py_run (load_rows_eq rs h).
  rewrite alloc_eq, length_app, length_map, <- app_assoc. done.
Qed.

Lemma load_names_eq cs h :
  load_names cs h = Some (VRef (length h), h ++ [names_obj cs]).
Proof. reflexivity. Qed.

Lemma load_snapshot_eq s h :
  load_snapshot s h
  = Some (VRef (length h + length (data s) + 2), h ++ table_objs (length h) s).
Proof.
  unfold load_snapshot.
  py_run (load_records_eq (data s) h).
  py_run (load_names_eq (columns s)
            (h ++ map row_obj (data s)
               ++ [OList (map VRef (seq (length h) (length (data s))))])).
  rewrite alloc_eq.
  rewrite !length_app, length_map. cbn [length].
  unfold table_objs, table_dict. rewrite <- !app_assoc. cbn.
  replace (length h + (length (data s) + 1)) with (length h + length (data s) + 1)
    by lia.
  do 3 f_equal. lia.
Qed.

Lemma table_objs_row h s i r :
  data s !! i = Some r ->
  (h ++ table_objs (length h) s) !! (length h + i) = Some (row_obj r).
Proof.
  intros E. rewrite lookup_app_r by lia.
  replace (length h + i - length h) with i by lia.
  unfold table_objs. apply lookup_app_l_Some. by rewrite list_lookup_fmap, E.
Qed.

Lemma table_objs_tail h s k o :
  [OList (map VRef (seq (length h) (length (data s))));
   names_obj (columns s);
   ODict (table_dict (length h) (length (data s)))] !! k = Some o ->
  (h ++ table_objs (length h) s) !! (length h + length (data s) + k) = Some o.
Proof.
  intros E. rewrite lookup_app_r by lia. unfold table_objs.
  rewrite lookup_app_r by (rewrite length_map; lia).
  rewrite length_map.
  by replace (length h + length (data s) + k - length h - length (data s))
    with k by lia.
Qed.

Lemma table_objs_length b s : length (table_objs b s) = length (data s) + 3.
Proof. unfold table_objs. rewrite length_app, length_map. done. Qed.

Lemma load_snapshots_spec entries h :
  exists refs h',
    mapM load_snapshot entries h = Some (refs, h') /\
    heap_le h h' /\ Forall2 (snapshot_at h') refs entries.
Proof.
  revert h. induction entries as [| s entries IH]; intros h.
  - exists [], h. repeat split; [apply heap_le_refl | constructor].
  - destruct (IH (h ++ table_objs (length h) s)) as (refs & h' & E & Hle & Hall).
    exists (VRef (length h + length (data s) + 2) :: refs), h'.
    split; [| split].
    + cbn [mapM]. py_run (load_snapshot_eq s h). py_run E. done.
    + eapply heap_le_trans; [apply heap_le_app | exact Hle].
    + constructor; [| exact Hall].
      eapply snapshot_at_mono; [exact Hle |].
      exists (length h + length (data s) + 2), (table_dict (length h) (length (data s))),
        (length h + length (data s)), (length h + length (data s) + 1),
        (map VRef (seq (length h) (length (data s)))).
      repeat split.
      * by apply (table_objs_tail h s 2).
      * replace (length h + length (data s)) with (length h + length (data s) + 0)
          at 1 by lia.
        by apply (table_objs_tail h s 0).
      * apply Forall2_fmap_l, Forall2_lookup. intros i.
        destruct (data s !! i) as [r |] eqn:Er.
        -- rewrite (lookup_seq_lt _ _ _ (lookup_lt_Some _ _ _ Er)).
           constructor. exists (length h + i). split; [done |].
           by apply table_objs_row.
        -- rewrite lookup_seq_ge by (by apply lookup_ge_None). constructor.
      * by apply (table_objs_tail h s 1).
Qed.

(** The stack argument after decoding: its entries read as [st] in a part
    [E] of the store that lies below the list itself. *)
Lemma load_stack_spec st :
  exists undo_stack items h E,
    load_stack st [] = Some (undo_stack, h) /\
    stack_val h undo_stack items /\
    heap_le E h /\
    Forall2 (snapshot_at E) items (stack_list st) /\
    (forall l, undo_stack = VRef l -> length E <= l).
Proof.
  destruct st as [entries |].
  - destruct (load_snapshots_spec entries []) as (refs & E & Hload & _ & Hall).
    exists (VRef (length E)), refs, (E ++ [OList refs]), E.
    repeat split.
    + unfold load_stack. py_run Hload. done.
    + right. exists (length E). split; [done | apply lookup_alloc_new].
    + apply heap_le_app.
    + exact Hall.
    + intros l [= <-]. done.
  - exists (VScalar PNone), [], [], [].
    repeat split; [by left | apply heap_le_refl | constructor | done].
Qed.

Lemma Forall2_push_items {A B} (R : A -> B -> Prop) xs ys x y :
  Forall2 R xs ys -> R x y -> Forall2 R (push_items xs x) (push_items ys y).
Proof.
  intros Hall Hxy. unfold push_items, last_n.
  assert (Hlen : length xs = length ys) by (by eapply Forall2_length).
  rewrite !length_app, Hlen. cbn [length].
  assert (Happ : Forall2 R (xs ++ [x]) (ys ++ [y]))
    by (apply Forall2_app; [done | by constructor]).
  destruct (UNDO_LIMIT <? length ys + 1); [by apply Forall2_drop | done].
Qed.

Lemma entries_set_scalar k c (r : row) :
  entries_set k (VScalar c) (map (fun kc => (kc.1, VScalar kc.2)) r)
  = map (fun kc => (kc.1, VScalar kc.2)) (entries_set k c r).
Proof.
  induction r as [| [k' c'] r IH]; [done |].
  cbn. destruct (String.eqb k' k); [done |]. cbn. by rewrite IH.
Qed.

Lemma entries_get_scalar k (r : row) :
  entries_get k (map (fun kc => (kc.1, VScalar kc.2)) r)
  = VScalar <$> entries_get k r.
Proof.
  induction r as [| [k' c'] r IH]; [done |].
  cbn. by destruct (String.eqb k' k).
Qed.

Lemma entries_del_scalar k (r : row) :
  entries_del k (map (fun kc => (kc.1, VScalar kc.2)) r)
  = map (fun kc => (kc.1, VScalar kc.2)) (entries_del k r).
Proof.
  induction r as [| [k' c'] r IH]; [done |].
  cbn. destruct (String.eqb k' k); [done |]. cbn. by rewrite IH.
Qed.

Lemma entries_del_absent {V} k (es : list (string * V)) :
  entries_get k es = None -> entries_del k es = es.
Proof.
  induction es as [| [k' v] es IH]; [done |].
  cbn. destruct (String.eqb k' k); [done |]. intros E. by rewrite IH.
Qed.

(** A loop over the rows of a table that rewrites each row dict. *)
Lemma for_each_rows (body : value -> py unit) (g : row -> row) rs : forall b h,
  (forall h l r, h !! l = Some (row_obj r) ->
                 body (VRef l) h = Some (tt, <[l := row_obj (g r)]> h)) ->
  (forall i r, rs !! i = Some r -> h !! (b + i) = Some (row_obj r)) ->
  exists h',
    for_each body (map VRef (seq b (length rs))) h = Some (tt, h') /\
    length h' = length h /\
    (forall i r, rs !! i = Some r -> h' !! (b + i) = Some (row_obj (g r))) /\
    (forall l o, l < b \/ b + length rs <= l -> h !! l = Some o -> h' !! l = Some o).
Proof.
  induction rs as [| r rs IH]; intros b h Hbody Hrows.
  - exists h. repeat split; done.
  - assert (E0 : h !! b = Some (row_obj r)).
    { specialize (Hrows 0 r eq_refl). by rewrite Nat.add_0_r in Hrows. }
    set (h1 := <[b := row_obj (g r)]> h).
    destruct (IH (S b) h1 Hbody) as (h' & Erun & Hlen & Hnew & Hold).
    { intros i r' Ei. unfold h1. eapply lookup_assign_ne; [| lia].
      replace (S b + i) with (b + S i) by lia. by apply Hrows. }
    exists h'. split; [| split; [| split]].
    + cbn [length seq map for_each]. py_run (Hbody h b r E0). exact Erun.
    + rewrite Hlen. apply length_insert.
    + intros [| i] r' Ei.
      * injection Ei as <-. rewrite Nat.add_0_r.
        apply (Hold b); [lia |]. by eapply lookup_assign_eq.
      * replace (b + S i) with (S b + i) by lia. by apply Hnew.
    + intros l o Hl El. cbn [length] in Hl. apply Hold; [lia |].
      eapply lookup_assign_ne; [done | lia].
Qed.

Lemma load_session {A} st s (k : value -> value -> py A) :
  exists undo_stack items E h b,
    (stv ← load_stack st; cur ← load_store (Some s); k stv cur) []
    = k undo_stack (VRef (b + length (data s) + 2)) h /\
    loaded st s undo_stack items E h b.
Proof.
  destruct (load_stack_spec st) as (stv & items & h0 & E & Hload & Hsv & Hle & Hall & Hloc).
  exists stv, items, E, (h0 ++ table_objs (length h0) s), (length h0).
  split.
  - py_run Hload. cbn [load_store]. py_run (load_snapshot_eq s h0). done.
  - assert (HE : length E <= length h0).
    { destruct (decide (length E <= length h0)) as [| Hn]; [done | exfalso].
      destruct (lookup_lt_is_Some_2 E (length h0)) as [o Ho]; [lia |].
      apply Hle, lookup_lt_Some in Ho. lia. }
    repeat split.
    + destruct Hsv as [[-> ->] | (l & -> & El)]; [by left | right].
      exists l. split; [done | by apply lookup_app_l_Some].
    + eapply heap_le_trans; [exact Hle | apply heap_le_app].
    + exact Hall.
    + by apply Hloc.
    + destruct Hsv as [[-> _] | (l' & -> & El)]; [done |].
      injection H as <-. by eapply lookup_lt_Some.
    + exact HE.
    + intros i r. apply table_objs_row.
    + replace (length h0 + length (data s)) with (length h0 + length (data s) + 0)
        at 1 by lia.
      by apply (table_objs_tail h0 s 0).
    + by apply (table_objs_tail h0 s 1).
    + by apply (table_objs_tail h0 s 2).
    + rewrite length_app, table_objs_length. lia.
Qed.

(** The first statement of an editing callback: the copy of the table dict
    lands right after the table, and the stack holds a reference to it. *)
Lemma push_copy_spec st s undo_stack items E h b :
  loaded st s undo_stack items E h b ->
  let n := length (data s) in
  exists l' h',
    push_copy undo_stack (VRef (b + n + 2)) h = Some (VRef l', h') /\
    h' !! l' = Some (OList (push_items items (VRef (b + n + 3)))) /\
    h' !! (b + n + 3) = Some (ODict (table_dict b n)) /\
    (l' < b \/ b + n + 4 <= l') /\
    b + n + 4 <= length h' /\
    (forall k o, b <= k -> h !! k = Some o -> h' !! k = Some o) /\
    (forall k o, k < length E -> h !! k = Some o -> h' !! k = Some o).
Proof.
  intros (Hsv & Hle & Hall & Hloc & HE & Hrows & Hlist & Hnames & Hdict & Hlen) n.
  fold n in Hlist, Hnames, Hdict, Hlen.
  set (h1 := h ++ [ODict (table_dict b n)]).
  assert (Hsv1 : stack_val h1 undo_stack items).
  { destruct Hsv as [[-> ->] | (l & -> & El)]; [by left | right].
    exists l. split; [done | by apply lookup_alloc_old]. }
  destruct (push_to_undo_stack_spec h1 undo_stack items (VRef (b + n + 3)) Hsv1)
    as (l' & h' & Epush & Hl' & Hlen' & Hframe & Hfresh).
  assert (Hlen1 : length h1 = b + n + 4).
  { unfold h1. rewrite length_app, Hlen. simpl. lia. }
  assert (Hother : forall k, (k < length E \/ b <= k) -> VRef k ≠ undo_stack).
  { intros k Hk [= <-]. specialize (Hloc k eq_refl). lia. }
  exists l', h'. repeat split.
  - unfold push_copy. py_run (dict_copy_at _ _ _ Hdict).
    rewrite Hlen. replace (b + n + 3) with (b + n + 3) in Epush by done.
    exact Epush.
  - exact Hl'.
  - apply Hframe; [| apply Hother; lia].
    unfold h1. replace (b + n + 3) with (length h) by lia. apply lookup_alloc_new.
  - destruct (decide (l' < length h1)) as [Hlt | Hge]; [| lia].
    left. specialize (Hfresh Hlt). specialize (Hloc l' (eq_sym Hfresh)). lia.
  - lia.
  - intros k o Hk Ek. apply Hframe; [by apply lookup_alloc_old | apply Hother; lia].
  - intros k o Hk Ek. apply Hframe; [by apply lookup_alloc_old | apply Hother; lia].
Qed.

(** A table read off its parts in the store. *)
Lemma snapshot_at_parts h l es d c b rs cs :
  h !! l = Some (ODict es) ->
  entries_get "data" es = Some (VRef d) ->
  entries_get "columns" es = Some (VRef c) ->
  h !! d = Some (OList (map VRef (seq b (length rs)))) ->
  (forall i r, rs !! i = Some r -> h !! (b + i) = Some (row_obj r)) ->
  h !! c = Some (names_obj cs) ->
  snapshot_at h (VRef l) (Snapshot rs cs).
Proof.
  intros El Ed Ec Hd Hrows Hc.
  exists l, es, d, c, (map VRef (seq b (length rs))). repeat split; try done.
  cbn [data]. apply Forall2_fmap_l, Forall2_lookup. intros i.
  destruct (rs !! i) as [r |] eqn:Er.
  - rewrite (lookup_seq_lt _ _ _ (lookup_lt_Some _ _ _ Er)).
    constructor. exists (b + i). split; [done | by apply Hrows].
  - rewrite lookup_seq_ge by (by apply lookup_ge_None). constructor.
Qed.

Section Proofs.

Variable float_repr : spec_float -> string.

Lemma try_except_some {A} (body handler : py A) h r :
  body h = Some r -> try_except body handler h = Some r.
Proof. intros E. unfold try_except. by rewrite E. Qed.

Lemma dump_output_update {A} (dump : value -> py A) v h a h' :
  dump v h = Some (a, h') ->
  dump_output dump (update v) h = Some (update a, h').
Proof. intros E. cbn [dump_output]. by py_run E. Qed.

Lemma truthy_table h l b n :
  h !! l = Some (ODict (table_dict b n)) -> truthy (VRef l) h = Some (true, h).
Proof. intros E. by rewrite (truthy_dict_at _ _ _ E). Qed.

Lemma setitem_row h l r k c :
  h !! l = Some (row_obj r) ->
  setitem (VRef l) k (VScalar c) h
  = Some (tt, <[l := row_obj (entries_set k c r)]> h).
Proof.
  intros E. unfold row_obj in *. rewrite (setitem_at _ _ _ _ _ E).
  by rewrite entries_set_scalar.
Qed.

Lemma preview_of_at h cur s fn :
  snapshot_at h cur s ->
  preview_of float_repr cur fn h
  = Some (create_preview_table float_repr (pd_DataFrame (data s)) fn true, h).
Proof.
  intros (l & es & d & c & items & -> & El & Ed & Ec & Hd & Hrows & Hc).
  unfold preview_of. py_run (getitem_at _ _ _ _ _ El Ed).
  py_run (dump_records_at _ _ _ _ Hd Hrows). done.
Qed.

Lemma add_column_callback_eq n s st fn :
  0 < n ->
  add_column_callback float_repr n (Some s) st (file_dict fn)
  = Some (Return (add_column_result s,
                  push_items (stack_list st) (add_column_result s),
                  create_preview_table float_repr
                    (pd_DataFrame (data (add_column_result s))) fn true)).
Proof.
  intros Hn. unfold add_column_callback, run.
  destruct (load_session st s
              (fun stv cur =>
                 r ← add_column float_repr n cur stv (file_dict fn);
                 match r with
                 | PreventUpdate => mret PreventUpdate
                 | Return (cur', st', pv) =>
                     cur' ← dump_snapshot cur'; st' ← dump_stack st';
                     mret (Return (cur', st', pv))
                 end))
    as (stv & items & E & h & b & -> & Hloaded).
  destruct (push_copy_spec _ _ _ _ _ _ _ Hloaded)
    as (l' & h1 & Epush & Hl' & Hcopy & Hl'b & Hlen1 & Hup & Hlow).
  destruct Hloaded as (Hsv & Hle & Hall & Hloc & HE & Hrows & Hlist & Hnames & Hdict & Hlen).
  set (nr := length (data s)) in *.
  set (cur := VRef (b + nr + 2)).
  set (name := "New_Column_" +:+ pretty (length (columns s) + 1)).
  (* the list of names, extended *)
  set (h2 := <[b + nr + 1 := names_obj (columns s ++ [name])]> h1).
  assert (Hnames1 := Hup (b + nr + 1) _ ltac:(lia) Hnames).
  assert (Hdict1 := Hup (b + nr + 2) _ ltac:(lia) Hdict).
  assert (Hlist1 := Hup (b + nr) _ ltac:(lia) Hlist).
  assert (Hrows2 : forall i r, data s !! i = Some r -> h2 !! (b + i) = Some (row_obj r)).
  { intros i r Ei. eapply lookup_assign_ne; [| pose proof (lookup_lt_Some _ _ _ Ei); lia].
    apply Hup; [lia | by apply Hrows]. }
  destruct (for_each_rows
              (fun r => setitem r name (VScalar (PStr "")))
              (entries_set name (PStr "")) (data s) b h2)
    as (h3 & Eloop & Hlen3 & Hrows3 & Hframe3); [| exact Hrows2 |].
  { intros h0 l r El. by apply setitem_row. }
  fold nr in Eloop, Hframe3.
  assert (Keep : forall k o, b + nr <= k -> k ≠ b + nr + 1 ->
                             h1 !! k = Some o -> h3 !! k = Some o).
  { intros k o Hk Hne Ek. apply Hframe3; [lia |]. by eapply lookup_assign_ne. }
  assert (Hcur3 : snapshot_at h3 cur (add_column_result s)).
  { eapply (snapshot_at_parts h3 _ (table_dict b nr) (b + nr) (b + nr + 1) b).
    - apply Keep; [lia | lia | exact Hdict1].
    - done.
    - done.
    - rewrite length_map. apply Keep; [lia | lia | exact Hlist1].
    - intros i r Ei. apply list_lookup_fmap_Some in Ei as (r0 & -> & E0).
      by apply Hrows3.
    - apply Hframe3; [lia |]. by eapply lookup_assign_eq. }
  assert (Hsaved3 : snapshot_at h3 (VRef (b + nr + 3)) (add_column_result s)).
  { destruct Hcur3 as (l0 & es & d & c & its & [= <-] & El & Ed & Ec & Hd & Hr & Hc).
    rewrite (Keep (b + nr + 2) _ ltac:(lia) ltac:(lia) Hdict1) in El. injection El as <-.
    exists (b + nr + 3), (table_dict b nr), d, c, its. repeat split; try done.
    apply Keep; [lia | lia | exact Hcopy]. }
  assert (Hl'3 : h3 !! l' = Some (OList (push_items items (VRef (b + nr + 3))))).
  { apply Hframe3; [lia |]. eapply lookup_assign_ne; [exact Hl' | lia]. }
  assert (Hle3 : heap_le E h3).
  { intros k o Ek. pose proof (lookup_lt_Some _ _ _ Ek).
    apply Hframe3; [lia |]. eapply lookup_assign_ne; [| lia].
    apply Hlow; [lia |]. by apply Hle. }
  assert (Ebody : add_column float_repr n cur stv (file_dict fn) h
                  = Some (Return (cur, VRef l',
                            create_preview_table float_repr
                              (pd_DataFrame (data (add_column_result s))) fn true),
                          h3)).
  { unfold add_column, cur.
    py_run (truthy_dict_at _ _ _ Hdict).
    replace ((n =? 0) || negb (negb (length (table_dict b nr) =? 0))) with false
      by (symmetry; apply orb_false_intro; [apply Nat.eqb_neq; lia | done]).
    py_run Epush.
    py_run (getitem_at _ _ _ "columns" _ Hdict1 eq_refl).
    py_run (len_at _ _ _ Hnames1).
    rewrite length_map. fold name.
    py_run (list_append_at _ _ _ (VScalar (PStr name)) Hnames1).
    replace (<[b + nr + 1 := OList (map (fun c => VScalar (PStr c)) (columns s)
                                     ++ [VScalar (PStr name)])]> h1) with h2
      by (unfold h2, names_obj; by rewrite map_app).
    assert (Hdict2 : h2 !! (b + nr + 2) = Some (ODict (table_dict b nr)))
      by (eapply lookup_assign_ne; [exact Hdict1 | lia]).
    assert (Hlist2 : h2 !! (b + nr) = Some (OList (map VRef (seq b nr))))
      by (eapply lookup_assign_ne; [exact Hlist1 | lia]).
    py_run (getitem_at _ _ _ "data" _ Hdict2 eq_refl).
    py_run (as_list_at _ _ _ Hlist2).
    py_run Eloop.
    py_run (ret_eq fn h3 : file_get_filename (file_dict fn) h3 = Some (fn, h3)).
    py_run (preview_of_at _ _ _ fn Hcur3). done. }
  py_run Ebody.
  py_run (dump_snapshot_at _ _ _ Hcur3).
  assert (Hst : dump_stack (VRef l') h3
                = Some (push_items (stack_list st) (add_column_result s), h3)).
  { eapply dump_stack_at; [exact Hl'3 |].
    apply Forall2_push_items; [| exact Hsaved3].
    eapply Forall2_impl; [exact Hall |]. intros v s0. by apply snapshot_at_mono. }
  py_run Hst. done.
Qed.

Lemma contains_key_at h l es k :
  h !! l = Some (ODict es) ->
  contains_key (VRef l) k h = Some (entries_has k es, h).
Proof. intros E. unfold contains_key. by py_run (as_dict_at _ _ _ E). Qed.

Lemma delitem_at h l es k :
  h !! l = Some (ODict es) -> entries_has k es = true ->
  delitem (VRef l) k h = Some (tt, <[l := ODict (entries_del k es)]> h).
Proof.
  intros E Hk. unfold delitem. py_run (as_dict_at _ _ _ E). rewrite Hk.
  by eapply assign_at.
Qed.

Lemma delete_row h l r k :
  h !! l = Some (row_obj r) ->
  (present ← contains_key (VRef l) k;
   if present : bool then delitem (VRef l) k else mret tt) h
  = Some (tt, <[l := row_obj (entries_del k r)]> h).
Proof.
  intros E. py_run (contains_key_at _ _ _ k E).
  destruct (entries_has k _) eqn:Hk.
  - rewrite (delitem_at _ _ _ _ E Hk). by rewrite entries_del_scalar.
  - unfold entries_has in Hk. rewrite entries_get_scalar in Hk.
    destruct (entries_get k r) as [c |] eqn:G; [done |].
    rewrite (entries_del_absent _ _ G). by rewrite list_insert_id.
Qed.

Lemma delete_column_callback_ok n name s st fd :
  0 < n -> name ≠ "" -> 1 < length (columns s) -> name ∈ columns s ->
  delete_column_dropdown_callback float_repr n (Some name) (Some s) st fd
  = Some (Return
            (update (delete_column_result name s),
             update (push_items (stack_list st) (delete_column_saved name s)),
             update (create_preview_table float_repr
                       (pd_DataFrame (data (delete_column_result name s)))
                       (file_filename_or_none fd) true),
             mkDiv ("✅ Successfully removed column '" +:+ name
                    +:+ "' (undo available)") "status-success",
             update None)).
Proof.
  intros Hn Hname Hcols Hin. unfold delete_column_dropdown_callback, run.
  destruct (load_session st s
              (fun stv cur =>
                 r ← delete_column_dropdown float_repr n (Some name) cur stv fd;
                 match r with
                 | PreventUpdate => mret PreventUpdate
                 | Return (cur', st', pv, msg, sel) =>
                     cur' ← dump_output dump_snapshot cur';
                     st' ← dump_output dump_stack st';
                     mret (Return (cur', st', pv, msg, sel))
                 end))
    as (stv & items & E & h & b & -> & Hloaded).
  destruct (push_copy_spec _ _ _ _ _ _ _ Hloaded)
    as (l' & h1 & Epush & Hl' & Hcopy & Hl'b & Hlen1 & Hup & Hlow).
  destruct Hloaded as (Hsv & Hle & Hall & Hloc & HE & Hrows & Hlist & Hnames & Hdict & Hlen).
  set (nr := length (data s)) in *.
  set (kept := filter (fun col => col ≠ name) (columns s)).
  assert (Hnames1 := Hup (b + nr + 1) _ ltac:(lia) Hnames).
  assert (Hdict1 := Hup (b + nr + 2) _ ltac:(lia) Hdict).
  assert (Hlist1 := Hup (b + nr) _ ltac:(lia) Hlist).
  (* the new list of names, and the table dict pointing to it *)
  set (c' := length h1).
  set (h2 := h1 ++ [names_obj kept]).
  set (es' := [("data", VRef (b + nr)); ("columns", VRef c')]).
  set (h3 := <[b + nr + 2 := ODict es']> h2).
  assert (Hrows3 : forall i r, data s !! i = Some r -> h3 !! (b + i) = Some (row_obj r)).
  { intros i r Ei. pose proof (lookup_lt_Some _ _ _ Ei).
    eapply lookup_assign_ne; [| lia]. apply lookup_alloc_old.
    apply Hup; [lia | by apply Hrows]. }
  destruct (for_each_rows
              (fun r => present ← contains_key r name;
                        if present : bool then delitem r name else mret tt)
              (entries_del name) (data s) b h3)
    as (h4 & Eloop & Hlen4 & Hrows4 & Hframe4); [| exact Hrows3 |].
  { intros h0 l r El. by apply delete_row. }
  fold nr in Eloop, Hframe4.
  assert (Keep : forall k o, b + nr <= k -> k ≠ b + nr + 2 ->
                             h1 !! k = Some o -> h4 !! k = Some o).
  { intros k o Hk Hne Ek. apply Hframe4; [lia |].
    eapply lookup_assign_ne; [by apply lookup_alloc_old | lia]. }
  assert (Hdict4 : h4 !! (b + nr + 2) = Some (ODict es')).
  { apply Hframe4; [lia |]. eapply lookup_assign_eq. by apply lookup_alloc_old. }
  assert (Hkept4 : h4 !! c' = Some (names_obj kept)).
  { apply Hframe4; [unfold c'; lia |].
    eapply lookup_assign_ne; [apply lookup_alloc_new | unfold c'; lia]. }
  assert (Hrows4' : forall i r, map (entries_del name) (data s) !! i = Some r ->
                                h4 !! (b + i) = Some (row_obj r)).
  { intros i r Ei. apply list_lookup_fmap_Some in Ei as (r0 & -> & E0).
    by apply Hrows4. }
  assert (Hlist4 : h4 !! (b + nr)
                   = Some (OList (map VRef (seq b (length (map (entries_del name) (data s))))))).
  { rewrite length_map. apply Keep; [lia | lia | exact Hlist1]. }
  assert (Hcur4 : snapshot_at h4 (VRef (b + nr + 2)) (delete_column_result name s)).
  { by eapply (snapshot_at_parts h4 _ es' (b + nr) c' b). }
  assert (Hsaved4 : snapshot_at h4 (VRef (b + nr + 3)) (delete_column_saved name s)).
  { eapply (snapshot_at_parts h4 _ (table_dict b nr) (b + nr) (b + nr + 1) b);
      try done.
    - apply Keep; [lia | lia | exact Hcopy].
    - apply Keep; [lia | lia | exact Hnames1]. }
  assert (Hl'4 : h4 !! l' = Some (OList (push_items items (VRef (b + nr + 3))))).
  { apply Hframe4; [lia |].
    eapply lookup_assign_ne; [by apply lookup_alloc_old | lia]. }
  assert (Hle4 : heap_le E h4).
  { intros k o Ek. pose proof (lookup_lt_Some _ _ _ Ek).
    apply Hframe4; [lia |]. eapply lookup_assign_ne; [| lia].
    apply lookup_alloc_old. apply Hlow; [lia |]. by apply Hle. }
  assert (Ebody :
    delete_column_dropdown float_repr n (Some name) (VRef (b + nr + 2)) stv fd h
    = Some (Return
              (update (VRef (b + nr + 2)), update (VRef l'),
               update (create_preview_table float_repr
                         (pd_DataFrame (data (delete_column_result name s)))
                         (file_filename_or_none fd) true),
               mkDiv ("✅ Successfully removed column '" +:+ name
                      +:+ "' (undo available)") "status-success",
               update None), h4)).
  { unfold delete_column_dropdown.
    py_run (truthy_table _ _ _ _ Hdict).
    destruct name as [| a name']; [done |].
    set (name := String a name') in *.
    replace ((n =? 0) || negb true) with false
      by (symmetry; apply orb_false_intro; [apply Nat.eqb_neq; lia | done]).
    py_run (getitem_at _ _ _ "columns" _ Hdict eq_refl).
    py_run (len_at _ _ _ Hnames). rewrite length_map.
    replace (length (columns s) <=? 1) with false
      by (symmetry; apply Nat.leb_gt; lia).
    py_run (dump_names_at _ _ _ Hnames).
    rewrite (bool_decide_eq_true_2 _ Hin). cbn [negb].
    apply try_except_some.
    py_run Epush.
    py_run (load_names_eq kept h1). fold h2 c'.
    py_run (setitem_at _ _ _ "columns" (VRef c')
              (lookup_alloc_old h1 (names_obj kept) _ _ Hdict1)).
    change (entries_set "columns" (VRef c') (table_dict b nr)) with es'.
    fold h3.
    assert (Hdict3 : h3 !! (b + nr + 2) = Some (ODict es'))
      by (eapply lookup_assign_eq; by apply lookup_alloc_old).
    assert (Hlist3 : h3 !! (b + nr) = Some (OList (map VRef (seq b nr))))
      by (eapply lookup_assign_ne; [by apply lookup_alloc_old | lia]).
    py_run (getitem_at _ _ _ "data" _ Hdict3 eq_refl).
    py_run (as_list_at _ _ _ Hlist3).
    py_run Eloop.
    py_run (preview_of_at _ _ _ (file_filename_or_none fd) Hcur4). done. }
  py_run Ebody.
  py_run (dump_output_update _ _ _ _ _ (dump_snapshot_at _ _ _ Hcur4)).
  assert (Hst : dump_stack (VRef l') h4
                = Some (push_items (stack_list st) (delete_column_saved name s), h4)).
  { eapply dump_stack_at; [exact Hl'4 |].
    apply Forall2_push_items; [| exact Hsaved4].
    eapply Forall2_impl; [exact Hall |]. intros v s0. by apply snapshot_at_mono. }
  py_run (dump_output_update _ _ _ _ _ Hst). done.
Qed.




Lemma undo_stack_after_push_eq s st :
  undo_stack_after_push s st = Some (push_items (stack_list st) s).
Proof.
  unfold undo_stack_after_push, run.
  destruct (load_session st s
              (fun stv cur => st' ← push_copy stv cur; dump_stack st'))
    as (stv & items & E & h & b & -> & Hloaded).
  destruct (push_copy_spec _ _ _ _ _ _ _ Hloaded)
    as (l' & h1 & Epush & Hl' & Hcopy & Hl'b & Hlen1 & Hup & Hlow).
  destruct Hloaded as (Hsv & Hle & Hall & Hloc & HE & Hrows & Hlist & Hnames & Hdict & Hlen).
  py_run Epush.
  assert (Hsaved : snapshot_at h1 (VRef (b + length (data s) + 3)) s).
  { destruct s as [rs cs]. cbn [data columns] in *.
    eapply (snapshot_at_parts h1 _ (table_dict b (length rs))
              (b + length rs) (b + length rs + 1) b); try done.
    - apply Hup; [lia | done].
    - intros i r Ei. apply Hup; [lia | by apply Hrows].
    - apply Hup; [lia | done]. }
  assert (Hst : dump_stack (VRef l') h1 = Some (push_items (stack_list st) s, h1)).
  { eapply dump_stack_at; [exact Hl' |].
    apply Forall2_push_items; [| exact Hsaved].
    eapply Forall2_impl; [exact Hall |]. intros v s0. apply snapshot_at_mono.
    intros k o Ek. pose proof (lookup_lt_Some _ _ _ Ek).
    apply Hlow; [lia | by apply Hle]. }
  by rewrite Hst.
Qed.

Lemma load_store_ext cur h :
  exists v ext, load_store cur h = Some (v, h ++ ext).
Proof.
  destruct cur as [s |].
  - eexists _, _. apply load_snapshot_eq.
  - exists (VScalar PNone), []. by rewrite app_nil_r.
Qed.

Lemma load_snapshot_at s h :
  snapshot_at (h ++ table_objs (length h) s)
              (VRef (length h + length (data s) + 2)) s.
Proof.
  destruct s as [rs cs]. cbn [data].
  eapply (snapshot_at_parts _ _ (table_dict (length h) (length rs))
            (length h + length rs) (length h + length rs + 1) (length h));
    try done.
  - by apply (table_objs_tail h (Snapshot rs cs) 2).
  - replace (length h + length rs) with (length h + length rs + 0) at 1 by lia.
    by apply (table_objs_tail h (Snapshot rs cs) 0).
  - intros i r. apply (table_objs_row h (Snapshot rs cs)).
  - by apply (table_objs_tail h (Snapshot rs cs) 1).
Qed.

Lemma undo_changes_callback_empty n cur st fd :
  0 < n -> stack_list st = [] ->
  undo_changes_callback float_repr n cur st fd
  = Some (Return (no_update, no_update, no_update,
                  mkDiv "⚠️ No previous state to undo" "status-warning")).
Proof.
  intros Hn Hst. unfold undo_changes_callback, run.
  destruct (load_stack_spec st) as (stv & items & h0 & E & Hload & Hsv & Hle & Hall & Hloc).
  rewrite Hst in Hall. apply Forall2_nil_inv_r in Hall as ->.
  py_run Hload.
  destruct (load_store_ext cur h0) as (v & ext & Ecur). py_run Ecur.
  assert (Ebody : undo_changes float_repr n v stv fd (h0 ++ ext)
                  = Some (Return (no_update, no_update, no_update,
                            mkDiv "⚠️ No previous state to undo" "status-warning"),
                          (h0 ++ ext) ++ [OList []])).
  { unfold undo_changes. replace (n =? 0) with false
      by (symmetry; apply Nat.eqb_neq; lia).
    assert (Epop : pop_from_undo_stack stv (h0 ++ ext)
                   = Some ((None, VRef (length (h0 ++ ext))), (h0 ++ ext) ++ [OList []])).
    { unfold pop_from_undo_stack.
      destruct Hsv as [[-> _] | (l & -> & El)].
      - by py_run (eq_refl : truthy (VScalar PNone) (h0 ++ ext) = Some (false, h0 ++ ext)).
      - by py_run (truthy_list_at _ _ _ (lookup_app_l_Some _ ext _ _ El)). }
    by py_run Epop. }
  by py_run Ebody.
Qed.

Lemma undo_changes_callback_pop n cur init top fd :
  0 < n ->
  undo_changes_callback float_repr n cur (Some (init ++ [top])) fd
  = Some (Return (update top, update init,
                  update (create_preview_table float_repr
                            (pd_DataFrame (data top))
                            (file_filename_or_none fd) true),
                  undo_status_msg (length init))).
Proof.
  intros Hn. unfold undo_changes_callback, run.
  destruct (load_stack_spec (Some (init ++ [top])))
    as (stv & items & h0 & E & Hload & Hsv & Hle & Hall & Hloc).
  py_run Hload.
  destruct (load_store_ext cur h0) as (v & ext & Ecur). py_run Ecur.
  destruct Hsv as [[_ ->] | (l & -> & El)].
  { apply Forall2_nil_inv_l in Hall. by destruct init. }
  cbn [stack_list] in Hall.
  apply Forall2_app_inv_r in Hall as (refs & rtop & Hinit & Htop & ->).
  apply Forall2_cons_inv_r in Htop as (ref & nil' & Htop & Hnil & ->).
  apply Forall2_nil_inv_r in Hnil as ->.
  specialize (Hloc l eq_refl).
  set (h1 := h0 ++ ext).
  assert (El1 : h1 !! l = Some (OList (refs ++ [ref]))) by (by apply lookup_app_l_Some).
  set (h2 := <[l := OList refs]> h1).
  assert (El2 : h2 !! l = Some (OList refs)) by (by eapply lookup_assign_eq).
  assert (Hle2 : heap_le E h2).
  { intros k o Ek. pose proof (lookup_lt_Some _ _ _ Ek).
    eapply lookup_assign_ne; [| lia]. apply lookup_app_l_Some. by apply Hle. }
  assert (Htop2 : snapshot_at h2 ref top) by (by eapply snapshot_at_mono).
  assert (Ebody : undo_changes float_repr n v (VRef l) fd h1
                  = Some (Return (update ref, update (VRef l),
                            update (create_preview_table float_repr
                                      (pd_DataFrame (data top))
                                      (file_filename_or_none fd) true),
                            undo_status_msg (length init)), h2)).
  { unfold undo_changes. replace (n =? 0) with false
      by (symmetry; apply Nat.eqb_neq; lia).
    assert (Epop : pop_from_undo_stack (VRef l) h1 = Some ((Some ref, VRef l), h2)).
    { unfold pop_from_undo_stack. py_run (truthy_list_at _ _ _ El1).
      rewrite length_app. cbn [length].
      replace (negb (negb (length refs + 1 =? 0))) with false
        by (symmetry; apply negb_false_iff, negb_true_iff, Nat.eqb_neq; lia).
      assert (Elp : list_pop (VRef l) h1 = Some (ref, h2)).
      { unfold list_pop. py_run (as_list_at _ _ _ El1).
        rewrite last_snoc, removelast_last.
        by py_run (assign_at _ _ _ (OList refs) El1). }
      by py_run Elp. }
    py_run Epop. apply try_except_some.
    py_run (preview_of_at _ _ _ (file_filename_or_none fd) Htop2).
    assert (Ecount : get_undo_count (VRef l) h2 = Some (length init, h2)).
    { unfold get_undo_count. py_run (truthy_list_at _ _ _ El2).
      rewrite <- (Forall2_length _ _ _ Hinit).
      destruct refs; [done |]. cbn [length Nat.eqb negb].
      by rewrite (len_at _ _ _ El2). }
    by py_run Ecount. }
  py_run Ebody.
  py_run (dump_output_update _ _ _ _ _ (dump_snapshot_at _ _ _ Htop2)).
  assert (Hst : dump_stack (VRef l) h2 = Some (init, h2)).
  { eapply dump_stack_at; [exact El2 |].
    eapply Forall2_impl; [exact Hinit |]. intros v0 s0. by apply snapshot_at_mono. }
  by py_run (dump_output_update _ _ _ _ _ Hst).
Qed.

(** A table laid out at [b] still reads the same in a store that keeps
    everything from [b] on. *)
Lemma table_frame (h h' : heap) b s :
  (forall i r, data s !! i = Some r -> h !! (b + i) = Some (row_obj r)) ->
  h !! (b + length (data s)) = Some (OList (map VRef (seq b (length (data s))))) ->
  h !! (b + length (data s) + 1) = Some (names_obj (columns s)) ->
  h !! (b + length (data s) + 2) = Some (ODict (table_dict b (length (data s)))) ->
  (forall k o, b <= k -> h !! k = Some o -> h' !! k = Some o) ->
  snapshot_at h' (VRef (b + length (data s) + 2)) s.
Proof.
  intros Hrows Hlist Hnames Hdict Hup. destruct s as [rs cs]. cbn [data columns] in *.
  eapply (snapshot_at_parts h' _ (table_dict b (length rs))
            (b + length rs) (b + length rs + 1) b); try done.
  - apply Hup; [lia | done].
  - apply Hup; [lia | done].
  - intros i r Ei. apply Hup; [lia | by apply Hrows].
  - apply Hup; [lia | done].
Qed.

Lemma revert_callback_ok n cur st orig fd :
  0 < n -> data orig ≠ [] ->
  revert_to_original_callback float_repr n (Some cur) st (Some orig) fd
  = Some (Return (update orig, update (Some (push_items (stack_list st) cur)),
                  update (create_preview_table float_repr
                            (pd_DataFrame (data orig))
                            (file_filename_or_none fd) true),
                  mkDiv "🔄 Reverted to original data successfully"
                        "status-success")).
Proof.
  intros Hn Hdata. unfold revert_to_original_callback, run.
  destruct (load_session st cur
              (fun stv c =>
                 o ← load_store (Some orig);
                 r ← revert_to_original float_repr n c stv o fd;
                 match r with
                 | PreventUpdate => mret PreventUpdate
                 | Return (cur', st', pv, msg) =>
                     cur' ← dump_output dump_snapshot cur';
                     st' ← dump_output dump_stack_or_none st';
                     mret (Return (cur', st', pv, msg))
                 end))
    as (stv & items & E & h & b & -> & Hloaded).
  destruct Hloaded as (Hsv & Hle & Hall & Hloc & HE & Hrows & Hlist & Hnames & Hdict & Hlen).
  cbn [load_store]. py_run (load_snapshot_eq orig h).
  set (h1 := h ++ table_objs (length h) orig).
  set (curv := VRef (b + length (data cur) + 2)).
  set (origv := VRef (length h + length (data orig) + 2)).
  assert (Hsv1 : stack_val h1 stv items).
  { destruct Hsv as [[-> ->] | (l & -> & El)]; [by left | right].
    exists l. split; [done | by apply lookup_app_l_Some]. }
  destruct (push_to_undo_stack_spec h1 stv items curv Hsv1)
    as (l' & h2 & Epush & Hl' & Hlen' & Hframe & Hfresh).
  assert (Hother : forall k, (k < length E \/ b <= k) -> VRef k ≠ stv).
  { intros k Hk [= <-]. specialize (Hloc k eq_refl). lia. }
  assert (Hup : forall k o, b <= k -> h1 !! k = Some o -> h2 !! k = Some o).
  { intros k o Hk Ek. apply Hframe; [done | apply Hother; lia]. }
  assert (Hcur2 : snapshot_at h2 curv cur).
  { apply (table_frame h h2 b cur); try done.
    intros k o Hk Ek. apply Hup; [done | by apply lookup_app_l_Some]. }
  assert (Horig2 : snapshot_at h2 origv orig).
  { apply (table_frame h1 h2 (length h) orig).
    - intros i r. apply table_objs_row.
    - replace (length h + length (data orig))
        with (length h + length (data orig) + 0) at 1 by lia.
      by apply (table_objs_tail h orig 0).
    - by apply (table_objs_tail h orig 1).
    - by apply (table_objs_tail h orig 2).
    - intros k o Hk Ek. apply Hup; [lia | done]. }
  assert (Hle2 : heap_le E h2).
  { intros k o Ek. pose proof (lookup_lt_Some _ _ _ Ek).
    apply Hframe; [| apply Hother; lia]. apply lookup_app_l_Some. by apply Hle. }
  assert (Hodict : h1 !! (length h + length (data orig) + 2)
                   = Some (ODict (table_dict (length h) (length (data orig)))))
    by (by apply (table_objs_tail h orig 2)).
  assert (Holist : h1 !! (length h + length (data orig))
                   = Some (OList (map VRef (seq (length h) (length (data orig)))))).
  { replace (length h + length (data orig))
      with (length h + length (data orig) + 0) at 1 by lia.
    by apply (table_objs_tail h orig 0). }
  assert (Ebody : revert_to_original float_repr n curv stv origv fd h1
                  = Some (Return (update origv, update (VRef l'),
                            update (create_preview_table float_repr
                                      (pd_DataFrame (data orig))
                                      (file_filename_or_none fd) true),
                            mkDiv "🔄 Reverted to original data successfully"
                                  "status-success"), h2)).
  { unfold revert_to_original.
    assert (Enothing : nothing_to_revert origv h1 = Some (false, h1)).
    { unfold nothing_to_revert, origv. py_run (truthy_table _ _ _ _ Hodict).
      cbn [negb]. py_run (as_dict_at _ _ _ Hodict).
      change (entries_get "data" (table_dict (length h) (length (data orig))))
        with (Some (VRef (length h + length (data orig)))).
      cbv iota.
      py_run (truthy_list_at _ _ _ Holist). rewrite length_map, length_seq.
      destruct (data orig); [done |]. done. }
    py_run Enothing.
    replace ((n =? 0) || false) with false
      by (symmetry; apply orb_false_intro; [apply Nat.eqb_neq; lia | done]).
    apply try_except_some.
    py_run (truthy_table _ _ _ _ (lookup_app_l_Some _ (table_objs (length h) orig) _ _ Hdict)).
    py_run Epush.
    by py_run (preview_of_at _ _ _ (file_filename_or_none fd) Horig2). }
  py_run Ebody.
  py_run (dump_output_update _ _ _ _ _ (dump_snapshot_at _ _ _ Horig2)).
  assert (Hst : dump_stack (VRef l') h2 = Some (push_items (stack_list st) cur, h2)).
  { eapply dump_stack_at; [exact Hl' |].
    apply Forall2_push_items; [| exact Hcur2].
    eapply Forall2_impl; [exact Hall |]. intros v s0. by apply snapshot_at_mono. }
  assert (Hst' : dump_stack_or_none (VRef l') h2
                 = Some (Some (push_items (stack_list st) cur), h2)).
  { unfold dump_stack_or_none. by py_run Hst. }
  by py_run (dump_output_update _ _ _ _ _ Hst').
Qed.

Lemma revert_callback_nothing n cur st orig fd :
  orig = None \/ (exists o, orig = Some o /\ data o = []) ->
  revert_to_original_callback float_repr n cur st orig fd
  = Some (Return (no_update, no_update, no_update,
                  mkDiv "⚠️ No original data to revert to" "status-warning")).
Proof.
  intros Horig. unfold revert_to_original_callback, run.
  destruct (load_stack_spec st) as (stv & items & h0 & E & Hload & _).
  py_run Hload.
  destruct (load_store_ext cur h0) as (v & ext & Ecur). py_run Ecur.
  set (h1 := h0 ++ ext).
  destruct Horig as [-> | (o & -> & Hdata)].
  - cbn [load_store]. py_run (ret_eq (VScalar PNone) h1).
    assert (Ebody : revert_to_original float_repr n v stv (VScalar PNone) fd h1
                    = Some (Return (no_update, no_update, no_update,
                              mkDiv "⚠️ No original data to revert to"
                                    "status-warning"), h1)).
    { unfold revert_to_original.
      py_run (eq_refl : nothing_to_revert (VScalar PNone) h1 = Some (true, h1)).
      by rewrite orb_true_r. }
    by py_run Ebody.
  - cbn [load_store]. py_run (load_snapshot_eq o h1).
    set (h2 := h1 ++ table_objs (length h1) o).
    assert (Hodict : h2 !! (length h1 + length (data o) + 2)
                     = Some (ODict (table_dict (length h1) (length (data o)))))
      by (by apply (table_objs_tail h1 o 2)).
    assert (Holist : h2 !! (length h1 + length (data o))
                     = Some (OList (map VRef (seq (length h1) (length (data o)))))).
    { replace (length h1 + length (data o))
        with (length h1 + length (data o) + 0) at 1 by lia.
      by apply (table_objs_tail h1 o 0). }
    assert (Ebody : revert_to_original float_repr n v stv
                      (VRef (length h1 + length (data o) + 2)) fd h2
                    = Some (Return (no_update, no_update, no_update,
                              mkDiv "⚠️ No original data to revert to"
                                    "status-warning"), h2)).
    { unfold revert_to_original.
      assert (Enothing : nothing_to_revert (VRef (length h1 + length (data o) + 2)) h2
                         = Some (true, h2)).
      { unfold nothing_to_revert. py_run (truthy_table _ _ _ _ Hodict).
        cbn [negb]. py_run (as_dict_at _ _ _ Hodict).
        change (entries_get "data" (table_dict (length h1) (length (data o))))
          with (Some (VRef (length h1 + length (data o)))).
        cbv iota.
        py_run (truthy_list_at _ _ _ Holist). rewrite length_map, length_seq.
        by rewrite Hdata. }
      py_run Enothing. by rewrite orb_true_r. }
    by py_run Ebody.
Qed.

(** Without a current table the stack is handed back as it came, also
    when it is [None]. *)
Lemma revert_callback_no_table n st orig fd :
  0 < n -> data orig ≠ [] ->
  revert_to_original_callback float_repr n None st (Some orig) fd
  = Some (Return (update orig, update st,
                  update (create_preview_table float_repr
                            (pd_DataFrame (data orig))
                            (file_filename_or_none fd) true),
                  mkDiv "🔄 Reverted to original data successfully"
                        "status-success")).
Proof.
  intros Hn Hdata. unfold revert_to_original_callback, run.
  assert (Hstack : exists stv h0,
            load_stack st [] = Some (stv, h0) /\
            forall ext, dump_stack_or_none stv (h0 ++ ext) = Some (st, h0 ++ ext)).
  { destruct st as [entries |].
    - destruct (load_snapshots_spec entries []) as (refs & E & Hload & _ & Hall).
      exists (VRef (length E)), (E ++ [OList refs]). split.
      + unfold load_stack. py_run Hload. done.
      + intros ext. unfold dump_stack_or_none.
        assert (Hst : dump_stack (VRef (length E)) ((E ++ [OList refs]) ++ ext)
                      = Some (entries, (E ++ [OList refs]) ++ ext)).
        { eapply dump_stack_at.
          - apply lookup_app_l_Some, lookup_alloc_new.
          - eapply Forall2_impl; [exact Hall |]. intros v s0.
            apply snapshot_at_mono.
            eapply heap_le_trans; apply heap_le_app. }
        by py_run Hst.
    - exists (VScalar PNone), []. split; done. }
  destruct Hstack as (stv & h0 & Hload & Hdump). py_run Hload.
  cbn [load_store]. py_run (ret_eq (VScalar PNone) h0).
  py_run (load_snapshot_eq orig h0).
  set (h1 := h0 ++ table_objs (length h0) orig).
  set (origv := VRef (length h0 + length (data orig) + 2)).
  assert (Hodict : h1 !! (length h0 + length (data orig) + 2)
                   = Some (ODict (table_dict (length h0) (length (data orig)))))
    by (by apply (table_objs_tail h0 orig 2)).
  assert (Holist : h1 !! (length h0 + length (data orig))
                   = Some (OList (map VRef (seq (length h0) (length (data orig)))))).
  { replace (length h0 + length (data orig))
      with (length h0 + length (data orig) + 0) at 1 by lia.
    by apply (table_objs_tail h0 orig 0). }
  assert (Horig : snapshot_at h1 origv orig).
  { apply (table_frame h1 h1 (length h0) orig); try done.
    - intros i r. apply table_objs_row.
    - by apply (table_objs_tail h0 orig 1). }
  assert (Ebody : revert_to_original float_repr n (VScalar PNone) stv origv fd h1
                  = Some (Return (update origv, update stv,
                            update (create_preview_table float_repr
                                      (pd_DataFrame (data orig))
                                      (file_filename_or_none fd) true),
                            mkDiv "🔄 Reverted to original data successfully"
                                  "status-success"), h1)).
  { unfold revert_to_original.
    assert (Enothing : nothing_to_revert origv h1 = Some (false, h1)).
    { unfold nothing_to_revert, origv. py_run (truthy_table _ _ _ _ Hodict).
      cbn [negb]. py_run (as_dict_at _ _ _ Hodict).
      change (entries_get "data" (table_dict (length h0) (length (data orig))))
        with (Some (VRef (length h0 + length (data orig)))).
      cbv iota.
      py_run (truthy_list_at _ _ _ Holist). rewrite length_map, length_seq.
      destruct (data orig); [done |]. done. }
    py_run Enothing.
    replace ((n =? 0) || false) with false
      by (symmetry; apply orb_false_intro; [apply Nat.eqb_neq; lia | done]).
    apply try_except_some.
    py_run (eq_refl : truthy (VScalar PNone) h1 = Some (false, h1)).
    py_run (ret_eq stv h1).
    by py_run (preview_of_at _ _ _ (file_filename_or_none fd) Horig). }
  py_run Ebody.
  py_run (dump_output_update _ _ _ _ _ (dump_snapshot_at _ _ _ Horig)).
  by py_run (dump_output_update _ _ _ _ _ (Hdump (table_objs (length h0) orig))).
Qed.

Lemma store_table_spec h l d0 c0 records names :
  h !! l = Some (ODict [("data", d0); ("columns", c0)]) ->
  exists h' d c,
    store_table (VRef l) records names h = Some (tt, h') /\
    h' !! l = Some (ODict [("data", VRef d); ("columns", VRef c)]) /\
    snapshot_at h' (VRef l) (Snapshot records names) /\
    (forall k o, k ≠ l -> h !! k = Some o -> h' !! k = Some o).
Proof.
  intros El. pose proof (lookup_lt_Some _ _ _ El) as Hl.
  set (nr := length records).
  set (h1 := h ++ map row_obj records ++ [OList (map VRef (seq (length h) nr))]).
  set (es1 := [("data", VRef (length h + nr)); ("columns", c0)]).
  set (h2 := <[l := ODict es1]> h1).
  set (h3 := h2 ++ [names_obj names]).
  set (es2 := [("data", VRef (length h + nr)); ("columns", VRef (length h2))]).
  set (h4 := <[l := ODict es2]> h3).
  assert (El1 : h1 !! l = Some (ODict [("data", d0); ("columns", c0)]))
    by (by apply lookup_app_l_Some).
  assert (El3 : h3 !! l = Some (ODict es1)).
  { apply lookup_alloc_old. by eapply lookup_assign_eq. }
  assert (Hlen1 : length h1 = length h + nr + 1).
  { unfold h1. rewrite !length_app, length_map. simpl. lia. }
  assert (Hlen2 : length h2 = length h + nr + 1)
    by (unfold h2; by rewrite length_insert).
  exists h4, (length h + nr), (length h2). repeat split.
  - unfold store_table. py_run (load_records_eq records h). fold nr h1.
    py_run (setitem_at _ _ _ "data" (VRef (length h + nr)) El1).
    change (entries_set "data" (VRef (length h + nr)) [("data", d0); ("columns", c0)])
      with es1. fold h2.
    py_run (load_names_eq names h2). fold h3.
    by rewrite (setitem_at _ _ _ "columns" (VRef (length h2)) El3).
  - by eapply lookup_assign_eq.
  - eapply (snapshot_at_parts h4 l es2 (length h + nr) (length h2) (length h));
      try done.
    + by eapply lookup_assign_eq.
    + eapply lookup_assign_ne; [| lia]. apply lookup_alloc_old.
      eapply lookup_assign_ne; [| lia]. unfold h1.
      rewrite lookup_app_r by lia. rewrite lookup_app_r by (rewrite length_map; lia).
      rewrite length_map. by replace (length h + nr - length h - length records) with 0
        by (unfold nr; lia).
    + intros i r Ei. pose proof (lookup_lt_Some _ _ _ Ei).
      eapply lookup_assign_ne; [| lia]. apply lookup_alloc_old.
      eapply lookup_assign_ne; [| lia]. unfold h1.
      rewrite lookup_app_r by lia. apply lookup_app_l_Some.
      replace (length h + i - length h) with i by lia.
      by rewrite list_lookup_fmap, Ei.
    + eapply lookup_assign_ne; [| lia]. apply lookup_alloc_new.
  - intros k o Hk Ek. eapply lookup_assign_ne; [| done]. apply lookup_alloc_old.
    eapply lookup_assign_ne; [| done]. by apply lookup_app_l_Some.
Qed.

Lemma update_csv_data_with_headers_callback_eq r0 table s st fd has_header :
  update_csv_data_with_headers_callback float_repr (Some (r0 :: table)) (Some s)
    st fd has_header
  = Some (Return (edited_table float_repr (r0 :: table) has_header,
                  push_items (stack_list st) s,
                  edited_preview float_repr (r0 :: table) fd has_header)).
Proof.
  unfold update_csv_data_with_headers_callback, run.
  destruct (load_session st s
              (fun stv cur =>
                 r ← update_csv_data_with_headers float_repr (Some (r0 :: table))
                       cur stv fd has_header;
                 match r with
                 | PreventUpdate => mret PreventUpdate
                 | Return (cur', st', pv) =>
                     cur' ← dump_snapshot cur'; st' ← dump_stack st';
                     mret (Return (cur', st', pv))
                 end))
    as (stv & items & E & h & b & -> & Hloaded).
  destruct (push_copy_spec _ _ _ _ _ _ _ Hloaded)
    as (l' & h1 & Epush & Hl' & Hcopy & Hl'b & Hlen1 & Hup & Hlow).
  destruct Hloaded as (Hsv & Hle & Hall & Hloc & HE & Hrows & Hlist & Hnames & Hdict & Hlen).
  set (nr := length (data s)) in *.
  set (cur := VRef (b + nr + 2)).
  set (df := pd_DataFrame (r0 :: table)).
  assert (Hdict1 := Hup (b + nr + 2) _ ltac:(lia) Hdict).
  destruct (store_table_spec h1 (b + nr + 2) _ _ (to_dict_records df) (df_columns df) Hdict1)
    as (h2 & d2 & c2 & Estore2 & Hdict2 & Hcur2 & Hframe2).
  destruct (store_table_spec h2 (b + nr + 2) _ _
              (to_dict_records (set_columns (new_column_names float_repr df) df))
              (new_column_names float_repr df) Hdict2)
    as (h3 & d3 & c3 & Estore3 & Hdict3 & Hcur3 & Hframe3).
  (* what the rest of the store reads as, in a store that keeps all but the
     table dict *)
  assert (Hrest : forall hf,
            (forall k o, k ≠ b + nr + 2 -> h1 !! k = Some o -> hf !! k = Some o) ->
            dump_stack (VRef l') hf = Some (push_items (stack_list st) s, hf)).
  { intros hf Hf. eapply dump_stack_at; [apply Hf; [lia | exact Hl'] |].
    apply Forall2_push_items.
    - eapply Forall2_impl; [exact Hall |]. intros v s0. apply snapshot_at_mono.
      intros k o Ek. pose proof (lookup_lt_Some _ _ _ Ek).
      apply Hf; [lia |]. apply Hlow; [lia | by apply Hle].
    - destruct s as [rs cs]. cbn [data columns] in *.
      eapply (snapshot_at_parts hf _ (table_dict b nr) (b + nr) (b + nr + 1) b);
        try done.
      + apply Hf; [lia | exact Hcopy].
      + apply Hf; [lia |]. apply Hup; [lia | done].
      + intros i r Ei. pose proof (lookup_lt_Some _ _ _ Ei) as Hi. fold nr in Hi.
        apply Hf; [lia |]. apply Hup; [lia | by apply Hrows].
      + apply Hf; [lia |]. apply Hup; [lia | done]. }
  unfold edited_table, edited_preview. fold df.
  destruct (header_checked has_header && (0 <? df_len df)) eqn:Hhead.
  - assert (Ebody : update_csv_data_with_headers float_repr (Some (r0 :: table))
                      cur stv fd has_header h
                    = Some (Return (cur, VRef l',
                              update (create_preview_table float_repr df
                                        match fd with
                                        | file_dict (Some name) => Some name
                                        | _ => Some "data.csv"
                                        end true)), h3)).
    { unfold update_csv_data_with_headers, cur.
      py_run (truthy_table _ _ _ _ Hdict). cbn [negb].
      py_run Epush. fold df. py_run Estore2. rewrite Hhead. by py_run Estore3. }
    py_run Ebody. py_run (dump_snapshot_at _ _ _ Hcur3).
    rewrite (bind_some _ _ _ _ _ (Hrest h3 ltac:(intros; by apply Hframe3, Hframe2))).
    done.
  - assert (Ebody : update_csv_data_with_headers float_repr (Some (r0 :: table))
                      cur stv fd has_header h
                    = Some (Return (cur, VRef l', no_update), h2)).
    { unfold update_csv_data_with_headers, cur.
      py_run (truthy_table _ _ _ _ Hdict). cbn [negb].
      py_run Epush. fold df. py_run Estore2. by rewrite Hhead. }
    py_run Ebody. py_run (dump_snapshot_at _ _ _ Hcur2).
    by rewrite (bind_some _ _ _ _ _ (Hrest h2 Hframe2)).
Qed.

Lemma add_row_callback_eq n s st fn :
  0 < n ->
  add_row_callback float_repr n (Some s) st (file_dict fn)
  = Some (Return (add_row_result s,
                  push_items (stack_list st) (add_row_result s),
                  create_preview_table float_repr
                    (pd_DataFrame (data (add_row_result s))) fn true)).
Proof.
  intros Hn. unfold add_row_callback, run.
  destruct (load_session st s
              (fun stv cur =>
                 r ← add_row float_repr n cur stv (file_dict fn);
                 match r with
                 | PreventUpdate => mret PreventUpdate
                 | Return (cur', st', pv) =>
                     cur' ← dump_snapshot cur'; st' ← dump_stack st';
                     mret (Return (cur', st', pv))
                 end))
    as (stv & items & E & h & b & -> & Hloaded).
  destruct (push_copy_spec _ _ _ _ _ _ _ Hloaded)
    as (l' & h1 & Epush & Hl' & Hcopy & Hl'b & Hlen1 & Hup & Hlow).
  destruct Hloaded as (Hsv & Hle & Hall & Hloc & HE & Hrows & Hlist & Hnames & Hdict & Hlen).
  set (nr := length (data s)) in *.
  set (new_row := empty_row (columns s)).
  set (h2 := h1 ++ [row_obj new_row]).
  set (refs := map VRef (seq b nr) ++ [VRef (length h1)]).
  set (h3 := <[b + nr := OList refs]> h2).
  assert (Hnames1 := Hup (b + nr + 1) _ ltac:(lia) Hnames).
  assert (Hdict1 := Hup (b + nr + 2) _ ltac:(lia) Hdict).
  assert (Hlist1 := Hup (b + nr) _ ltac:(lia) Hlist).
  assert (Keep : forall k o, k ≠ b + nr -> h1 !! k = Some o -> h3 !! k = Some o).
  { intros k o Hk Ek. eapply lookup_assign_ne; [| done]. by apply lookup_alloc_old. }
  assert (Hread : forall top, h3 !! top = Some (ODict (table_dict b nr)) ->
                              snapshot_at h3 (VRef top) (add_row_result s)).
  { intros top Htop.
    exists top, (table_dict b nr), (b + nr), (b + nr + 1), refs.
    repeat split; try done.
    - eapply lookup_assign_eq. by apply lookup_alloc_old.
    - cbn [add_row_result data]. apply Forall2_app.
      + apply Forall2_fmap_l, Forall2_lookup. intros i.
        destruct (data s !! i) as [r |] eqn:Er.
        * pose proof (lookup_lt_Some _ _ _ Er) as Hi.
          rewrite (lookup_seq_lt _ _ _ Hi).
          constructor. exists (b + i). split; [done |].
          apply Keep; [fold nr in Hi; lia |]. apply Hup; [lia | by apply Hrows].
        * rewrite lookup_seq_ge by (by apply lookup_ge_None). constructor.
      + constructor; [| constructor]. exists (length h1). split; [done |].
        eapply lookup_assign_ne; [apply lookup_alloc_new | lia].
    - apply Keep; [lia | exact Hnames1]. }
  assert (Hcur3 := Hread (b + nr + 2) (Keep (b + nr + 2) _ ltac:(lia) Hdict1)).
  assert (Hsaved3 := Hread (b + nr + 3) (Keep (b + nr + 3) _ ltac:(lia) Hcopy)).
  assert (Ebody : add_row float_repr n (VRef (b + nr + 2)) stv (file_dict fn) h
                  = Some (Return (VRef (b + nr + 2), VRef l',
                            create_preview_table float_repr
                              (pd_DataFrame (data (add_row_result s))) fn true),
                          h3)).
  { unfold add_row.
    py_run (truthy_table _ _ _ _ Hdict).
    replace ((n =? 0) || negb true) with false
      by (symmetry; apply orb_false_intro; [apply Nat.eqb_neq; lia | done]).
    py_run Epush.
    py_run (getitem_at _ _ _ "columns" _ Hdict1 eq_refl).
    py_run (dump_names_at _ _ _ Hnames1).
    py_run (alloc_eq (row_obj (empty_row (columns s))) h1). fold new_row h2.
    py_run (getitem_at _ _ _ "data" _ (lookup_alloc_old h1 (row_obj new_row) _ _ Hdict1)
              eq_refl).
    py_run (list_append_at _ _ _ (VRef (length h1))
              (lookup_alloc_old h1 (row_obj new_row) _ _ Hlist1)).
    fold refs h3.
    py_run (ret_eq fn h3 : file_get_filename (file_dict fn) h3 = Some (fn, h3)).
    by py_run (preview_of_at _ _ _ fn Hcur3). }
  py_run Ebody.
  py_run (dump_snapshot_at _ _ _ Hcur3).
  assert (Hst : dump_stack (VRef l') h3
                = Some (push_items (stack_list st) (add_row_result s), h3)).
  { eapply dump_stack_at; [apply Keep; [lia | exact Hl'] |].
    apply Forall2_push_items; [| exact Hsaved3].
    eapply Forall2_impl; [exact Hall |]. intros v s0. apply snapshot_at_mono.
    intros k o Ek. pose proof (lookup_lt_Some _ _ _ Ek).
    apply Keep; [lia |]. apply Hlow; [lia | by apply Hle]. }
  by py_run Hst.
Qed.

End Proofs.

(** ** Dtype inference *)

Lemma scan_objects_object vals : forall seen,
  object_ seen = true -> object_ (scan_objects vals seen) = true.
Proof.
  induction vals as [| v vals IH]; intros seen Hobj; [done |].
  destruct v as [| b | z | f | t]; cbn [scan_objects].
  - by apply IH.
  - by apply IH.
  - destruct (null_ seen); [by apply IH |].
    match goal with |- context [if ?c then _ else _] => destruct c end;
      [done | by apply IH].
  - destruct f; by apply IH.
  - done.
Qed.












(** ** The frame built from records *)

Lemma add_keys_NoDup r : forall cols, NoDup cols -> NoDup (add_keys cols r).
Proof.
  unfold add_keys. induction r as [| [k c] r IH]; intros cols Hnd; [done |].
  cbn [fold_left]. apply IH. cbn [fst]. case_bool_decide; [done |].
  apply NoDup_app. repeat split; [done | | apply NoDup_singleton].
  intros x Hx Hx'. apply list_elem_of_singleton in Hx'. by subst.
Qed.

Lemma union_keys_NoDup records : NoDup (union_keys records).
Proof.
  unfold union_keys.
  assert (H : forall cols, NoDup cols -> NoDup (fold_left add_keys records cols)).
  { induction records as [| r rs IH]; intros cols Hnd; [done |].
    cbn [fold_left]. by apply IH, add_keys_NoDup. }
  apply H, NoDup_nil_2.
Qed.

Lemma zip_with_map_r {A B C} (h : A -> B -> C) (g : A -> B) (l : list A) :
  zip_with h l (map g l) = map (fun a => h a (g a)) l.
Proof. induction l as [| a l IH]; [done |]. cbn. by rewrite IH. Qed.

Lemma entries_set_fresh {V} k (v : V) es :
  k ∉ es.*1 -> entries_set k v es = es ++ [(k, v)].
Proof.
  induction es as [| [k' v'] es IH]; [done |].
  cbn. intros Hk. apply not_elem_of_cons in Hk as [Hne Hk].
  destruct (String.eqb_spec k' k) as [-> | _]; [done |]. by rewrite IH.
Qed.

Lemma dict_zip_map (f : string -> pyval) labels :
  NoDup labels ->
  dict_zip labels (map f labels) = map (fun col => (col, f col)) labels.
Proof.
  intros Hnd. unfold dict_zip.
  assert (H : forall acc : row,
            (forall k, k ∈ labels -> k ∉ acc.*1) ->
            fold_left (fun acc kc => entries_set kc.1 kc.2 acc)
                      (zip labels (map f labels)) acc
            = acc ++ map (fun col => (col, f col)) labels).
  { induction Hnd as [| k labels Hk Hnd IH]; intros acc Hacc.
    - cbn. by rewrite app_nil_r.
    - cbn [map zip zip_with fold_left fst snd].
      rewrite entries_set_fresh by (apply Hacc; left).
      rewrite IH.
      + by rewrite <- app_assoc.
      + intros k' Hk'. rewrite fmap_app. cbn.
        apply not_elem_of_app. split; [apply Hacc; by right |].
        intros Hin%list_elem_of_singleton. by subst. }
  rewrite H; [done |]. intros k _. cbn. apply not_elem_of_nil.
Qed.

Lemma pd_DataFrame_rows records :
  df_rows (pd_DataFrame records)
  = map (fun r => map (frame_cell records r) (union_keys records)) records.
Proof.
  unfold pd_DataFrame. cbn [df_rows]. apply map_ext. intros r.
  by rewrite zip_with_map_r.
Qed.

Lemma to_dict_records_take n records :
  to_dict_records (df_head n (pd_DataFrame records))
  = map (frame_record records) (take n records).
Proof.
  unfold to_dict_records, df_head. cbn [df_rows df_columns].
  rewrite pd_DataFrame_rows. change (df_columns (pd_DataFrame records))
    with (union_keys records).
  rewrite <- fmap_take, <- list_fmap_compose. apply list_fmap_ext.
  intros _ r _. cbn. apply dict_zip_map, union_keys_NoDup.
Qed.

Lemma to_dict_records_frame records :
  to_dict_records (pd_DataFrame records) = map (frame_record records) records.
Proof.
  unfold to_dict_records. rewrite pd_DataFrame_rows.
  change (df_columns (pd_DataFrame records)) with (union_keys records).
  rewrite map_map. apply map_ext. intros r.
  apply dict_zip_map, union_keys_NoDup.
Qed.

Lemma cell_of_map (f : string -> pyval) labels col :
  col ∈ labels -> cell_of (map (fun c => (c, f c)) labels) col = f col.
Proof.
  unfold cell_of. induction labels as [| c labels IH]; intros Hin.
  - by apply elem_of_nil in Hin.
  - cbn. destruct (String.eqb_spec c col) as [-> | Hne]; [done |].
    apply IH. apply elem_of_cons in Hin as [-> | Hin]; done.
Qed.

Lemma iloc0_cell r0 rest col :
  col ∈ union_keys (r0 :: rest) ->
  cell_of (iloc0 (pd_DataFrame (r0 :: rest))) col
  = first_row_cell (r0 :: rest) r0 col.
Proof.
  intros Hin. unfold iloc0. rewrite pd_DataFrame_rows. cbn [map].
  change (df_columns (pd_DataFrame (r0 :: rest))) with (union_keys (r0 :: rest)).
  change (df_dtypes (pd_DataFrame (r0 :: rest)))
    with (map (column_dtype (r0 :: rest)) (union_keys (r0 :: rest))).
  rewrite map_map.
  set (f := fun col => cast _ (frame_cell (r0 :: rest) r0 col)).
  change (zip (union_keys (r0 :: rest)) (map f (union_keys (r0 :: rest))))
    with (zip_with pair (union_keys (r0 :: rest)) (map f (union_keys (r0 :: rest)))).
  rewrite zip_with_map_r. by rewrite (cell_of_map f).
Qed.

Lemma cast_text dt x : cast dt (PStr x) = PStr x.
Proof. by destruct dt. Qed.

Lemma cast_missing dt v : pd_notna v = false -> pd_notna (cast dt v) = false.
Proof. destruct dt, v as [| | | [] |]; done. Qed.

(** A cast changes integers and [None] only, and [None] into [nan]. *)
Lemma cast_not_integer dt v :
  is_integer v = false ->
  is_integer (cast dt v) = false /\
  pd_notna (cast dt v) = pd_notna v /\
  (pd_notna v = true -> cast dt v = v).
Proof. destruct dt, v as [| | | [] |]; done. Qed.

Lemma cast_integer_float dt z :
  cast dt_float64 (cast dt (PInt z)) = PFloat (float_of_int z).
Proof. by destruct dt. Qed.

Lemma cast_integer_other dt z : dt ≠ dt_float64 -> cast dt (PInt z) = PInt z.
Proof. by destruct dt. Qed.

Lemma cast_float dt f : cast dt (PFloat f) = PFloat f.
Proof. by destruct dt. Qed.

(** [float(z)] is a number. *)
Lemma shr_1_nonneg mrs : (0 <= shr_m mrs)%Z -> (0 <= shr_m (shr_1 mrs))%Z.
Proof. destruct mrs as [[| [p | p |] | p] r s]; cbn; lia. Qed.

Lemma iter_shr_1_nonneg p mrs :
  (0 <= shr_m mrs)%Z -> (0 <= shr_m (SpecFloat.iter_pos shr_1 p mrs))%Z.
Proof.
  revert mrs. induction p as [p IH | p IH |]; intros mrs H; cbn [SpecFloat.iter_pos].
  - apply IH, IH, shr_1_nonneg, H.
  - apply IH, IH, H.
  - apply shr_1_nonneg, H.
Qed.

Lemma shr_fexp_nonneg prec emax m e l :
  (0 <= m)%Z -> (0 <= shr_m (shr_fexp prec emax m e l).1)%Z.
Proof.
  intros H. unfold shr_fexp, shr.
  assert (H0 : (0 <= shr_m (shr_record_of_loc m l))%Z)
    by (destruct l as [| []]; exact H).
  destruct (fexp prec emax (Zdigits2 m + e) - e)%Z; cbn [fst]; try exact H0.
  apply iter_shr_1_nonneg, H0.
Qed.

Lemma round_nearest_even_nonneg m l :
  (0 <= m)%Z -> (0 <= round_nearest_even m l)%Z.
Proof.
  intros H. unfold round_nearest_even.
  destruct l as [| []]; try lia. destruct (IntDef.Z.even m); lia.
Qed.

Lemma binary_round_aux_not_nan prec emax sx m e l :
  (0 <= m)%Z -> binary_round_aux prec emax sx m e l <> S754_nan.
Proof.
  intros H. unfold binary_round_aux.
  pose proof (shr_fexp_nonneg prec emax m e l H) as H1.
  destruct (shr_fexp prec emax m e l) as [mrs' e']. cbn [fst] in H1.
  pose proof (shr_fexp_nonneg prec emax
                (round_nearest_even (shr_m mrs') (loc_of_shr_record mrs'))
                e' loc_Exact (round_nearest_even_nonneg _ _ H1)) as H2.
  destruct (shr_fexp prec emax _ e' loc_Exact) as [mrs'' e'']. cbn [fst] in H2.
  destruct (shr_m mrs''); [discriminate | | lia].
  destruct (e'' <=? emax - prec)%Z; discriminate.
Qed.

Lemma float_of_int_notna z : pd_notna (PFloat (float_of_int z)) = true.
Proof.
  assert (H : float_of_int z <> S754_nan).
  { unfold float_of_int, binary_normalize, binary_round.
    destruct z as [| p | p]; [discriminate | |];
      destruct (shl_align p 0 _) as [mz ez];
      apply binary_round_aux_not_nan; lia. }
  cbn. by destruct (float_of_int z).
Qed.

Lemma substring_length n s :
  String.length (substring 0 n s) = Nat.min n (String.length s).
Proof.
  revert s. induction n as [| n IH]; intros [| c s]; cbn; try done.
  by rewrite IH.
Qed.

Lemma string_app_length (s t : string) :
  String.length (s +:+ t) = String.length s + String.length t.
Proof.
  induction s as [| c s IH]; [done |].
  change (S (String.length (s +:+ t)) = S (String.length s + String.length t)).
  by rewrite IH.
Qed.

Lemma py_len_take n s : py_len (py_take n s) = Nat.min n (py_len s).
Proof.
  revert n. induction s as [| b s IH]; intros n; [by destruct n |].
  cbn [py_take py_len]. destruct (is_continuation b) eqn:E.
  - cbn [py_len]. by rewrite E, IH.
  - destruct n as [| n]; [done |]. cbn [py_len]. by rewrite E, IH.
Qed.

Lemma py_len_app (s t : string) : py_len (s +:+ t) = py_len s + py_len t.
Proof.
  induction s as [| b s IH]; [done |].
  change (String b s +:+ t) with (String b (s +:+ t)).
  cbn [py_len]. rewrite IH. by destruct (is_continuation b).
Qed.

(** On ASCII text characters are bytes. *)
Lemma py_len_ascii s :
  string_forall is_ascii s = true -> py_len s = String.length s.
Proof.
  induction s as [| b s IH]; [done |]. cbn [string_forall py_len String.length].
  intros [Hb Hs]%andb_true_iff. rewrite (IH Hs).
  replace (is_continuation b) with false; [done |].
  unfold is_ascii in Hb. apply Nat.ltb_lt in Hb. unfold is_continuation.
  symmetry. apply andb_false_intro1. apply Nat.leb_gt. lia.
Qed.

Lemma truncate_header_long h :
  50 < py_len h ->
  truncate_header h = py_take 47 h +:+ "..." /\
  py_len (truncate_header h) = 50.
Proof.
  intros Hlen. unfold truncate_header.
  replace (50 <? py_len h) with true by (symmetry; by apply Nat.ltb_lt).
  split; [done |].
  rewrite py_len_app, py_len_take.
  change (py_len "...") with 3. lia.
Qed.

Lemma truncate_header_short h :
  py_len h <= 50 -> truncate_header h = h.
Proof.
  intros Hlen. unfold truncate_header.
  by replace (50 <? py_len h) with false by (symmetry; by apply Nat.ltb_ge).
Qed.


Lemma entries_get_del {V} k (es : list (string * V)) :
  NoDup es.*1 -> entries_get k (entries_del k es) = None.
Proof.
  induction es as [| [k' v'] es IH]; [done |].
  cbn. intros [Hk Hnd]%NoDup_cons.
  destruct (String.eqb_spec k' k) as [-> | Hne].
  - clear IH. induction es as [| [k'' v''] es IH']; [done |].
    cbn in *. apply not_elem_of_cons in Hk as [Hne Hk].
    destruct (String.eqb_spec k'' k) as [-> | _]; [done |].
    apply IH'; [done | by apply NoDup_cons in Hnd as [_ Hnd]].
  - cbn. destruct (String.eqb_spec k' k) as [-> | _]; [done | by apply IH].
Qed.

Lemma push_items_snoc {A} (items : list A) x :
  exists init, push_items items x = init ++ [x] /\ length init < UNDO_LIMIT.
Proof.
  unfold push_items, last_n. rewrite length_app. cbn [length].
  destruct (Nat.ltb_spec UNDO_LIMIT (length items + 1)) as [Hlt | Hge].
  - exists (drop (length items + 1 - UNDO_LIMIT) items). split.
    + unfold UNDO_LIMIT in *. by rewrite drop_app_le by lia.
    + rewrite length_drop. unfold UNDO_LIMIT in *. lia.
  - exists items. split; [done | lia].
Qed.

Lemma edited_table_length float_repr table has_header :
  length (data (edited_table float_repr table has_header)) = length table.
Proof.
  unfold edited_table.
  destruct (header_checked has_header && _); cbn [data]; unfold to_dict_records;
    cbn [set_columns df_rows]; rewrite length_map, pd_DataFrame_rows;
    by rewrite length_map.
Qed.

Lemma preview_rows float_repr records filename flag :
  table_data (create_preview_table float_repr (pd_DataFrame records) filename flag)
  = map (frame_record records) (take 20 records).
Proof. unfold create_preview_table. cbn [table_data]. apply to_dict_records_take. Qed.

Lemma preview_columns float_repr df filename i col :
  0 < df_len df -> df_columns df !! i = Some col ->
  table_columns (create_preview_table float_repr df filename true) !! i
  = Some (truncate_header (header_value float_repr (iloc0 df) i col), col).
Proof.
  intros Hlen Hcol. unfold create_preview_table. cbn [table_columns andb].
  replace (0 <? df_len df) with true by (symmetry; by apply Nat.ltb_lt).
  rewrite lookup_zip_with, list_lookup_imap, Hcol. done.
Qed.

(** * The claims *)

(** C1 (code bug).  The scenario of the specification: on the table of
    [people.csv], one [addColumn] followed by one [undo] should bring the
    columns back to [name, age].  The undo stack holds a shallow copy of the
    table, [add_column] edits the lists that copy shares, and the undo
    restores a table that still has the new column. *)
Theorem undo_after_add_column_keeps_column :
  let σ := apply_edits float_text [addColumn] people_session in
  csv_data_store σ = Some (add_column_result people) /\
  csv_data_store (undo float_text σ) = Some (add_column_result people) /\
  csv_data_store (undo float_text σ) <> csv_data_store people_session.
Proof. vm_compute. repeat split; discriminate. Qed.

(** C2 (code bug).  Right after the push the undo stack reads as the table
    before the edit; once [add_row] has appended its row to the shared list
    of rows, the entry it pushed reads as the table after the edit. *)
Theorem add_row_edits_pushed_copy :
  undo_stack_after_push people (Some []) = Some [people] /\
  add_row_callback float_text 1 (Some people) (Some [])
    (file_dict (Some "people.csv"))
  = Some (Return (add_row_result people, [add_row_result people],
                  create_preview_table float_text
                    (pd_DataFrame (data (add_row_result people)))
                    (Some "people.csv") true)) /\
  add_row_result people <> people.
Proof. vm_compute. repeat split; discriminate. Qed.

(** C3.  The undo stack never holds more than ten entries: pushing the
    table on a stack of ten gives a stack of ten, without the oldest entry
    and with the pushed table last; and whatever the stack was, the result
    has at most ten entries.  The same holds of [push_to_undo_stack] on any
    list of ten objects in the store. *)
Theorem undo_stack_holds_ten (s : snapshot) (st : list snapshot)
    (Hfull : length st = UNDO_LIMIT) :
  undo_stack_after_push s (Some st) = Some (drop 1 st ++ [s]) /\
  length (drop 1 st ++ [s]) = UNDO_LIMIT /\
  last (drop 1 st ++ [s]) = Some s /\
  (forall st0, exists st',
     undo_stack_after_push s st0 = Some st' /\ length st' <= UNDO_LIMIT) /\
  (forall (h : heap) l items x,
     h !! l = Some (OList items) -> length items = UNDO_LIMIT ->
     exists l' h',
       push_to_undo_stack (VRef l) x h = Some (VRef l', h') /\
       h' !! l' = Some (OList (drop 1 items ++ [x]))).
Proof.
  repeat split.
  - rewrite undo_stack_after_push_eq. cbn [stack_list].
    by rewrite push_items_full.
  - rewrite <- (push_items_full st s Hfull), push_items_length, Hfull.
    unfold UNDO_LIMIT. lia.
  - by rewrite last_snoc.
  - intros st0. exists (push_items (stack_list st0) s). split.
    + apply undo_stack_after_push_eq.
    + rewrite push_items_length. lia.
  - intros h l items x Hl Hlen.
    destruct (push_to_undo_stack_spec h (VRef l) items x) as (l' & h' & E & Hl' & _).
    { right. by exists l. }
    exists l', h'. split; [exact E |]. by rewrite <- push_items_full.
Qed.

Lemma undo_stack_holds_ten_witness :
  length (replicate 10 people) = UNDO_LIMIT /\
  undo_stack_after_push (add_row_result people) (Some (replicate 10 people))
  = Some (drop 1 (replicate 10 people) ++ [add_row_result people]).
Proof.
  split; [reflexivity |].
  apply (undo_stack_holds_ten (add_row_result people) (replicate 10 people)).
  reflexivity.
Defined.

Section Claims.

Variable float_repr : spec_float -> string.

(** C4 (as amended).  With the first row as header and at least one row,
    the name of column [i] is [str] of the cell of the first row as pandas
    holds it in [df.iloc[0]], or [Column_{i+1}] when that cell is missing or
    null.  A cell that is no integer is held as it is: text gives itself,
    the empty string an empty name, a float or a boolean its Python text.
    An integer [z] is named by its digits unless its column or the first
    row as a whole is held as [float64]; then it is named as the float
    [float(z)], so [1] reads [1.0].  A name of more than 50 characters is
    cut to its first 47 and three dots.  The first row stays in the
    displayed rows. *)
Theorem header_names_from_first_row (r0 : row) (rest : list row)
    (filename : option string) (i : nat) (col : string)
    (Hcol : union_keys (r0 :: rest) !! i = Some col) :
  let records := r0 :: rest in
  let pv := create_preview_table float_repr (pd_DataFrame records) filename true in
  let cell := cell_of r0 col in
  let row_dtype := common_dtype (map (column_dtype records) (union_keys records)) in
  let held := first_row_cell records r0 col in
  let name := if pd_notna held then py_str float_repr held
              else "Column_" +:+ pretty (i + 1) in
  table_columns pv !! i = Some (truncate_header name, col) /\
  (is_integer cell = false ->
   name = if pd_notna cell then py_str float_repr cell
          else "Column_" +:+ pretty (i + 1)) /\
  (forall x, cell = PStr x -> name = x) /\
  (pd_notna cell = false -> name = "Column_" +:+ pretty (i + 1)) /\
  (forall z, cell = PInt z ->
     (column_dtype records col = dt_float64 \/ row_dtype = dt_float64 ->
      name = float_repr (float_of_int z)) /\
     (column_dtype records col ≠ dt_float64 -> row_dtype ≠ dt_float64 ->
      name = pretty z)) /\
  (50 < py_len name ->
   truncate_header name = py_take 47 name +:+ "..." /\
   py_len (truncate_header name) = 50) /\
  (py_len name <= 50 -> truncate_header name = name) /\
  table_data pv !! 0 = Some (frame_record records r0) /\
  (forall c x, c ∈ union_keys records -> cell_of r0 c = PStr x ->
               cell_of (frame_record records r0) c = PStr x).
Proof.
  intros records pv cell row_dtype held name.
  assert (Hin : col ∈ union_keys records) by (by eapply list_elem_of_lookup_2).
  split; [| split; [| split; [| split; [| split; [| split; [| split; [| split]]]]]]].
  - unfold pv. rewrite (preview_columns float_repr _ filename i col);
      [| cbn; lia | exact Hcol].
    unfold header_value, records. by rewrite iloc0_cell.
  - intros Hcell. unfold name, held, first_row_cell, frame_cell. fold cell.
    destruct (cast_not_integer (column_dtype records col) cell Hcell)
      as (Hint1 & Hna1 & Hid1).
    destruct (cast_not_integer row_dtype _ Hint1) as (_ & Hna2 & Hid2).
    fold row_dtype. rewrite Hna2, Hna1.
    destruct (pd_notna cell) eqn:Hna; [| done].
    by rewrite Hid2, Hid1 by (by rewrite ?Hid1, ?Hna1).
  - intros x Hx. unfold name, held, first_row_cell, frame_cell. fold cell.
    by rewrite Hx, !cast_text.
  - intros Hna. unfold name, held, first_row_cell, frame_cell. fold cell.
    by rewrite (cast_missing _ _ (cast_missing _ _ Hna)).
  - intros z Hz. unfold name, held, first_row_cell, frame_cell.
    fold cell row_dtype. rewrite Hz. split.
    + intros [Hc | Hr].
      * rewrite Hc. cbn [cast]. rewrite cast_float, float_of_int_notna. done.
      * rewrite Hr, cast_integer_float, float_of_int_notna. done.
    + intros Hc Hr. by rewrite !cast_integer_other.
  - by apply truncate_header_long.
  - apply truncate_header_short.
  - unfold pv. by rewrite preview_rows.
  - intros c x Hc Hx. unfold frame_record.
    rewrite (cell_of_map (frame_cell records r0)) by done.
    unfold frame_cell. by rewrite Hx, cast_text.
Qed.




(** C8 (as amended).  When the original snapshot has at least one row,
    [revert] sets the current snapshot to the original, field for field,
    and pushes the snapshot that was current on the undo stack first, so
    that one [undo] brings it back.  When there is no original snapshot, or
    it has no rows, [revert] only returns a warning. *)
Theorem revert_restores_original (n_clicks : nat) (cur orig : snapshot)
    (st : option (list snapshot)) (file_data : file_store)
    (Hclick : 0 < n_clicks) (Hrows : data orig ≠ []) :
  (exists pv,
     revert_to_original_callback float_repr n_clicks (Some cur) st (Some orig)
       file_data
     = Some (Return (update orig,
                     update (Some (push_items (stack_list st) cur)),
                     update pv,
                     mkDiv "🔄 Reverted to original data successfully"
                           "status-success"))) /\
  (exists rest pv msg,
     undo_changes_callback float_repr n_clicks (Some orig)
       (Some (push_items (stack_list st) cur)) file_data
     = Some (Return (update cur, update rest, update pv, msg))) /\
  (forall cur' st' orig',
     orig' = None \/ (exists o, orig' = Some o /\ data o = []) ->
     revert_to_original_callback float_repr n_clicks cur' st' orig' file_data
     = Some (Return (no_update, no_update, no_update,
                     mkDiv "⚠️ No original data to revert to" "status-warning"))).
Proof.
  repeat split.
  - eexists. by apply revert_callback_ok.
  - destruct (push_items_snoc (stack_list st) cur) as (init & -> & _).
    eexists _, _, _. by apply undo_changes_callback_pop.
  - intros cur' st' orig' Horig. by apply revert_callback_nothing.
Qed.

(** C9.  [undo] on an empty undo stack returns a warning, not an error and
    not an exception, and updates neither the table nor the stack.  On a
    stack that is not empty it takes the most recent snapshot off the stack,
    makes it the current snapshot and reports how many steps remain. *)
Theorem undo_pops_or_warns (n_clicks : nat) (cur : option snapshot)
    (file_data : file_store) (Hclick : 0 < n_clicks) :
  (forall st, stack_list st = [] ->
     undo_changes_callback float_repr n_clicks cur st file_data
     = Some (Return (no_update, no_update, no_update,
                     mkDiv "⚠️ No previous state to undo" "status-warning"))) /\
  (forall older top,
     exists pv,
       undo_changes_callback float_repr n_clicks cur (Some (older ++ [top]))
         file_data
       = Some (Return (update top, update older, update pv,
                       undo_status_msg (length older)))) /\
  (forall k, className (undo_status_msg k) = "status-success") /\
  (forall k, 0 < k ->
     children (undo_status_msg k)
     = "↶ Changes undone successfully (" +:+ pretty k
       +:+ " more undo steps available)") /\
  children (undo_status_msg 0)
  = "↶ Changes undone successfully (no more undo steps)".
Proof.
  repeat split.
  - intros st Hst. by apply undo_changes_callback_empty.
  - intros older top. eexists. by apply undo_changes_callback_pop.
  - intros k. unfold undo_status_msg. by destruct (0 <? k).
  - intros k Hk. unfold undo_status_msg.
    by replace (0 <? k) with true by (symmetry; by apply Nat.ltb_lt).
Qed.

(** C10.  The preview table holds at most the first twenty rows of the
    table.  For a table of more than twenty rows it holds exactly twenty,
    and submitting a table of that many rows stores those rows only: the
    stored table has twenty rows, whatever came after them is gone, and the
    only trace is the snapshot pushed on the undo stack. *)
Theorem table_edit_keeps_displayed_rows (s : snapshot)
    (st : option (list snapshot)) (file_data : file_store)
    (has_header : option (list string)) (filename : option string)
    (flag : bool) (Hlong : 20 < length (data s)) :
  let shown := table_data (create_preview_table float_repr
                             (pd_DataFrame (data s)) filename flag) in
  (forall df fn fl,
     table_data (create_preview_table float_repr df fn fl)
     = to_dict_records (df_head 20 df) /\
     length (table_data (create_preview_table float_repr df fn fl)) <= 20) /\
  shown = map (frame_record (data s)) (take 20 (data s)) /\
  length shown = 20 /\
  (forall edited, length edited = length shown ->
     exists s' pv,
       update_csv_data_with_headers_callback float_repr (Some edited) (Some s)
         st file_data has_header
       = Some (Return (s', push_items (stack_list st) s, pv)) /\
       s' = edited_table float_repr edited has_header /\
       length (data s') = 20 /\
       length (data s') < length (data s)).
Proof.
  intros shown.
  assert (Hshown : shown = map (frame_record (data s)) (take 20 (data s)))
    by apply preview_rows.
  assert (Hlen : length shown = 20).
  { rewrite Hshown, length_map, length_take. lia. }
  repeat split; try done.
  - unfold create_preview_table, to_dict_records, df_head.
    cbn [table_data df_rows]. rewrite length_map, length_take. lia.
  - intros edited Hedited. rewrite Hlen in Hedited.
    destruct edited as [| r0 edited']; [cbn in Hedited; lia |].
    eexists _, _.
    split; [apply update_csv_data_with_headers_callback_eq |].
    rewrite edited_table_length, Hedited. repeat split; lia.
Qed.

End Claims.

(** * Instances and counterexamples *)

(** C4, at the column [age] of a one-row table whose cell is empty. *)
Lemma header_names_from_first_row_witness :
  union_keys [[("name", PStr "Ann"); ("age", PStr "")]] !! 1 = Some "age" /\
  table_columns
    (create_preview_table float_text
       (pd_DataFrame [[("name", PStr "Ann"); ("age", PStr "")]]) None true) !! 1
  = Some ("", "age").
Proof.
  split; [reflexivity |].
  exact (proj1 (header_names_from_first_row float_text
                  [("name", PStr "Ann"); ("age", PStr "")] [] None 1 "age"
                  eq_refl)).
Defined.

(** C4 as stated fails: the first cell of the first row is the empty
    string, and the name of the first column is the empty string, not
    [Column_1]. *)
Lemma empty_cell_gives_empty_header :
  cell_of [("name", PStr ""); ("age", PStr "31")] "name" = PStr "" /\
  table_columns
    (create_preview_table float_text
       (pd_DataFrame [[("name", PStr ""); ("age", PStr "31")]]) None true)
  = [("", "name"); ("31", "age")] /\
  "" <> "Column_1".
Proof. split; [reflexivity | split; [reflexivity | discriminate]]. Qed.

(** An integer beside a float: the first row is held as [float64], and
    the column [n] is named by the text of the float [1.0], not by [1]. *)
Lemma integer_beside_float_is_named_as_float :
  table_columns
    (create_preview_table float_text
       (pd_DataFrame [[("n", PInt 1); ("x", PFloat (float_of_int 2))]])
       None true)
  = [(float_text (float_of_int 1), "n"); (float_text (float_of_int 2), "x")] /\
  float_text (float_of_int 1) <> "1".
Proof. split; [vm_compute; reflexivity | vm_compute; discriminate]. Qed.

(** Lengths count characters: a name of thirty two-byte characters is
    kept, one of sixty is cut to forty-seven and three dots. *)
Lemma truncate_header_counts_characters :
  truncate_header "éééééééééééééééééééééééééééééé"
  = "éééééééééééééééééééééééééééééé" /\
  truncate_header
    "éééééééééééééééééééééééééééééééééééééééééééééééééééééééééééé"
  = "ééééééééééééééééééééééééééééééééééééééééééééééé...".
Proof. split; vm_compute; reflexivity. Qed.







(** C8, reverting the table of [people.csv] after a row was added. *)
Lemma revert_restores_original_witness :
  0 < 1 /\ data people <> [] /\
  exists pv,
    revert_to_original_callback float_text 1 (Some (add_row_result people))
      (Some [people]) (Some people) (file_dict None)
    = Some (Return (update people,
                    update (Some (push_items [people] (add_row_result people))),
                    update pv,
                    mkDiv "🔄 Reverted to original data successfully"
                          "status-success")).
Proof.
  split; [lia |]. split; [discriminate |].
  refine (proj1 (revert_restores_original float_text 1 (add_row_result people)
                   people (Some [people]) (file_dict None) _ _)).
  - lia.
  - discriminate.
Defined.

(** C8 as stated fails: the upload had a header line and no rows, a row
    was added since; [revert] returns the warning and restores nothing. *)
Lemma revert_to_header_only_upload_is_a_no_op :
  revert_to_original_callback float_text 1
    (Some (Snapshot [[("a", PStr "")]] ["a"]))
    (Some [Snapshot [[("a", PStr "")]] ["a"]])
    (Some (Snapshot [] ["a"])) (file_dict (Some "empty.csv"))
  = Some (Return (no_update, no_update, no_update,
                  mkDiv "⚠️ No original data to revert to" "status-warning")).
Proof. vm_compute. reflexivity. Qed.

(** Without a current table and without a stack, [revert] restores the
    original and hands back [None] for the stack. *)
Lemma revert_without_table_or_stack :
  revert_to_original_callback float_text 1 None None (Some people)
    (file_dict None)
  = Some (Return (update people, update None,
                  update (create_preview_table float_text
                            (pd_DataFrame (data people)) None true),
                  mkDiv "🔄 Reverted to original data successfully"
                        "status-success")).
Proof. vm_compute. reflexivity. Qed.

(** C9, on the empty stack and on a stack of two. *)
Lemma undo_pops_or_warns_witness :
  0 < 1 /\
  undo_changes_callback float_text 1 (Some people) (Some []) (file_dict None)
  = Some (Return (no_update, no_update, no_update,
                  mkDiv "⚠️ No previous state to undo" "status-warning")) /\
  exists pv,
    undo_changes_callback float_text 1 (Some people)
      (Some ([add_row_result people] ++ [people])) (file_dict None)
    = Some (Return (update people, update [add_row_result people], update pv,
                    undo_status_msg 1)).
Proof.
  split; [lia |].
  pose proof (undo_pops_or_warns float_text 1 (Some people) (file_dict None)
                ltac:(lia)) as (Hempty & Hpop & _).
  split; [exact (Hempty (Some []) eq_refl) |].
  exact (Hpop [add_row_result people] people).
Defined.

(** C10, at a table of twenty-one rows. *)
Lemma table_edit_keeps_displayed_rows_witness :
  20 < length (data long_table) /\
  length (table_data (create_preview_table float_text
                        (pd_DataFrame (data long_table)) None true)) = 20.
Proof.
  assert (Hlong : 20 < length (data long_table)) by (vm_compute; lia).
  split; [exact Hlong |].
  exact (proj1 (proj2 (proj2 (table_edit_keeps_displayed_rows float_text
                                long_table None file_none None None true Hlong)))).
Defined.

(** * Further properties of the code *)

(** ** The undo stack *)

Lemma pop_from_undo_stack_at h l init x :
  h !! l = Some (OList (init ++ [x])) ->
  pop_from_undo_stack (VRef l) h = Some ((Some x, VRef l), <[l := OList init]> h).
Proof.
  intros El. unfold pop_from_undo_stack. py_run (truthy_list_at _ _ _ El).
  rewrite length_app. cbn [length].
  replace (negb (negb (length init + 1 =? 0))) with false
    by (symmetry; apply negb_false_iff, negb_true_iff, Nat.eqb_neq; lia).
  assert (Elp : list_pop (VRef l) h = Some (x, <[l := OList init]> h)).
  { unfold list_pop. py_run (as_list_at _ _ _ El).
    rewrite last_snoc, removelast_last.
    by py_run (assign_at _ _ _ (OList init) El). }
  by py_run Elp.
Qed.

(** X1.  Pushing on an absent or empty stack allocates a new list that
    holds the pushed state alone; nothing else in the store changes, so an
    empty list passed as the stack stays empty. *)
Theorem push_on_empty_stack (h : heap) (undo_stack x : value)
    (Hempty : stack_val h undo_stack []) :
  push_to_undo_stack undo_stack x h = Some (VRef (length h), h ++ [OList [x]]).
Proof.
  unfold push_to_undo_stack. destruct Hempty as [[-> _] | (l & -> & El)].
  - py_run (eq_refl : truthy (VScalar PNone) h = Some (false, h)).
    apply push_fresh.
  - py_run (truthy_list_at _ _ _ El). apply push_fresh.
Qed.

Lemma push_on_empty_stack_witness :
  stack_val [OList []] (VRef 0) [] /\
  push_to_undo_stack (VRef 0) (VScalar (PInt 7)) [OList []]
  = Some (VRef 1, [OList []; OList [VScalar (PInt 7)]]).
Proof.
  assert (H : stack_val [OList []] (VRef 0) []) by (right; by exists 0).
  split; [exact H |].
  exact (push_on_empty_stack [OList []] (VRef 0) (VScalar (PInt 7)) H).
Defined.

(** X2.  A pop right after a push gives back the pushed state, and the list
    it leaves is the stack before the push when that had fewer than ten
    entries, and that stack without its oldest entries otherwise. *)
Theorem push_then_pop (h : heap) (undo_stack x : value) (items : list value)
    (Hstack : stack_val h undo_stack items) :
  exists l h1 h2 rest,
    push_to_undo_stack undo_stack x h = Some (VRef l, h1) /\
    pop_from_undo_stack (VRef l) h1 = Some ((Some x, VRef l), h2) /\
    h2 !! l = Some (OList rest) /\
    (length items < UNDO_LIMIT -> rest = items) /\
    (UNDO_LIMIT <= length items ->
     rest = drop (length items + 1 - UNDO_LIMIT) items).
Proof.
  destruct (push_to_undo_stack_spec h undo_stack items x Hstack)
    as (l & h1 & Epush & Hl & _).
  assert (Hrest : exists rest,
            push_items items x = rest ++ [x] /\
            (length items < UNDO_LIMIT -> rest = items) /\
            (UNDO_LIMIT <= length items ->
             rest = drop (length items + 1 - UNDO_LIMIT) items)).
  { unfold push_items, last_n. rewrite length_app. cbn [length].
    destruct (Nat.ltb_spec UNDO_LIMIT (length items + 1)) as [Hlt | Hge].
    - exists (drop (length items + 1 - UNDO_LIMIT) items). repeat split.
      + unfold UNDO_LIMIT in *. by rewrite drop_app_le by lia.
      + intros Hs. lia.
    - exists items. repeat split. intros Hs. lia. }
  destruct Hrest as (rest & Hpush & Hsmall & Hfull).
  rewrite Hpush in Hl.
  exists l, h1, (<[l := OList rest]> h1), rest. repeat split; try done.
  - by apply pop_from_undo_stack_at.
  - by eapply lookup_assign_eq.
Qed.

Lemma push_then_pop_witness :
  stack_val [OList [VScalar (PInt 1)]] (VRef 0) [VScalar (PInt 1)] /\
  exists l h1 h2 rest,
    push_to_undo_stack (VRef 0) (VScalar (PInt 2)) [OList [VScalar (PInt 1)]]
    = Some (VRef l, h1) /\
    pop_from_undo_stack (VRef l) h1 = Some ((Some (VScalar (PInt 2)), VRef l), h2) /\
    h2 !! l = Some (OList rest) /\
    (length [VScalar (PInt 1)] < UNDO_LIMIT -> rest = [VScalar (PInt 1)]) /\
    (UNDO_LIMIT <= length [VScalar (PInt 1)] ->
     rest = drop (length [VScalar (PInt 1)] + 1 - UNDO_LIMIT) [VScalar (PInt 1)]).
Proof.
  assert (H : stack_val [OList [VScalar (PInt 1)]] (VRef 0) [VScalar (PInt 1)])
    by (right; by exists 0).
  split; [exact H |].
  exact (push_then_pop [OList [VScalar (PInt 1)]] (VRef 0) (VScalar (PInt 2))
           [VScalar (PInt 1)] H).
Defined.

(** X3.  After a push the number of undo steps is the number before plus
    one, capped at ten, whatever the stack was: absent, empty, or longer
    than ten. *)
Theorem undo_count_after_push (h : heap) (undo_stack x : value)
    (items : list value) (Hstack : stack_val h undo_stack items) :
  exists l h1,
    push_to_undo_stack undo_stack x h = Some (VRef l, h1) /\
    get_undo_count (VRef l) h1
    = Some (Nat.min (length items + 1) UNDO_LIMIT, h1).
Proof.
  destruct (push_to_undo_stack_spec h undo_stack items x Hstack)
    as (l & h1 & Epush & Hl & _).
  exists l, h1. split; [exact Epush |].
  unfold get_undo_count. py_run (truthy_list_at _ _ _ Hl).
  rewrite push_items_length.
  replace (negb (negb (Nat.min (length items + 1) UNDO_LIMIT =? 0))) with false
    by (symmetry; apply negb_false_iff, negb_true_iff, Nat.eqb_neq;
        unfold UNDO_LIMIT; lia).
  rewrite (len_at _ _ _ Hl). by rewrite push_items_length.
Qed.

Lemma undo_count_after_push_witness :
  stack_val [] (VScalar PNone) [] /\
  exists l h1,
    push_to_undo_stack (VScalar PNone) (VScalar (PInt 2)) [] = Some (VRef l, h1) /\
    get_undo_count (VRef l) h1 = Some (Nat.min (length (@nil value) + 1) UNDO_LIMIT, h1).
Proof.
  assert (H : stack_val [] (VScalar PNone) []) by (by left).
  split; [exact H |].
  exact (undo_count_after_push [] (VScalar PNone) (VScalar (PInt 2)) [] H).
Defined.

(** ** Keys of the records *)

Lemma filter_ne_absent (k : string) (l : list string) :
  k ∉ l -> filter (fun c => c ≠ k) l = l.
Proof.
  induction l as [| c l IH]; [done |].
  intros [Hne Hk]%not_elem_of_cons.
  rewrite filter_cons_True by congruence. by rewrite IH.
Qed.

Lemma filter_ne_length (k : string) (l : list string) :
  NoDup l -> k ∈ l -> S (length (filter (fun c => c ≠ k) l)) = length l.
Proof.
  induction l as [| c l IH]; intros Hnd Hk.
  - by apply elem_of_nil in Hk.
  - apply NoDup_cons in Hnd as [Hc Hnd].
    destruct (decide (c = k)) as [-> | Hne].
    + rewrite filter_cons_False by (intros H; by apply H).
      by rewrite filter_ne_absent.
    + rewrite filter_cons_True by done. cbn [length]. f_equal.
      apply IH; [done |]. apply elem_of_cons in Hk as [-> | Hk]; done.
Qed.

Lemma entries_set_keys_fresh {V} k (v : V) es :
  k ∉ es.*1 -> (entries_set k v es).*1 = es.*1 ++ [k].
Proof. intros Hk. rewrite entries_set_fresh by done. by rewrite fmap_app. Qed.

Lemma entries_del_keys {V} k (es : list (string * V)) :
  NoDup es.*1 -> (entries_del k es).*1 = filter (fun c => c ≠ k) es.*1.
Proof.
  induction es as [| [k' v'] es IH]; [done |].
  cbn [fmap list_fmap fst entries_del]. intros [Hk Hnd]%NoDup_cons.
  destruct (String.eqb_spec k' k) as [-> | Hne].
  - rewrite filter_cons_False by (intros H; by apply H).
    by rewrite filter_ne_absent.
  - rewrite filter_cons_True by done. cbn [fmap list_fmap fst]. f_equal.
    by apply IH.
Qed.

Lemma empty_row_eq names :
  NoDup names -> empty_row names = map (fun c => (c, PStr "")) names.
Proof.
  intros Hnd. unfold empty_row.
  assert (H : forall acc : row,
            (forall k, k ∈ names -> k ∉ acc.*1) ->
            fold_left (fun acc col => entries_set col (PStr "") acc) names acc
            = acc ++ map (fun c => (c, PStr "")) names).
  { induction Hnd as [| k names Hk Hnd IH]; intros acc Hacc.
    - cbn. by rewrite app_nil_r.
    - cbn [map fold_left].
      rewrite entries_set_fresh by (apply Hacc; left).
      rewrite IH.
      + by rewrite <- app_assoc.
      + intros k' Hk'. rewrite fmap_app. cbn.
        apply not_elem_of_app. split; [apply Hacc; by right |].
        intros Hin%list_elem_of_singleton. by subst. }
  rewrite H; [done |]. intros k _. cbn. apply not_elem_of_nil.
Qed.

Lemma add_row_result_well_formed s :
  well_formed s -> well_formed (add_row_result s).
Proof.
  intros [Hnd Hrows]. split; [done |]. cbn [add_row_result data columns].
  apply Forall_app. split; [done |]. constructor; [| constructor].
  rewrite empty_row_eq by done. rewrite <- list_fmap_compose.
  by rewrite list_fmap_id.
Qed.

Lemma add_column_result_well_formed s :
  well_formed s ->
  "New_Column_" +:+ pretty (length (columns s) + 1) ∉ columns s ->
  well_formed (add_column_result s).
Proof.
  intros [Hnd Hrows] Hfresh. split; cbn [add_column_result data columns].
  - apply NoDup_app. repeat split; [done | | apply NoDup_singleton].
    intros x Hx Hx'%list_elem_of_singleton. by subst.
  - apply Forall_fmap. eapply Forall_impl; [exact Hrows |].
    intros r Hr. cbn. rewrite entries_set_keys_fresh by (by rewrite Hr).
    by rewrite Hr.
Qed.

Lemma delete_column_result_well_formed name s :
  well_formed s -> well_formed (delete_column_result name s).
Proof.
  intros [Hnd Hrows]. split; cbn [delete_column_result data columns].
  - by apply NoDup_filter.
  - apply Forall_fmap. eapply Forall_impl; [exact Hrows |].
    intros r Hr. cbn. rewrite entries_del_keys by (by rewrite Hr).
    by rewrite Hr.
Qed.

Section Editing.

Variable float_repr : spec_float -> string.

(** X4.  A table edit followed by one undo restores the table as it was
    before the edit, exactly: this callback stores new lists in the table
    dict instead of changing the ones the pushed copy shares. *)
Theorem table_edit_then_undo (n_clicks : nat) (edited : list row) (s : snapshot)
    (st : option (list snapshot)) (file_data : file_store)
    (has_header : option (list string))
    (Hclick : 0 < n_clicks) (Hrows : edited ≠ []) :
  exists s' st' pv,
    update_csv_data_with_headers_callback float_repr (Some edited) (Some s) st
      file_data has_header
    = Some (Return (s', st', pv)) /\
    exists rest pv' msg,
      undo_changes_callback float_repr n_clicks (Some s') (Some st') file_data
      = Some (Return (update s, update rest, update pv', msg)).
Proof.
  destruct edited as [| r0 edited]; [done |].
  eexists _, _, _. split; [apply update_csv_data_with_headers_callback_eq |].
  destruct (push_items_snoc (stack_list st) s) as (init & -> & _).
  eexists _, _, _. by apply undo_changes_callback_pop.
Qed.

(** X5.  An undo right after [add_row] or [add_column] undoes nothing: the
    table it restores is the table with the new row, or the new column, in
    it. *)
Theorem add_then_undo_keeps_edit (n_clicks : nat) (s : snapshot)
    (st : option (list snapshot)) (filename : option string)
    (Hclick : 0 < n_clicks) :
  (exists st' pv rest pv' msg,
     add_row_callback float_repr n_clicks (Some s) st (file_dict filename)
     = Some (Return (add_row_result s, st', pv)) /\
     undo_changes_callback float_repr n_clicks (Some (add_row_result s))
       (Some st') (file_dict filename)
     = Some (Return (update (add_row_result s), update rest, update pv', msg)) /\
     length (data (add_row_result s)) = S (length (data s))) /\
  (exists st' pv rest pv' msg,
     add_column_callback float_repr n_clicks (Some s) st (file_dict filename)
     = Some (Return (add_column_result s, st', pv)) /\
     undo_changes_callback float_repr n_clicks (Some (add_column_result s))
       (Some st') (file_dict filename)
     = Some (Return (update (add_column_result s), update rest, update pv', msg)) /\
     length (columns (add_column_result s)) = S (length (columns s))).
Proof.
  split.
  - destruct (push_items_snoc (stack_list st) (add_row_result s))
      as (init & Hpush & _).
    eexists _, _, _, _, _. split; [by apply add_row_callback_eq |].
    rewrite Hpush. split; [by apply undo_changes_callback_pop |].
    cbn [add_row_result data]. rewrite length_app. cbn. lia.
  - destruct (push_items_snoc (stack_list st) (add_column_result s))
      as (init & Hpush & _).
    eexists _, _, _, _, _. split; [by apply add_column_callback_eq |].
    rewrite Hpush. split; [by apply undo_changes_callback_pop |].
    cbn [add_column_result columns]. rewrite length_app. cbn. lia.
Qed.

(** X6.  An undo right after a column was deleted brings back the name of
    the column but not its cells: the restored table lists the column again
    while every row still lacks it. *)
Theorem delete_then_undo_loses_cells (n_clicks : nat) (name : string)
    (s : snapshot) (st : option (list snapshot)) (file_data : file_store)
    (Hclick : 0 < n_clicks) (Hname : name ≠ "")
    (Hmany : 1 < length (columns s)) (Hin : name ∈ columns s) :
  exists s' st' pv msg sel restored rest pv' msg',
    delete_column_dropdown_callback float_repr n_clicks (Some name) (Some s) st
      file_data
    = Some (Return (update s', update st', pv, msg, sel)) /\
    undo_changes_callback float_repr n_clicks (Some s') (Some st') file_data
    = Some (Return (update restored, update rest, update pv', msg')) /\
    columns restored = columns s /\
    data restored = map (entries_del name) (data s).
Proof.
  destruct (push_items_snoc (stack_list st) (delete_column_saved name s))
    as (init & Hpush & _).
  eexists _, _, _, _, _, _, _, _, _.
  split; [by apply delete_column_callback_ok |].
  rewrite Hpush. split; [by apply undo_changes_callback_pop |]. done.
Qed.

(** X7.  [add_row] keeps a table well formed, and the row it appends has
    the empty string under every column. *)
Theorem add_row_keeps_well_formed (n_clicks : nat) (s : snapshot)
    (st : option (list snapshot)) (filename : option string)
    (Hclick : 0 < n_clicks) (Hwf : well_formed s) :
  exists s' st' pv,
    add_row_callback float_repr n_clicks (Some s) st (file_dict filename)
    = Some (Return (s', st', pv)) /\
    well_formed s' /\
    data s' = data s ++ [map (fun c => (c, PStr "")) (columns s)].
Proof.
  eexists _, _, _. split; [by apply add_row_callback_eq |].
  split; [by apply add_row_result_well_formed |].
  cbn [add_row_result data]. destruct Hwf as [Hnd _]. by rewrite empty_row_eq.
Qed.

(** X8.  [add_column] keeps a table well formed when the name it generates
    is not yet a column. *)
Theorem add_column_keeps_well_formed (n_clicks : nat) (s : snapshot)
    (st : option (list snapshot)) (filename : option string)
    (Hclick : 0 < n_clicks) (Hwf : well_formed s)
    (Hfresh : "New_Column_" +:+ pretty (length (columns s) + 1) ∉ columns s) :
  exists s' st' pv,
    add_column_callback float_repr n_clicks (Some s) st (file_dict filename)
    = Some (Return (s', st', pv)) /\
    well_formed s'.
Proof.
  eexists _, _, _. split; [by apply add_column_callback_eq |].
  by apply add_column_result_well_formed.
Qed.

(** X9.  A successful [delete_column_dropdown] keeps a table well formed
    and leaves one column less. *)
Theorem delete_column_keeps_well_formed (n_clicks : nat) (name : string)
    (s : snapshot) (st : option (list snapshot)) (file_data : file_store)
    (Hclick : 0 < n_clicks) (Hname : name ≠ "")
    (Hmany : 1 < length (columns s)) (Hin : name ∈ columns s)
    (Hwf : well_formed s) :
  exists s' st' pv msg sel,
    delete_column_dropdown_callback float_repr n_clicks (Some name) (Some s) st
      file_data
    = Some (Return (update s', st', pv, msg, sel)) /\
    well_formed s' /\
    S (length (columns s')) = length (columns s).
Proof.
  eexists _, _, _, _, _. split; [by apply delete_column_callback_ok |].
  split; [by apply delete_column_result_well_formed |].
  cbn [delete_column_result columns]. destruct Hwf as [Hnd _].
  by apply filter_ne_length.
Qed.


(** X11.  After Remove File no click changes a store: every editing
    callback raises [PreventUpdate], undo finds the stack empty and revert
    finds no original. *)
Theorem nothing_edits_after_remove_file (n_clicks : nat) (σ : session)
    (Hclick : 0 < n_clicks) :
  exists σ',
    remove_file n_clicks σ = Return σ' /\
    (forall e, apply_edit float_repr e σ' = σ') /\
    undo float_repr σ' = σ' /\
    revert float_repr σ' = σ'.
Proof.
  unfold remove_file. replace (n_clicks =? 0) with false
    by (symmetry; apply Nat.eqb_neq; lia).
  eexists. split; [done |]. repeat split.
  intros [| | name | table].
  - reflexivity.
  - reflexivity.
  - by destruct name.
  - by destruct table.
Qed.

(** X12.  The preview is built from the rows alone: an undo to a table
    without rows shows a preview without columns, whatever columns the
    table lists. *)
Theorem undo_to_no_rows_previews_no_columns (n_clicks : nat)
    (cur : option snapshot) (older : list snapshot) (cols : list string)
    (file_data : file_store) (Hclick : 0 < n_clicks) :
  undo_changes_callback float_repr n_clicks cur
    (Some (older ++ [Snapshot [] cols])) file_data
  = Some (Return (update (Snapshot [] cols), update older,
                  update (mkPreview [] [] true (file_filename_or_none file_data)),
                  undo_status_msg (length older))).
Proof. by rewrite undo_changes_callback_pop. Qed.


End Editing.


(** ** Instances of the editing properties *)

Lemma people_well_formed : well_formed people.
Proof.
  split; [apply (bool_decide_unpack _); by vm_compute | by repeat constructor].
Qed.

(** X4, at an edited first cell of the table of [people.csv]. *)
Lemma table_edit_then_undo_witness :
  0 < 1 /\ [[("name", PStr "Al"); ("age", PStr "31")]] ≠ [] /\
  exists s' st' pv,
    update_csv_data_with_headers_callback float_text
      (Some [[("name", PStr "Al"); ("age", PStr "31")]]) (Some people)
      (Some []) (file_dict (Some "people.csv")) None
    = Some (Return (s', st', pv)) /\
    exists rest pv' msg,
      undo_changes_callback float_text 1 (Some s') (Some st')
        (file_dict (Some "people.csv"))
      = Some (Return (update people, update rest, update pv', msg)).
Proof.
  split; [lia |]. split; [discriminate |].
  apply (table_edit_then_undo float_text 1); [lia | discriminate].
Defined.

(** X5, at the table of [people.csv] and an empty stack. *)
Lemma add_then_undo_keeps_edit_witness :
  0 < 1 /\
  length (data (add_row_result people)) = S (length (data people)) /\
  length (columns (add_column_result people)) = S (length (columns people)).
Proof.
  split; [lia |].
  destruct (add_then_undo_keeps_edit float_text 1 people (Some [])
              (Some "people.csv") ltac:(lia))
    as [(? & ? & ? & ? & ? & _ & _ & Hrow) (? & ? & ? & ? & ? & _ & _ & Hcol)].
  split; [exact Hrow | exact Hcol].
Defined.

(** X6, at the column [age] of the table of [people.csv]. *)
Lemma delete_then_undo_loses_cells_witness :
  0 < 1 /\ "age" ≠ "" /\ 1 < length (columns people) /\
  "age" ∈ columns people /\
  exists s' st' pv msg sel restored rest pv' msg',
    delete_column_dropdown_callback float_text 1 (Some "age") (Some people)
      (Some []) (file_dict None)
    = Some (Return (update s', update st', pv, msg, sel)) /\
    undo_changes_callback float_text 1 (Some s') (Some st') (file_dict None)
    = Some (Return (update restored, update rest, update pv', msg')) /\
    columns restored = columns people /\
    data restored = map (entries_del "age") (data people).
Proof.
  split; [lia |]. split; [discriminate |]. split; [simpl; lia |].
  split; [right; left |].
  apply (delete_then_undo_loses_cells float_text 1 "age" people (Some [])
           (file_dict None)).
  - lia.
  - discriminate.
  - simpl. lia.
  - right. left.
Defined.

(** X7, at the table of [people.csv]. *)
Lemma add_row_keeps_well_formed_witness :
  0 < 1 /\ well_formed people /\
  exists s' st' pv,
    add_row_callback float_text 1 (Some people) (Some [])
      (file_dict (Some "people.csv"))
    = Some (Return (s', st', pv)) /\
    well_formed s' /\
    data s' = data people ++ [[("name", PStr ""); ("age", PStr "")]].
Proof.
  split; [lia |]. split; [exact people_well_formed |].
  apply (add_row_keeps_well_formed float_text 1 people (Some [])
           (Some "people.csv")); [lia | exact people_well_formed].
Defined.

(** X8, at the table of [people.csv]: [New_Column_3] is no column yet. *)
Lemma add_column_keeps_well_formed_witness :
  0 < 1 /\ well_formed people /\
  ("New_Column_" +:+ pretty (length (columns people) + 1) ∉ columns people) /\
  exists s' st' pv,
    add_column_callback float_text 1 (Some people) (Some [])
      (file_dict (Some "people.csv"))
    = Some (Return (s', st', pv)) /\
    well_formed s'.
Proof.
  assert (Hfresh : "New_Column_" +:+ pretty (length (columns people) + 1)
                   ∉ columns people)
    by (apply (bool_decide_unpack _); by vm_compute).
  split; [lia |]. split; [exact people_well_formed |]. split; [exact Hfresh |].
  apply (add_column_keeps_well_formed float_text 1 people (Some [])
           (Some "people.csv")); [lia | exact people_well_formed | exact Hfresh].
Defined.

(** X9, at the column [age] of the table of [people.csv]. *)
Lemma delete_column_keeps_well_formed_witness :
  0 < 1 /\ "age" ≠ "" /\ 1 < length (columns people) /\
  "age" ∈ columns people /\ well_formed people /\
  exists s' st' pv msg sel,
    delete_column_dropdown_callback float_text 1 (Some "age") (Some people)
      (Some []) (file_dict None)
    = Some (Return (update s', st', pv, msg, sel)) /\
    well_formed s' /\
    S (length (columns s')) = length (columns people).
Proof.
  split; [lia |]. split; [discriminate |]. split; [simpl; lia |].
  split; [right; left |]. split; [exact people_well_formed |].
  apply (delete_column_keeps_well_formed float_text 1 "age" people (Some [])
           (file_dict None)).
  - lia.
  - discriminate.
  - simpl. lia.
  - right. left.
  - exact people_well_formed.
Defined.


(** X11, at the session of [people.csv]. *)
Lemma nothing_edits_after_remove_file_witness :
  0 < 1 /\
  exists σ',
    remove_file 1 people_session = Return σ' /\
    (forall e, apply_edit float_text e σ' = σ') /\
    undo float_text σ' = σ' /\
    revert float_text σ' = σ'.
Proof.
  split; [lia |].
  apply (nothing_edits_after_remove_file float_text 1 people_session). lia.
Defined.

(** X12, at a stack whose last entry lists two columns and no row. *)
Lemma undo_to_no_rows_previews_no_columns_witness :
  0 < 1 /\
  undo_changes_callback float_text 1 (Some people)
    (Some [Snapshot [] ["name"; "age"]]) (file_dict (Some "people.csv"))
  = Some (Return (update (Snapshot [] ["name"; "age"]), update [],
                  update (mkPreview [] [] true (Some "people.csv")),
                  undo_status_msg 0)).
Proof.
  split; [lia |].
  apply (undo_to_no_rows_previews_no_columns float_text 1 (Some people) []
           ["name"; "age"] (file_dict (Some "people.csv"))). lia.
Defined.



(** ** Paths and names *)

Lemma endswith_eq s suffix :
  endswith s suffix
  = (String.eqb s suffix
     || match s with
        | EmptyString => false
        | String _ s' => endswith s' suffix
        end).
Proof. by destruct s. Qed.

Lemma endswith_refl s : endswith s s = true.
Proof. by rewrite endswith_eq, String.eqb_refl. Qed.

Lemma endswith_app s suffix : endswith (s +:+ suffix) suffix = true.
Proof.
  induction s as [| a s IH]; [apply endswith_refl |].
  change (String a s +:+ suffix) with (String a (s +:+ suffix)).
  rewrite endswith_eq, IH. apply orb_true_r.
Qed.

Lemma endswith_nonempty s suffix :
  suffix ≠ "" -> endswith s suffix = true -> s ≠ "".
Proof.
  intros Hne E ->. rewrite endswith_eq, orb_false_r in E.
  apply String.eqb_eq in E. by subst.
Qed.

Lemma rstrip_snoc c s : rstrip c (s +:+ String c "") = rstrip c s.
Proof.
  induction s as [| a s IH].
  - change (rstrip c (String c "") = ""). cbn [rstrip].
    by rewrite Ascii.eqb_refl.
  - change (String a s +:+ String c "") with (String a (s +:+ String c "")).
    cbn [rstrip]. by rewrite IH.
Qed.

Lemma eqb_single a b c t : (String a (String b t) =? String c "")%string = false.
Proof. cbn. by destruct (Ascii.eqb a c). Qed.

Lemma rstrip_no_trailing c s : endswith (rstrip c s) (String c "") = false.
Proof.
  induction s as [| a s IH]; [done |].
  cbn [rstrip]. destruct (rstrip c s) as [| b t] eqn:E.
  - destruct (Ascii.eqb_spec a c) as [-> | Hne]; [done |].
    rewrite endswith_eq. cbn.
    destruct (Ascii.eqb_spec a c); done.
  - rewrite endswith_eq, IH, orb_false_r. apply eqb_single.
Qed.

Lemma rstrip_fixed c s :
  endswith s (String c "") = false -> rstrip c s = s.
Proof.
  induction s as [| a s IH]; [done |].
  intros E. rewrite endswith_eq in E.
  apply orb_false_elim in E as [E1 E2].
  cbn [rstrip]. rewrite (IH E2). destruct s as [| b t]; [| done].
  cbn in E1. destruct (Ascii.eqb a c); done.
Qed.

Lemma string_app_assoc (a b c : string) : (a +:+ b) +:+ c = a +:+ (b +:+ c).
Proof.
  induction a as [| x a IH]; [done |].
  change (String x ((a +:+ b) +:+ c) = String x (a +:+ (b +:+ c))).
  by rewrite IH.
Qed.

Lemma prefix_app p s : String.prefix p (p +:+ s) = true.
Proof.
  induction p as [| a p IH]; [by destruct s |].
  change (String a p +:+ s) with (String a (p +:+ s)).
  cbn [String.prefix]. by destruct (ascii_dec a a).
Qed.

Lemma csv_filename_endswith f : endswith (csv_filename f) ".csv" = true.
Proof.
  unfold csv_filename.
  destruct (endswith (str_or f "uploaded_data") ".csv") eqn:E; [done |].
  apply endswith_app.
Qed.

Lemma str_or_nonempty s d : s ≠ "" -> str_or (Some s) d = s.
Proof. intros Hs. cbn. by destruct (String.eqb_spec s ""). Qed.

Lemma string_forall_app p s t :
  string_forall p (s +:+ t) = string_forall p s && string_forall p t.
Proof.
  induction s as [| a s IH]; [done |].
  change (String a s +:+ t) with (String a (s +:+ t)).
  cbn [string_forall]. by rewrite IH, andb_assoc.
Qed.

Lemma replace_from_forall p old new k s :
  string_forall p new = true -> string_forall p s = true ->
  string_forall p (replace_from old new k s) = true.
Proof.
  intros Hnew. revert k. induction s as [| a s IH]; intros k Hs; [done |].
  cbn [string_forall] in Hs. apply andb_true_iff in Hs as [Ha Hs].
  cbn [replace_from]. destruct k as [| k]; [| by apply IH].
  destruct (String.prefix old (String a s)).
  - rewrite string_forall_app, Hnew. by apply IH.
  - cbn [string_forall]. rewrite Ha. by apply IH.
Qed.

Lemma prefix_single c a s :
  String.prefix (String c "") (String a s) = Ascii.eqb c a.
Proof.
  cbn. destruct (ascii_dec c a) as [-> | Hne].
  - rewrite Ascii.eqb_refl. by destruct s.
  - symmetry. by apply Ascii.eqb_neq.
Qed.

(** Replacing a character leaves none of it. *)
Lemma replace_char_removes c new s :
  string_forall (fun a => negb (Ascii.eqb a c)) new = true ->
  string_forall (fun a => negb (Ascii.eqb a c))
    (str_replace (String c "") new s) = true.
Proof.
  intros Hnew. unfold str_replace.
  induction s as [| a s IH]; [done |].
  cbn [replace_from]. rewrite prefix_single.
  destruct (Ascii.eqb_spec c a) as [<- | Hne].
  - rewrite string_forall_app, Hnew. exact IH.
  - cbn [string_forall]. rewrite IH, andb_true_r.
    apply negb_true_iff, Ascii.eqb_neq. congruence.
Qed.

Lemma string_forall_map p f s :
  (forall a, p (f a) = true) -> string_forall p (string_map f s) = true.
Proof.
  intros H. induction s as [| a s IH]; [done |]. cbn. by rewrite H, IH.
Qed.

Lemma string_forall_map_impl (p q : ascii -> bool) f s :
  (forall a, p a = true -> q (f a) = true) ->
  string_forall p s = true -> string_forall q (string_map f s) = true.
Proof.
  intros H. induction s as [| a s IH]; [done |]. cbn.
  intros [Ha Hs]%andb_true_iff. by rewrite (H _ Ha), IH.
Qed.

Lemma string_forall_filter p q s :
  string_forall p s = true -> string_forall p (string_filter q s) = true.
Proof.
  induction s as [| a s IH]; [done |]. cbn.
  intros [Ha Hs]%andb_true_iff. destruct (q a); [cbn; rewrite Ha |]; by apply IH.
Qed.

Lemma string_filter_forall q s : string_forall q (string_filter q s) = true.
Proof.
  induction s as [| a s IH]; [done |]. cbn.
  destruct (q a) eqn:E; [cbn; by rewrite E |]. done.
Qed.

Lemma string_forall_and p q s :
  string_forall p s = true -> string_forall q s = true ->
  string_forall (fun a => p a && q a) s = true.
Proof.
  induction s as [| a s IH]; [done |]. cbn.
  intros [Ha Hs]%andb_true_iff [Hb Ht]%andb_true_iff.
  by rewrite Ha, Hb, IH.
Qed.

Lemma string_forall_impl (p q : ascii -> bool) s :
  (forall a, p a = true -> q a = true) ->
  string_forall p s = true -> string_forall q s = true.
Proof.
  intros H. induction s as [| a s IH]; [done |]. cbn.
  intros [Ha Hs]%andb_true_iff. by rewrite (H _ Ha), IH.
Qed.

Lemma lower_char_not_upper a : is_upper (lower_char a) = false.
Proof. by destruct a as [[] [] [] [] [] [] [] []]. Qed.

Lemma lower_char_keeps (c a : ascii) :
  is_upper c = false -> is_lower c = false ->
  Ascii.eqb a c = false -> Ascii.eqb (lower_char a) c = false.
Proof.
  intros Hu Hl Ha. unfold lower_char. destruct (is_upper a) eqn:E; [| done].
  apply Ascii.eqb_neq. intros <-. revert E Hl.
  by destruct a as [[] [] [] [] [] [] [] []].
Qed.

Lemma endswith_app_r s t suffix :
  endswith t suffix = true -> endswith (s +:+ t) suffix = true.
Proof.
  intros H. induction s as [| a s IH]; [done |].
  change (String a s +:+ t) with (String a (s +:+ t)).
  rewrite endswith_eq, IH. apply orb_true_r.
Qed.

Lemma endswith_char_app s t c :
  t ≠ "" -> endswith (s +:+ t) (String c "") = endswith t (String c "").
Proof.
  intros Ht. induction s as [| a s IH]; [done |].
  change (String a s +:+ t) with (String a (s +:+ t)).
  rewrite endswith_eq, IH.
  destruct (s +:+ t) as [| b u] eqn:E.
  - destruct s; [by subst | discriminate].
  - by rewrite eqb_single.
Qed.

Lemma str_truthy_text v : str_truthy v = false -> str_or v "" = "".
Proof. destruct v as [s |]; [| done]. cbn. by destruct (String.eqb s ""). Qed.

(** X14.  The volume path shown always starts with [/Volumes/] and ends
    with a slash; a schema or volume typed without a catalog, and a volume
    typed without a schema, are left out of it. *)
Theorem volume_path_shape (catalog schema volume : option string) :
  startswith (update_volume_path catalog schema volume) "/Volumes/" = true /\
  endswith (update_volume_path catalog schema volume) "/" = true /\
  update_volume_path None schema volume = "/Volumes/" /\
  update_volume_path (Some "") schema volume = "/Volumes/" /\
  update_volume_path catalog None volume = update_volume_path catalog None None /\
  update_volume_path catalog (Some "") volume
  = update_volume_path catalog None None.
Proof.
  split; [| split; [| split; [done | split; [done | split]]]].
  - unfold startswith, update_volume_path.
    repeat match goal with |- context [if ?b then _ else _] => destruct b end;
      apply prefix_app || done.
  - unfold update_volume_path.
    repeat match goal with |- context [if ?b then _ else _] => destruct b end;
      repeat (done || apply endswith_app_r).
  - unfold update_volume_path. cbn. by rewrite !andb_false_r.
  - unfold update_volume_path. cbn. by rewrite !andb_false_r.
Qed.

(** X15.  The name of the file in the volume always ends with [.csv], and
    computing it again from itself changes nothing. *)
Theorem csv_filename_idempotent (upload_filename : option string) :
  endswith (csv_filename upload_filename) ".csv" = true /\
  csv_filename (Some (csv_filename upload_filename))
  = csv_filename upload_filename.
Proof.
  pose proof (csv_filename_endswith upload_filename) as E.
  split; [exact E |].
  unfold csv_filename at 1.
  rewrite str_or_nonempty by (eapply endswith_nonempty; [| exact E]; done).
  by rewrite E.
Qed.

(** X16.  Slashes at the end of the volume path do not change where the
    file is written, the directory part of that place never ends with a
    slash, and the table's LOCATION is that same place. *)
Theorem full_path_ignores_trailing_slash (volume_path : string)
    (upload_filename : option string) :
  full_path (volume_path +:+ "/") upload_filename
  = full_path volume_path upload_filename /\
  (exists dir,
     full_path volume_path upload_filename
     = dir +:+ "/" +:+ csv_filename upload_filename /\
     endswith dir "/" = false) /\
  location_path volume_path upload_filename
  = full_path volume_path upload_filename.
Proof.
  split; [| split; [| done]].
  - unfold full_path. by rewrite rstrip_snoc.
  - exists (rstrip "/" volume_path). split; [done |]. apply rstrip_no_trailing.
Qed.

(** X17.  With a catalog, a schema and a volume typed in, none empty and
    the volume not ending with a slash, the file is written to
    [/Volumes/catalog/schema/volume/name.csv]. *)
Theorem full_path_of_volume_path (catalog schema volume : string)
    (upload_filename : option string)
    (Hcatalog : catalog ≠ "") (Hschema : schema ≠ "") (Hvolume : volume ≠ "")
    (Hslash : endswith volume "/" = false) :
  full_path (update_volume_path (Some catalog) (Some schema) (Some volume))
    upload_filename
  = "/Volumes/" +:+ catalog +:+ "/" +:+ schema +:+ "/" +:+ volume +:+ "/"
    +:+ csv_filename upload_filename.
Proof.
  unfold full_path, update_volume_path. cbn [str_truthy str_text default].
  destruct (String.eqb_spec catalog ""); [done |].
  destruct (String.eqb_spec schema ""); [done |].
  destruct (String.eqb_spec volume ""); [done |].
  cbn [negb andb]. unfold id.
  replace ("/Volumes/" +:+ catalog +:+ "/" +:+ schema +:+ "/" +:+ volume +:+ "/")
    with (("/Volumes/" +:+ catalog +:+ "/" +:+ schema +:+ "/" +:+ volume) +:+ "/")
    by (by rewrite !string_app_assoc).
  rewrite rstrip_snoc.
  replace ("/Volumes/" +:+ catalog +:+ "/" +:+ schema +:+ "/" +:+ volume)
    with (("/Volumes/" +:+ catalog +:+ "/" +:+ schema +:+ "/") +:+ volume)
    by (by rewrite !string_app_assoc).
  rewrite rstrip_fixed by (by rewrite endswith_char_app).
  by rewrite !string_app_assoc.
Qed.

(** X18.  Without a table name typed in, the table name of the statement
    has no space, no hyphen and no upper-case letter; an empty table name
    counts as none. *)
Theorem default_table_name_chars (upload_filename : option string) :
  string_forall
    (fun a => negb (Ascii.eqb a " ") && negb (Ascii.eqb a "-")
              && negb (is_upper a))
    (table_name_final None upload_filename) = true /\
  table_name_final (Some "") upload_filename
  = table_name_final None upload_filename.
Proof.
  split; [| done]. unfold table_name_final, str_or, lower.
  apply (string_forall_map_impl
           (fun a => negb (Ascii.eqb a " ") && negb (Ascii.eqb a "-"))).
  - intros a [H1 H2]%andb_true_iff.
    apply negb_true_iff in H1. apply negb_true_iff in H2.
    rewrite lower_char_not_upper.
    rewrite (lower_char_keeps " " a), (lower_char_keeps "-" a); done.
  - apply string_forall_and.
    + apply replace_from_forall; [done |]. by apply replace_char_removes.
    + by apply replace_char_removes.
Qed.

(** X19.  For a file name of ASCII characters, the table name proposed at
    upload has only lower-case letters, digits and underscores. *)
Theorem upload_table_name_chars (filename : string)
    (Hascii : string_forall is_ascii filename = true) :
  string_forall (fun c => is_digit c || is_lower c || Ascii.eqb c "_")
    (upload_table_name filename) = true.
Proof.
  unfold upload_table_name.
  apply (string_forall_impl
           (fun c => (isalnum c || Ascii.eqb c "_") && negb (is_upper c))).
  { intros a [H1 H2]%andb_true_iff. unfold isalnum in H1.
    apply negb_true_iff in H2. rewrite H2, orb_false_r in H1. exact H1. }
  apply string_forall_and; [apply string_filter_forall |].
  apply string_forall_filter.
  apply replace_from_forall; [done |].
  apply replace_from_forall; [done |].
  apply string_forall_map. intros a. by rewrite lower_char_not_upper.
Qed.

(** X20.  The columns of the statement come from the rows alone: for a
    table without rows the statement declares no column, whatever columns
    the table lists. *)
Theorem sql_of_no_rows_has_no_columns (cols : list string)
    (table_name upload_filename : option string) (volume_path : string) :
  sql_query (Snapshot [] cols) table_name upload_filename volume_path
  = "CREATE TABLE " +:+ table_name_final table_name upload_filename +:+ " ("
    +:+ newline +:+ "  " +:+ newline +:+ ")" +:+ newline
    +:+ "USING DELTA" +:+ newline
    +:+ "LOCATION '" +:+ full_path volume_path upload_filename +:+ "'".
Proof. reflexivity. Qed.

(** ** The client *)

(** X21.  The client is requested at most once: after a first call, every
    later call gives what the first call gave and leaves the globals as
    they are, whatever the constructor would give then. *)
Theorem client_requested_once {Client : Type} (DATABRICKS_AVAILABLE : bool)
    (first later : option Client) (g : client_state Client) :
  get_databricks_client Client DATABRICKS_AVAILABLE later
    (get_databricks_client Client DATABRICKS_AVAILABLE first g).2
  = get_databricks_client Client DATABRICKS_AVAILABLE first g.
Proof.
  unfold get_databricks_client.
  destruct DATABRICKS_AVAILABLE; [| done]. cbn [negb].
  destruct g as [[c |] [|]]; cbn; try done.
  by destruct first.
Qed.

(** X22.  A failed authentication is final and not shown: with no client
    yet and a constructor that raises, the banner still says that the app
    will authenticate later, and no later call reaches the constructor. *)
Theorem failed_authentication_is_final {Client : Type}
    (g : client_state Client) (Hnone : w Client g = None) :
  let g' := (get_databricks_client Client true None g).2 in
  show_auth_status Client true g'
  = "🔄 Databricks ready (will authenticate when uploading or creating tables)"
  /\ forall later : option Client,
       get_databricks_client Client true later g' = (None, g').
Proof.
  destruct g as [w0 a]. cbn in Hnone. subst w0.
  unfold get_databricks_client. cbn. destruct a; cbn; done.
Qed.

(** ** The statement and its warehouse *)

Lemma substring_all s : substring 0 (String.length s) s = s.
Proof. induction s as [| a s IH]; [done |]. cbn. by rewrite IH. Qed.

Lemma rfind_app_sep c p t :
  rfind c t = None ->
  exists i, rfind c (p +:+ String c t) = Some i /\
            substring (S i) (String.length (p +:+ String c t) - S i)
              (p +:+ String c t) = t.
Proof.
  intros Ht. induction p as [| a p (i & Hi & Hsub)].
  - exists 0. change ("" +:+ String c t) with (String c t).
    cbn [rfind]. rewrite Ht, Ascii.eqb_refl. split; [done |].
    change (substring 0 (String.length t - 0) t = t).
    rewrite Nat.sub_0_r. apply substring_all.
  - exists (S i). change (String a p +:+ String c t)
      with (String a (p +:+ String c t)).
    cbn [rfind]. rewrite Hi. split; [done |].
    exact Hsub.
Qed.

Lemma split_last_app c p t :
  rfind c t = None -> split_last c (p +:+ String c t) = t.
Proof.
  intros Ht. unfold split_last.
  destruct (rfind_app_sep c p t Ht) as (i & -> & Hsub). exact Hsub.
Qed.

Lemma rfind_app_sep_some c p t : rfind c (p +:+ String c t) <> None.
Proof.
  induction p as [| a p IH].
  - change ("" +:+ String c t) with (String c t). cbn [rfind].
    destruct (rfind c t); [done |]. by rewrite Ascii.eqb_refl.
  - change (String a p +:+ String c t) with (String a (p +:+ String c t)).
    cbn [rfind]. destruct (rfind c (p +:+ String c t)); done.
Qed.

(** X23.  The warehouse the statement is sent to is what follows the last
    slash of the configured path, and the check for the placeholder looks
    at the whole path only: a path that ends in [/your-warehouse-id] passes
    it and names the warehouse [your-warehouse-id]. *)
Theorem warehouse_id_is_last_segment {Client : Type}
    (execute_statement : Client -> string -> string -> statement_result)
    (n_clicks : nat) (DATABRICKS_AVAILABLE : bool)
    (WorkspaceClient : option Client) (g g' : client_state Client)
    (c : Client) (prefix warehouse_id stored_query : string)
    (Hclick : 0 < n_clicks)
    (Hclient : get_databricks_client Client DATABRICKS_AVAILABLE
                 WorkspaceClient g = (Some c, g'))
    (Hquery : stored_query ≠ "")
    (Hid : rfind "/" warehouse_id = None) :
  execute_sql_query Client execute_statement n_clicks DATABRICKS_AVAILABLE
    WorkspaceClient (prefix +:+ "/" +:+ warehouse_id) (Some stored_query) g
  = (Return (statement_outcome
               (execute_statement c warehouse_id stored_query)), g').
Proof.
  unfold execute_sql_query.
  replace (n_clicks =? 0) with false by (symmetry; apply Nat.eqb_neq; lia).
  rewrite Hclient.
  assert (Hpath : forall s, rfind "/" s = None ->
                    (prefix +:+ "/" +:+ warehouse_id =? s)%string = false).
  { intros s Hs. apply String.eqb_neq. intros E.
    apply (rfind_app_sep_some "/" prefix warehouse_id).
    change (prefix +:+ String "/" warehouse_id)
      with (prefix +:+ "/" +:+ warehouse_id).
    by rewrite E. }
  rewrite !Hpath by done. cbn [orb str_truthy str_text default].
  destruct (String.eqb_spec stored_query ""); [done |]. cbn [negb].
  change (prefix +:+ "/" +:+ warehouse_id)
    with (prefix +:+ String "/" warehouse_id).
  by rewrite split_last_app.
Qed.

(** ** The configuration *)

(** X24.  [validate_config] reports nothing exactly when the host is set
    and is not the placeholder, [get_auth_method] names a method, and the
    volume path starts with [/Volumes/]. *)
Theorem validate_config_accepts (db_config : DatabaseConfig)
    (DEFAULT_VOLUME_PATH : string) :
  validate_config db_config DEFAULT_VOLUME_PATH = [] <->
  host db_config ≠ "" /\
  host db_config ≠ "https://your-workspace.cloud.databricks.com" /\
  get_auth_method db_config ≠ "None" /\
  startswith DEFAULT_VOLUME_PATH "/Volumes/" = true.
Proof.
  unfold validate_config, is_valid, get_auth_method.
  destruct db_config as [h t o p]. cbn [host token oauth_token].
  destruct (String.eqb_spec h ""),
    (String.eqb_spec h "https://your-workspace.cloud.databricks.com"),
    (String.eqb_spec o ""), (String.eqb_spec t ""),
    (startswith DEFAULT_VOLUME_PATH "/Volumes/");
    cbn; (split; [try done; intros _; repeat split; done
                 | try done; intros (? & ? & ? & ?); done]).
Qed.

(** ** Columns that are neither text nor numbers *)

Lemma scan_objects_bool vals seen :
  bool_ seen = true -> bool_ (scan_objects vals seen) = true.
Proof.
  revert seen. induction vals as [| v vals IH]; intros seen H; [done |].
  destruct v as [| b | z | f | s]; cbn [scan_objects].
  - by apply IH.
  - by apply IH.
  - destruct (null_ seen); [by apply IH |].
    match goal with |- context [if ?b then _ else _] => destruct b end;
      [done | by apply IH].
  - destruct f; by apply IH.
  - done.
Qed.

Lemma scan_objects_sees_bool vals seen :
  existsb is_bool vals = true ->
  bool_ (scan_objects vals seen) = true \/
  object_ (scan_objects vals seen) = true.
Proof.
  revert seen. induction vals as [| v vals IH]; intros seen H; [done |].
  destruct v as [| b | z | f | s]; cbn [scan_objects]; cbn in H.
  - by apply IH.
  - left. by apply scan_objects_bool.
  - destruct (null_ seen); [by apply IH |].
    match goal with |- context [if ?b then _ else _] => destruct b end;
      [by right | by apply IH].
  - destruct f; by apply IH.
  - by right.
Qed.

(** X25.  A column with a boolean in it is declared STRING, whatever else
    it holds. *)
Theorem boolean_column_is_string (s : snapshot) (col : string)
    (Hbool : existsb is_bool (column_cells (data s) col) = true) :
  sql_type (column_dtype (data s) col) = "STRING".
Proof.
  unfold column_dtype, maybe_convert_objects.
  fold (column_cells (data s) col).
  destruct (scan_objects_sees_bool _ seen_nothing Hbool) as [-> | E].
  - by destruct (negb _).
  - rewrite E. destruct (bool_ _); [| done].
    rewrite !orb_true_r. done.
Qed.

Lemma scan_objects_unsigned vals seen :
  forallb is_uint64 vals = true ->
  null_ seen = false -> sint_ seen = false ->
  scan_objects vals seen
  = mkSeen false (nan_ seen) (bool_ seen)
      (int_ seen || negb (Nat.eqb (length vals) 0))
      (uint_ seen || existsb above_int64 vals) false
      (float_ seen) (object_ seen).
Proof.
  revert seen. induction vals as [| v vals IH]; intros seen Hall Hnull Hsint.
  - destruct seen. cbn in *. subst. by rewrite !orb_false_r.
  - cbn [forallb] in Hall. apply andb_true_iff in Hall as [Hv Hall].
    destruct v as [| b | z | f | s]; try done.
    cbn [is_uint64] in Hv. apply andb_true_iff in Hv as [H0 Hmax].
    apply Z.leb_le in H0. apply Z.leb_le in Hmax.
    cbn [scan_objects]. rewrite Hnull, Hsint. cbn [orb].
    replace (z <? 0)%Z with false by (symmetry; apply Z.ltb_ge; lia).
    replace (UINT64_MAX <? z)%Z with false by (symmetry; apply Z.ltb_ge; lia).
    replace (z <? INT64_MIN)%Z with false
      by (symmetry; apply Z.ltb_ge; unfold INT64_MIN; lia).
    rewrite !andb_false_r. cbn [orb].
    rewrite IH by done. cbn [null_ nan_ bool_ int_ uint_ sint_ float_ object_].
    replace (z <=? UINT64_MAX)%Z with true by (symmetry; apply Z.leb_le; lia).
    rewrite andb_true_r. cbn [existsb above_int64 length Nat.eqb negb].
    by rewrite orb_true_r, orb_assoc.
Qed.

(** X26.  A column of integers that fit [uint64], one of them above the
    range of [int64], is declared STRING and not BIGINT. *)
Theorem unsigned_column_is_string (s : snapshot) (col : string)
    (Hall : forallb is_uint64 (column_cells (data s) col) = true)
    (Hbig : existsb above_int64 (column_cells (data s) col) = true) :
  column_dtype (data s) col = dt_uint64 /\
  sql_type (column_dtype (data s) col) = "STRING".
Proof.
  assert (E : column_dtype (data s) col = dt_uint64); [| by rewrite E].
  unfold column_dtype, maybe_convert_objects.
  fold (column_cells (data s) col).
  rewrite (scan_objects_unsigned _ seen_nothing Hall) by done.
  cbn [null_ nan_ bool_ int_ uint_ sint_ float_ object_ seen_nothing orb].
  rewrite Hbig.
  destruct (column_cells (data s) col); [done |]. done.
Qed.

(** ** Instances of the properties of paths, client and columns *)

(** X17, at the catalog [main], the schema [default], the volume
    [csv_uploads] and the file name [people]. *)
Lemma full_path_of_volume_path_witness :
  "main" ≠ "" /\ "default" ≠ "" /\ "csv_uploads" ≠ "" /\
  endswith "csv_uploads" "/" = false /\
  full_path (update_volume_path (Some "main") (Some "default")
               (Some "csv_uploads")) (Some "people")
  = "/Volumes/main/default/csv_uploads/people.csv".
Proof.
  split; [discriminate |]. split; [discriminate |]. split; [discriminate |].
  split; [reflexivity |].
  exact (full_path_of_volume_path "main" "default" "csv_uploads" (Some "people")
           ltac:(discriminate) ltac:(discriminate) ltac:(discriminate)
           eq_refl).
Defined.

(** X19, at the file name [My-Data File.csv], whose table name is
    [my_data_file]. *)
Lemma upload_table_name_chars_witness :
  string_forall is_ascii "My-Data File.csv" = true /\
  string_forall (fun c => is_digit c || is_lower c || Ascii.eqb c "_")
    (upload_table_name "My-Data File.csv") = true /\
  upload_table_name "My-Data File.csv" = "my_data_file".
Proof.
  split; [reflexivity |].
  split; [exact (upload_table_name_chars "My-Data File.csv" eq_refl) |].
  reflexivity.
Defined.

(** X22, at the globals of a fresh process. *)
Lemma failed_authentication_is_final_witness :
  w unit (no_client unit) = None /\
  show_auth_status unit true (get_databricks_client unit true None (no_client unit)).2
  = "🔄 Databricks ready (will authenticate when uploading or creating tables)"
  /\ forall later : option unit,
       get_databricks_client unit true later
         (get_databricks_client unit true None (no_client unit)).2
       = (None, (get_databricks_client unit true None (no_client unit)).2).
Proof.
  split; [reflexivity |].
  exact (failed_authentication_is_final (no_client unit) eq_refl).
Defined.

(** X23, at the path [/sql/1.0/warehouses/your-warehouse-id] of the
    fallback configuration and a warehouse that answers with its id. *)
Lemma warehouse_id_is_last_segment_witness :
  0 < 1 /\
  get_databricks_client unit true (Some tt) (no_client unit)
  = (Some tt, mkClientState unit (Some tt) true) /\
  "CREATE TABLE t" ≠ "" /\
  rfind "/" "your-warehouse-id" = None /\
  execute_sql_query unit (fun _ warehouse_id _ => statement_raised warehouse_id)
    1 true (Some tt) "/sql/1.0/warehouses/your-warehouse-id"
    (Some "CREATE TABLE t") (no_client unit)
  = (Return (mkDiv "❌ Execution failed: your-warehouse-id" "status-error"),
     mkClientState unit (Some tt) true).
Proof.
  split; [lia |]. split; [reflexivity |]. split; [discriminate |].
  split; [reflexivity |].
  exact (warehouse_id_is_last_segment
           (fun _ warehouse_id _ => statement_raised warehouse_id)
           1 true (Some tt) (no_client unit) (mkClientState unit (Some tt) true)
           tt "/sql/1.0/warehouses" "your-warehouse-id" "CREATE TABLE t"
           ltac:(lia) eq_refl ltac:(discriminate) eq_refl).
Defined.

(** X24, at a host with a token and the volume path of the defaults. *)
Lemma validate_config_accepts_witness :
  validate_config
    (mkDatabaseConfig "https://adb-1.azuredatabricks.net" "dapi1" ""
       "/sql/1.0/warehouses/a1")
    "/Volumes/main/default/csv_uploads/" = [].
Proof.
  apply (proj2 (validate_config_accepts
                  (mkDatabaseConfig "https://adb-1.azuredatabricks.net" "dapi1"
                     "" "/sql/1.0/warehouses/a1")
                  "/Volumes/main/default/csv_uploads/")).
  split; [discriminate |]. split; [discriminate |]. split; [discriminate |].
  reflexivity.
Defined.

(** X25, at a column of two booleans. *)
Lemma boolean_column_is_string_witness :
  existsb is_bool
    (column_cells
       (data (Snapshot [[("ok", PBool true)]; [("ok", PBool false)]] ["ok"]))
       "ok") = true /\
  sql_type
    (column_dtype
       (data (Snapshot [[("ok", PBool true)]; [("ok", PBool false)]] ["ok"]))
       "ok") = "STRING".
Proof.
  split; [reflexivity |].
  exact (boolean_column_is_string
           (Snapshot [[("ok", PBool true)]; [("ok", PBool false)]] ["ok"]) "ok"
           eq_refl).
Defined.

(** X26, at a column that holds [1] and [2 ^ 63]. *)
Lemma unsigned_column_is_string_witness :
  forallb is_uint64
    (column_cells
       (data (Snapshot [[("n", PInt 1)]; [("n", PInt (2 ^ 63))]] ["n"]))
       "n") = true /\
  existsb above_int64
    (column_cells
       (data (Snapshot [[("n", PInt 1)]; [("n", PInt (2 ^ 63))]] ["n"]))
       "n") = true /\
  column_dtype
    (data (Snapshot [[("n", PInt 1)]; [("n", PInt (2 ^ 63))]] ["n"])) "n"
  = dt_uint64 /\
  sql_type
    (column_dtype
       (data (Snapshot [[("n", PInt 1)]; [("n", PInt (2 ^ 63))]] ["n"])) "n")
  = "STRING".
Proof.
  split; [reflexivity |]. split; [reflexivity |].
  exact (unsigned_column_is_string
           (Snapshot [[("n", PInt 1)]; [("n", PInt (2 ^ 63))]] ["n"]) "n"
           eq_refl eq_refl).
Defined.
